(** * Clarity website analyzer: a shallow embedding of [lib/analyzer.ts]

    The analysis engine [WebsiteAnalyzer] fetches one HTML page, parses it
    with cheerio and derives six module scores, an overall score and a list
    of recommendations.  This development embeds the class method by method,
    and the request handler of [app/api/analyze/route.ts] that calls it, and
    proves the properties its specification states about it.

    Numbers.  Counts ([.length]) are [nat], integer scores are [Z], and the
    ratios the code forms with [/] and decimal constants are exact rationals
    [Q]: the binary64 rounding of JavaScript arithmetic is not modelled.

    Strings.  A JavaScript string is modelled by [JS.string], a sequence of
    UTF-16 code units, and [toLowerCase] follows the Unicode lower-case
    mapping, so that the length and the indices of a lower-cased text are
    those the code sees. *)

From Stdlib Require Import ZArith QArith Qround String Ascii List Bool Lia Lqa
  Permutation DecimalString.
Import ListNotations.
Set Warnings "-register-all".
Close Scope Q_scope.
Open Scope list_scope.
Open Scope nat_scope.

(** ** The fragment of the ECMAScript library used by the analyzer *)

Module JS.

(** A string is a sequence of UTF-16 code units, numbers below 65536. *)
Abbreviation unit16 := N.

Inductive string : Type :=
| EmptyString
| String (c : unit16) (s : string).

(** A string constant is written between double quotes, in ASCII. *)
Fixpoint of_bytes (bytes : list Init.Byte.byte) : option string :=
  match bytes with
  | [] => Some EmptyString
  | b :: rest =>
      if (Strings.Byte.to_N b <? 128)%N then
        option_map (String (Strings.Byte.to_N b)) (of_bytes rest)
      else None
  end.

Fixpoint to_bytes (s : string) : option (list Init.Byte.byte) :=
  match s with
  | EmptyString => Some []
  | String c s' =>
      match Strings.Byte.of_N c, to_bytes s' with
      | Some b, Some rest => if (c <? 128)%N then Some (b :: rest) else None
      | _, _ => None
      end
  end.

Declare Scope js_scope.
Delimit Scope js_scope with js.
Bind Scope js_scope with string.
String Notation string of_bytes to_bytes : js_scope.

(** The operations on strings: [s.length], [s + t], [s === t] and
    [parts.join(sep)]. *)
Module Str.

Fixpoint length (s : string) : nat :=
  match s with
  | EmptyString => 0
  | String _ s' => S (length s')
  end.

Fixpoint append (s t : string) : string :=
  match s with
  | EmptyString => t
  | String c s' => String c (append s' t)
  end.

Fixpoint eqb (s t : string) : bool :=
  match s, t with
  | EmptyString, EmptyString => true
  | String a s', String b t' => (a =? b)%N && eqb s' t'
  | _, _ => false
  end.

Fixpoint concat (sep : string) (parts : list string) : string :=
  match parts with
  | [] => EmptyString
  | [part] => part
  | part :: rest => append part (append sep (concat sep rest))
  end.

End Str.

Infix "++" := Str.append (right associativity, at level 60) : js_scope.

(** The code unit of an ASCII character, and the test for it. *)
Definition ch (a : ascii) : unit16 := N_of_ascii a.

Definition is_char (c : unit16) (a : ascii) : bool := (c =? ch a)%N.

(** A text of the standard library, all ASCII, as a string. *)
Fixpoint literal (s : Strings.String.string) : string :=
  match s with
  | Strings.String.EmptyString => EmptyString
  | Strings.String.String a s' => String (ch a) (literal s')
  end.

(** A thrown value: an [Error] object with its message, or any other value. *)
Inductive thrown : Type :=
| Error (message : string)
| NonError (value : string).

(** The outcome of evaluating an expression that may throw. *)
Inductive completion (A : Type) : Type :=
| Normal (a : A)
| Throw (e : thrown).
Arguments Normal {A} a.
Arguments Throw {A} e.

(** The double quote character and a string put between two of them. *)
Definition dq : string := String 34 EmptyString.
Definition quoted (s : string) : string := Str.append dq (Str.append s dq).

(** [String.prototype.toLowerCase]: the lower-case mapping of the Unicode
    Character Database (version 14).

    Beyond ASCII the one-to-one mappings of the basic plane are given as
    ranges [(first, last, step, shift)]: every [step]-th code unit from
    [first] to [last] is moved by [shift]. *)
Definition lower_ranges : list (Z * Z * Z * Z) :=
  [
    (192, 214, 1, 32); (216, 222, 1, 32); (256, 302, 2, 1);
    (306, 310, 2, 1); (313, 327, 2, 1); (330, 374, 2, 1);
    (376, 376, 1, -121); (377, 381, 2, 1); (385, 385, 1, 210);
    (386, 388, 2, 1); (390, 390, 1, 206); (391, 391, 1, 1);
    (393, 394, 1, 205); (395, 395, 1, 1); (398, 398, 1, 79);
    (399, 399, 1, 202); (400, 400, 1, 203); (401, 401, 1, 1);
    (403, 403, 1, 205); (404, 404, 1, 207); (406, 406, 1, 211);
    (407, 407, 1, 209); (408, 408, 1, 1); (412, 412, 1, 211);
    (413, 413, 1, 213); (415, 415, 1, 214); (416, 420, 2, 1);
    (422, 422, 1, 218); (423, 423, 1, 1); (425, 425, 1, 218);
    (428, 428, 1, 1); (430, 430, 1, 218); (431, 431, 1, 1);
    (433, 434, 1, 217); (435, 437, 2, 1); (439, 439, 1, 219);
    (440, 440, 1, 1); (444, 444, 1, 1); (452, 452, 1, 2); (453, 453, 1, 1);
    (455, 455, 1, 2); (456, 456, 1, 1); (458, 458, 1, 2); (459, 475, 2, 1);
    (478, 494, 2, 1); (497, 497, 1, 2); (498, 500, 2, 1);
    (502, 502, 1, -97); (503, 503, 1, -56); (504, 542, 2, 1);
    (544, 544, 1, -130); (546, 562, 2, 1); (570, 570, 1, 10795);
    (571, 571, 1, 1); (573, 573, 1, -163); (574, 574, 1, 10792);
    (577, 577, 1, 1); (579, 579, 1, -195); (580, 580, 1, 69);
    (581, 581, 1, 71); (582, 590, 2, 1); (880, 882, 2, 1); (886, 886, 1, 1);
    (895, 895, 1, 116); (902, 902, 1, 38); (904, 906, 1, 37);
    (908, 908, 1, 64); (910, 911, 1, 63); (913, 929, 1, 32);
    (931, 939, 1, 32); (975, 975, 1, 8); (984, 1006, 2, 1);
    (1012, 1012, 1, -60); (1015, 1015, 1, 1); (1017, 1017, 1, -7);
    (1018, 1018, 1, 1); (1021, 1023, 1, -130); (1024, 1039, 1, 80);
    (1040, 1071, 1, 32); (1120, 1152, 2, 1); (1162, 1214, 2, 1);
    (1216, 1216, 1, 15); (1217, 1229, 2, 1); (1232, 1326, 2, 1);
    (1329, 1366, 1, 48); (4256, 4293, 1, 7264); (4295, 4295, 1, 7264);
    (4301, 4301, 1, 7264); (5024, 5103, 1, 38864); (5104, 5109, 1, 8);
    (7312, 7354, 1, -3008); (7357, 7359, 1, -3008); (7680, 7828, 2, 1);
    (7838, 7838, 1, -7615); (7840, 7934, 2, 1); (7944, 7951, 1, -8);
    (7960, 7965, 1, -8); (7976, 7983, 1, -8); (7992, 7999, 1, -8);
    (8008, 8013, 1, -8); (8025, 8031, 2, -8); (8040, 8047, 1, -8);
    (8072, 8079, 1, -8); (8088, 8095, 1, -8); (8104, 8111, 1, -8);
    (8120, 8121, 1, -8); (8122, 8123, 1, -74); (8124, 8124, 1, -9);
    (8136, 8139, 1, -86); (8140, 8140, 1, -9); (8152, 8153, 1, -8);
    (8154, 8155, 1, -100); (8168, 8169, 1, -8); (8170, 8171, 1, -112);
    (8172, 8172, 1, -7); (8184, 8185, 1, -128); (8186, 8187, 1, -126);
    (8188, 8188, 1, -9); (8486, 8486, 1, -7517); (8491, 8491, 1, -8262);
    (8498, 8498, 1, 28); (8544, 8559, 1, 16); (8579, 8579, 1, 1);
    (9398, 9423, 1, 26); (11264, 11311, 1, 48); (11360, 11360, 1, 1);
    (11362, 11362, 1, -10743); (11363, 11363, 1, -3814);
    (11364, 11364, 1, -10727); (11367, 11371, 2, 1);
    (11373, 11373, 1, -10780); (11374, 11374, 1, -10749);
    (11375, 11375, 1, -10783); (11376, 11376, 1, -10782);
    (11378, 11378, 1, 1); (11381, 11381, 1, 1); (11390, 11391, 1, -10815);
    (11392, 11490, 2, 1); (11499, 11501, 2, 1); (11506, 11506, 1, 1);
    (42560, 42604, 2, 1); (42624, 42650, 2, 1); (42786, 42798, 2, 1);
    (42802, 42862, 2, 1); (42873, 42875, 2, 1); (42877, 42877, 1, -35332);
    (42878, 42886, 2, 1); (42891, 42891, 1, 1); (42893, 42893, 1, -42280);
    (42896, 42898, 2, 1); (42902, 42920, 2, 1); (42922, 42922, 1, -42308);
    (42923, 42923, 1, -42319); (42924, 42924, 1, -42315);
    (42925, 42925, 1, -42305); (42926, 42926, 1, -42308);
    (42928, 42928, 1, -42258); (42929, 42929, 1, -42282);
    (42930, 42930, 1, -42261); (42931, 42931, 1, 928); (42932, 42946, 2, 1);
    (42948, 42948, 1, -48); (42949, 42949, 1, -42307);
    (42950, 42950, 1, -35384); (42951, 42953, 2, 1); (42960, 42960, 1, 1);
    (42966, 42968, 2, 1); (42997, 42997, 1, 1); (65313, 65338, 1, 32)
  ]%Z.

Fixpoint shifted (ranges : list (Z * Z * Z * Z)) (c : Z) : Z :=
  match ranges with
  | [] => c
  | (first, last, step, shift) :: rest =>
      if ((first <=? c) && (c <=? last) && ((c - first) mod step =? 0))%Z
      then (c + shift)%Z
      else shifted rest c
  end.

(** The letters of the other planes are pairs of a high and a low
    surrogate; lower-casing moves the low one.  The ranges are
    [(high, first, last, shift)]. *)
Definition is_high (c : unit16) : bool := ((55296 <=? c) && (c <=? 56319))%N.
Definition is_low (c : unit16) : bool := ((56320 <=? c) && (c <=? 57343))%N.

Definition lower_pairs : list (N * N * N * N) :=
  [
    (55297, 56320, 56359, 40); (55297, 56496, 56531, 40);
    (55297, 56688, 56698, 39); (55297, 56700, 56714, 39);
    (55297, 56716, 56722, 39); (55297, 56724, 56725, 39);
    (55299, 56448, 56498, 64); (55302, 56480, 56511, 32);
    (55323, 56896, 56927, 32); (55354, 56576, 56609, 34)
  ]%N.

Fixpoint lower_low (pairs : list (N * N * N * N)) (high low : unit16)
  : unit16 :=
  match pairs with
  | [] => low
  | (h, first, last, shift) :: rest =>
      if ((h =? high) && (first <=? low) && (low <=? last))%N
      then (low + shift)%N
      else lower_low rest high low
  end.

(** What the code unit [c] becomes after the code unit [prev].  U+0130 is
    the one character that becomes two code units, U+212A (the Kelvin
    sign) the one beyond ASCII that becomes an ASCII letter.  The rule for a
    final sigma is left out: U+03A3 always becomes U+03C3, where at the end
    of a word the code gives U+03C2; the length of the result and its ASCII
    letters are the same. *)
Definition lower_unit (prev : option unit16) (c : unit16) : string :=
  if (c <? 128)%N then
    String (if ((65 <=? c) && (c <=? 90))%N then (c + 32)%N else c) EmptyString
  else if (c =? 304)%N then String 105 (String 775 EmptyString)
  else if (c =? 8490)%N then String 107 EmptyString
  else if is_low c then
    match prev with
    | Some high =>
        String (if is_high high then lower_low lower_pairs high c else c)
          EmptyString
    | None => String c EmptyString
    end
  else String (Z.to_N (shifted lower_ranges (Z.of_N c))) EmptyString.

Fixpoint lower_after (prev : option unit16) (s : string) : string :=
  match s with
  | EmptyString => EmptyString
  | String c s' => Str.append (lower_unit prev c) (lower_after (Some c) s')
  end.

Definition toLowerCase (s : string) : string := lower_after None s.

(** [s.startsWith(p)] *)
Fixpoint startsWith (s p : string) : bool :=
  match p, s with
  | EmptyString, _ => true
  | String _ _, EmptyString => false
  | String a p', String b s' => (a =? b)%N && startsWith s' p'
  end.

(** [s.includes(w)] *)
Fixpoint includes (s w : string) : bool :=
  startsWith s w ||
  match s with
  | EmptyString => false
  | String _ s' => includes s' w
  end.

(** [s.indexOf(w)]: the least index at which [w] starts in [s], or -1. *)
Fixpoint search (s w : string) : option nat :=
  if startsWith s w then Some 0%nat
  else match s with
       | EmptyString => None
       | String _ s' => option_map S (search s' w)
       end.

Definition indexOf (s w : string) : Z :=
  match search s w with
  | Some i => Z.of_nat i
  | None => (-1)%Z
  end.

(** The class [\s] of regular expressions: the white space and the line
    terminators of ECMAScript. *)
Definition is_space (c : unit16) : bool :=
  (((9 <=? c) && (c <=? 13)) || (c =? 32) || (c =? 160) || (c =? 5760)
   || ((8192 <=? c) && (c <=? 8202)) || (c =? 8232) || (c =? 8233)
   || (c =? 8239) || (c =? 8287) || (c =? 12288) || (c =? 65279))%N.

(** The class [[.!?]]. *)
Definition is_sentence_end (c : unit16) : bool :=
  ((c =? 46) || (c =? 33) || (c =? 63))%N.

(** [s.split(/[sep]+/)]: the segments between the maximal runs of
    separator characters.  [acc] is the segment being read and [in_run]
    tells that the previous character was a separator.  A run at either end
    of the string leaves an empty segment there. *)
Fixpoint split_from (sep : unit16 -> bool) (s acc : string) (in_run : bool)
  : list string :=
  match s with
  | EmptyString => [acc]
  | String c s' =>
      if sep c then
        if in_run then split_from sep s' EmptyString true
        else acc :: split_from sep s' EmptyString true
      else split_from sep s' (Str.append acc (String c EmptyString)) false
  end.

Definition split_runs (sep : unit16 -> bool) (s : string) : list string :=
  split_from sep s EmptyString false.

(** [s.split(c)] for a one-character string separator. *)
Fixpoint split_at (c : unit16) (s acc : string) : list string :=
  match s with
  | EmptyString => [acc]
  | String a s' =>
      if (a =? c)%N then acc :: split_at c s' EmptyString
      else split_at c s' (Str.append acc (String a EmptyString))
  end.

Definition split_char (c : ascii) (s : string) : list string :=
  split_at (ch c) s EmptyString.

(** [Math.round]: the nearest integer, a tie going up. *)
Definition round (q : Q) : Z := Qfloor (q + (1 # 2))%Q.

(** [Number(x.toFixed(2))] *)
Definition toFixed2 (q : Q) : Q := (inject_Z (round (q * 100)) / 100)%Q.

(** [parseInt(s)]: white space, a sign, then the longest run of digits; a
    [0x] prefix switches to base sixteen.  [None] stands for [NaN]. *)
Fixpoint skip_space (s : string) : string :=
  match s with
  | String c s' => if is_space c then skip_space s' else s
  | EmptyString => EmptyString
  end.

Definition digit_value (c : unit16) : option Z :=
  if ((48 <=? c) && (c <=? 57))%N then Some (Z.of_N (c - 48))
  else if ((97 <=? c) && (c <=? 102))%N then Some (Z.of_N (c - 87))
  else if ((65 <=? c) && (c <=? 70))%N then Some (Z.of_N (c - 55))
  else None.

Fixpoint digits (radix : Z) (s : string) (acc : option Z) : option Z :=
  match s with
  | EmptyString => acc
  | String c s' =>
      match digit_value c with
      | Some d =>
          if (d <? radix)%Z then
            digits radix s'
              (Some (match acc with
                     | Some a => a * radix + d
                     | None => d
                     end)%Z)
          else acc
      | None => acc
      end
  end.

Definition unsigned_int (s : string) : option Z :=
  match s with
  | String 48 (String 120 s') => digits 16 s' None
  | String 48 (String 88 s') => digits 16 s' None
  | _ => digits 10 s None
  end.

Definition parseInt (s : string) : option Z :=
  match skip_space s with
  | String 45 s' => option_map Z.opp (unsigned_int s')
  | String 43 s' => unsigned_int s'
  | s' => unsigned_int s'
  end.

(** The decimal text of a count, as a template literal prints it. *)
Definition show_nat (n : nat) : string :=
  literal (NilEmpty.string_of_uint (Nat.to_uint n)).

End JS.

(** ** Exceptions and the analyzer's state *)

Import JS.
Open Scope js_scope.
Open Scope list_scope.
Open Scope nat_scope.

(** Sequencing of computations that may throw; the same notation serves
    for expressions and for methods of the analyzer. *)
Class Monad (M : Type -> Type) : Type := {
  ret : forall {A}, A -> M A;
  bind : forall {A B}, M A -> (A -> M B) -> M B
}.

Declare Scope monad_scope.
Delimit Scope monad_scope with monad.
Notation "x <- c ;; k" := (bind c (fun x => k))
  (at level 61, c at next level, right associativity) : monad_scope.
Notation "c ;;; k" := (bind c (fun _ => k))
  (at level 61, right associativity) : monad_scope.
Open Scope monad_scope.

#[export] Instance Monad_completion : Monad completion := {
  ret := @Normal;
  bind := fun A B (c : completion A) (k : A -> completion B) =>
    match c with
    | Normal a => k a
    | Throw e => Throw e
    end
}.

(** [a || b] where both operands may throw: [b] is evaluated only when [a]
    is false. *)
Definition orElse {M : Type -> Type} `{Monad M} (a b : M bool) : M bool :=
  x <- a ;; if (x : bool) then ret true else b.

(** ** The cheerio library

    cheerio is not part of the repository; the analyzer sees it through the
    operations below.  [select] is the call [$(selector)], which throws on a
    selector it cannot parse; so does [not]. *)

Module Cheerio.
Class API : Type := {
  CheerioAPI : Type;
  Selection : Type;
  Element : Type;
  load : string -> CheerioAPI;
  select : CheerioAPI -> string -> completion Selection;
  wrap : CheerioAPI -> Element -> Selection;
  length : Selection -> nat;
  text : Selection -> string;
  first : Selection -> Selection;
  attr : Selection -> string -> option string;
  css : Selection -> string -> option string;
  not : Selection -> string -> completion Selection;
  toArray : Selection -> list Element
}.
End Cheerio.

(** ** The result types *)

Module SpellingIssue.
Record t : Type := make { word : string; suggestion : string; position : Z }.
End SpellingIssue.

Module GrammarIssue.
Record t : Type := make { text : string; suggestion : string; type : string }.
End GrammarIssue.

Module HeadingAnalysis.
Record t : Type := make {
  h1Count : nat; h2Count : nat; h3Count : nat;
  properHierarchy : bool; score : Z }.
End HeadingAnalysis.

Module ContentQuality.
Record t : Type := make {
  hasClearValue : bool; hasCallToAction : bool; messageClarity : Z }.
End ContentQuality.

Module ContentAnalysis.
Record t : Type := make {
  score : Z;
  wordCount : nat;
  readabilityScore : Z;
  spellingIssues : list SpellingIssue.t;
  grammarIssues : list GrammarIssue.t;
  headingStructure : HeadingAnalysis.t;
  contentQuality : ContentQuality.t }.
End ContentAnalysis.

Module MetaTag.
Record t : Type := make { present : bool; length : nat; optimized : bool }.
End MetaTag.

Module SEOAnalysis.
Record t : Type := make {
  score : Z;
  title : MetaTag.t;
  description : MetaTag.t;
  keywords : list string;
  h1Count : nat;
  properStructure : bool;
  total : nat;
  missingAlt : nat;
  optimizationScore : Q;
  internalLinks : nat;
  externalLinks : nat;
  schemaMarkup : bool;
  mobileOptimized : bool }.
End SEOAnalysis.

Module PerformanceAnalysis.
Record t : Type := make {
  score : Z;
  estimatedLoadTime : Q;
  images : nat; scripts : nat; styles : nat;
  minifiedCSS : bool; minifiedJS : bool;
  compressedImages : bool; lazyLoading : bool }.
End PerformanceAnalysis.

Module ImageTextBalance.
Record t : Type := make { score : Z; recommendation : string }.
End ImageTextBalance.

Module ColorContrastIssue.
Record t : Type := make {
  element : string; foreground : string; background : string; ratio : Q }.
End ColorContrastIssue.

Module DesignAnalysis.
Record t : Type := make {
  score : Z;
  visualHierarchy : Z;
  whitespace : Z;
  colorContrastScore : Z;
  colorContrastIssues : list ColorContrastIssue.t;
  fontSizes : list Z;
  readableSize : bool;
  fontVariety : nat;
  imageTextBalance : ImageTextBalance.t }.
End DesignAnalysis.

Module TrustSignals.
Record t : Type := make {
  score : Q; present : list string; missing : list string }.
End TrustSignals.

Module CtaPlacement.
Record t : Type := make {
  score : Z; ctaCount : nat; aboveFold : bool; clarity : Z }.
End CtaPlacement.

Module ColorPsychology.
Record t : Type := make {
  score : Z; dominantColors : list string;
  emotionalImpact : string; brandAlignment : Z }.
End ColorPsychology.

Module PsychologyAnalysis.
Record t : Type := make {
  score : Z;
  trustSignals : TrustSignals.t;
  ctaPlacement : CtaPlacement.t;
  colorPsychology : ColorPsychology.t;
  urgencyTriggers : bool;
  socialProof : bool }.
End PsychologyAnalysis.

Module AccessibilityAnalysis.
Record t : Type := make {
  score : Z;
  wcagCompliance : string;
  ariaScore : Q;
  ariaMissing : Z;
  keyboardNavigation : bool;
  screenReaderFriendly : bool;
  contrastRatio : Q }.
End AccessibilityAnalysis.

(** ['critical' | 'high' | 'medium' | 'low'] *)
Inductive Severity : Type := critical | high | medium | low.

(** ['high' | 'medium' | 'low'] *)
Module Level.
Inductive t : Type := high | medium | low.
End Level.

Module Issue.
Record t : Type := make {
  severity : Severity;
  category : string;
  title : string;
  description : string;
  impact : string;
  premium : bool }.
End Issue.

Module Recommendation.
Record t : Type := make {
  title : string;
  description : string;
  impact : Level.t;
  effort : Level.t;
  category : string;
  premium : bool }.
End Recommendation.

(** The six module results, as [calculateOverallScore] and
    [generateRecommendations] receive them. *)
Module Analyses.
Record t : Type := make {
  contentAnalysis : ContentAnalysis.t;
  seoAnalysis : SEOAnalysis.t;
  performanceAnalysis : PerformanceAnalysis.t;
  designAnalysis : DesignAnalysis.t;
  psychologyAnalysis : PsychologyAnalysis.t;
  accessibilityAnalysis : AccessibilityAnalysis.t }.
End Analyses.

Module Recommendations.
Record t : Type := make {
  criticalIssues : list Issue.t;
  quickWins : list Recommendation.t;
  strategicImprovements : list Recommendation.t }.
End Recommendations.

Module AnalysisResult.
Record t : Type := make {
  url : string;
  timestamp : string;
  overallScore : Z;
  contentAnalysis : ContentAnalysis.t;
  seoAnalysis : SEOAnalysis.t;
  performanceAnalysis : PerformanceAnalysis.t;
  designAnalysis : DesignAnalysis.t;
  psychologyAnalysis : PsychologyAnalysis.t;
  accessibilityAnalysis : AccessibilityAnalysis.t;
  criticalIssues : list Issue.t;
  quickWins : list Recommendation.t;
  strategicImprovements : list Recommendation.t;
  freeInsightsCount : nat;
  premiumInsightsAvailable : nat }.
End AnalysisResult.

(** ** Scoring methods

    Each takes the parameter object its caller builds; the records keep
    every field the caller passes, used or not. *)

Definition num (n : nat) : Q := inject_Z (Z.of_nat n).
Definition Qgtb (a b : Q) : bool := negb (Qle_bool a b).
Definition Qltb (a b : Q) : bool := negb (Qle_bool b a).
Definition Qgeb (a b : Q) : bool := Qle_bool b a.

Module ContentParams.
Record t : Type := make {
  wordCount : nat;
  readabilityScore : Z;
  spellingIssues : nat;
  grammarIssues : nat;
  hasClearValue : bool;
  hasCTA : bool;
  messageClarity : Z }.
End ContentParams.

Module SEOParams.
Record t : Type := make {
  title : nat;
  description : nat;
  h1Count : nat;
  properStructure : bool;
  missingAlt : nat;
  totalImages : nat;
  schemaMarkup : bool;
  mobileOptimized : bool }.
End SEOParams.

Module PerformanceParams.
Record t : Type := make {
  scripts : nat;
  styles : nat;
  images : nat;
  hasMinifiedCSS : bool;
  hasMinifiedJS : bool;
  hasLazyLoading : bool;
  estimatedLoadTime : Q }.
End PerformanceParams.

Module DesignParams.
Record t : Type := make {
  visualHierarchy : Z;
  whitespace : Z;
  readableSize : bool;
  fontVariety : nat;
  imageTextBalance : Z }.
End DesignParams.

Module PsychologyParams.
Record t : Type := make {
  trustSignals : nat;
  ctaCount : nat;
  ctaAboveFold : bool;
  ctaClarity : Z;
  hasUrgency : bool;
  hasSocialProof : bool }.
End PsychologyParams.

Module AccessibilityParams.
Record t : Type := make {
  ariaScore : Q;
  altScore : Q;
  hasSemanticHTML : bool;
  hasLangAttr : bool }.
End AccessibilityParams.

Definition calculateContentScore (params : ContentParams.t) : Z :=
  let score := 70%Z in
  let score :=
    if 300 <=? ContentParams.wordCount params then (score + 10)%Z else score in
  let score :=
    if (60 <=? ContentParams.readabilityScore params)%Z
    then (score + 10)%Z else score in
  let score :=
    if ContentParams.spellingIssues params =? 0 then (score + 5)%Z else score in
  let score :=
    if ContentParams.hasClearValue params then (score + 5)%Z else score in
  Z.min 100 score.

Definition calculateSEOScore (params : SEOParams.t) : Z :=
  let score := 50%Z in
  let score :=
    if (30 <=? SEOParams.title params) && (SEOParams.title params <=? 60)
    then (score + 15)%Z else score in
  let score :=
    if 120 <=? SEOParams.description params then (score + 15)%Z else score in
  let score :=
    if SEOParams.properStructure params then (score + 10)%Z else score in
  let score :=
    if SEOParams.schemaMarkup params then (score + 5)%Z else score in
  let score :=
    if SEOParams.mobileOptimized params then (score + 5)%Z else score in
  Z.min 100 score.

Definition calculatePerformanceScore (params : PerformanceParams.t) : Z :=
  let score := 80%Z in
  let score :=
    if 10 <? PerformanceParams.scripts params then (score - 10)%Z else score in
  let score :=
    if PerformanceParams.hasMinifiedCSS params then (score + 5)%Z else score in
  let score :=
    if PerformanceParams.hasMinifiedJS params then (score + 5)%Z else score in
  let score :=
    if PerformanceParams.hasLazyLoading params
    then (score + 10)%Z else score in
  Z.max 0 (Z.min 100 score).

Definition calculateDesignScore (params : DesignParams.t) : Z :=
  let score := 60%Z in
  let score :=
    if (70 <=? DesignParams.visualHierarchy params)%Z
    then (score + 15)%Z else score in
  let score :=
    if (70 <=? DesignParams.whitespace params)%Z
    then (score + 10)%Z else score in
  let score :=
    if DesignParams.readableSize params then (score + 10)%Z else score in
  let score :=
    if (3 <=? DesignParams.fontVariety params)
       && (DesignParams.fontVariety params <=? 6)
    then (score + 5)%Z else score in
  Z.min 100 score.

Definition calculatePsychologyScore (params : PsychologyParams.t) : Z :=
  let score := 50%Z in
  let score :=
    if 3 <=? PsychologyParams.trustSignals params
    then (score + 20)%Z else score in
  let score :=
    if 1 <=? PsychologyParams.ctaCount params then (score + 10)%Z else score in
  let score :=
    if PsychologyParams.ctaAboveFold params then (score + 10)%Z else score in
  let score :=
    if PsychologyParams.hasSocialProof params
    then (score + 10)%Z else score in
  Z.min 100 score.

Definition calculateAccessibilityScore (params : AccessibilityParams.t) : Z :=
  let score :=
    ((AccessibilityParams.ariaScore params
      + AccessibilityParams.altScore params) / 2)%Q in
  let score :=
    if AccessibilityParams.hasSemanticHTML params
    then (score + 10)%Q else score in
  let score :=
    if AccessibilityParams.hasLangAttr params then (score + 5)%Q else score in
  Z.min 100 (JS.round score).

Definition calculateOverallScore (analyses : Analyses.t) : Z :=
  let content := 0.25%Q in
  let seo := 0.20%Q in
  let performance := 0.15%Q in
  let design := 0.15%Q in
  let psychology := 0.15%Q in
  let accessibility := 0.10%Q in
  JS.round
    (inject_Z (ContentAnalysis.score (Analyses.contentAnalysis analyses))
       * content
     + inject_Z (SEOAnalysis.score (Analyses.seoAnalysis analyses)) * seo
     + inject_Z
         (PerformanceAnalysis.score (Analyses.performanceAnalysis analyses))
       * performance
     + inject_Z (DesignAnalysis.score (Analyses.designAnalysis analyses))
       * design
     + inject_Z
         (PsychologyAnalysis.score (Analyses.psychologyAnalysis analyses))
       * psychology
     + inject_Z
         (AccessibilityAnalysis.score
            (Analyses.accessibilityAnalysis analyses))
       * accessibility)%Q.

(** ** Text heuristics *)

Definition calculateReadability (text : string) : Z :=
  let sentences := List.length (split_runs is_sentence_end text) in
  let words := List.length (split_runs is_space text) in
  let avgWordsPerSentence := (num words / num (Nat.max sentences 1))%Q in
  if Qle_bool avgWordsPerSentence 15 then 90%Z
  else if Qle_bool avgWordsPerSentence 20 then 75%Z
  else if Qle_bool avgWordsPerSentence 25 then 60%Z
  else 40%Z.

(** The object literal [corrections], in the order of its keys. *)
Definition corrections : list (string * string) :=
  [ ("recieve", "receive");
    ("occured", "occurred");
    ("seperate", "separate");
    ("definately", "definitely");
    ("alot", "a lot") ].

Fixpoint lookup (table : list (string * string)) (key : string)
  : option string :=
  match table with
  | [] => None
  | (k, v) :: rest => if Str.eqb k key then Some v else lookup rest key
  end.

(** [corrections[word] || word]: an absent or empty entry gives the word
    back. *)
Definition getCorrection (word : string) : string :=
  match lookup corrections word with
  | Some c => if Str.length c =? 0 then word else c
  | None => word
  end.

Definition commonMisspellings : list string :=
  ["recieve"; "occured"; "seperate"; "definately"; "alot"].

(** The body of the [forEach] callback, pushing onto [issues]. *)
Definition checkWord (text : string) (issues : list SpellingIssue.t)
  (word : string) : list SpellingIssue.t :=
  if includes (toLowerCase text) word then
    issues ++ [ SpellingIssue.make word (getCorrection word)
                  (indexOf (toLowerCase text) word) ]
  else issues.

Definition detectSpellingIssues (text : string) : list SpellingIssue.t :=
  fold_left (checkWord text) commonMisspellings [].

Definition detectGrammarIssues (text : string) : list GrammarIssue.t :=
  let issues := [] in
  let issues :=
    if includes text "your welcome" then
      issues ++ [ GrammarIssue.make "your welcome" "you're welcome" "grammar" ]
    else issues in
  issues.

(** [text.split(/\s+/).filter(w => w.length > 0).length] *)
Definition countWords (text : string) : nat :=
  List.length
    (filter (fun w => 0 <? Str.length w) (split_runs is_space text)).

Definition calculateImageTextBalance (images textLength : nat)
  : ImageTextBalance.t :=
  let ratio :=
    (num images
     / (if Qle_bool (num textLength / 1000) 1 then 1
        else num textLength / 1000))%Q in
  if Qgtb ratio 5 then
    ImageTextBalance.make 50 "Too many images relative to text content"
  else if Qltb ratio 0.5 && (0 <? images) then
    ImageTextBalance.make 60 "Consider adding more visuals to break up text"
  else if images =? 0 then
    ImageTextBalance.make 40 "Add images to enhance visual appeal"
  else
    ImageTextBalance.make 85 "Good balance between images and text".

(** [Array.from(new Set(xs))]: the first occurrence of each value, in
    order. *)
Fixpoint unique (xs seen : list Z) : list Z :=
  match xs with
  | [] => []
  | x :: rest =>
      if existsb (Z.eqb x) seen then unique rest seen
      else x :: unique rest (x :: seen)
  end.

(** [xs.slice(0, n)] *)
Definition slice0 {A : Type} (n : nat) (xs : list A) : list A := firstn n xs.

Definition countFreeInsights (criticalIssues : list Issue.t)
  (quickWins : list Recommendation.t) : nat :=
  List.length (filter (fun i => negb (Issue.premium i)) criticalIssues)
  + List.length (filter (fun r => negb (Recommendation.premium r)) quickWins).

Definition countPremiumInsights (criticalIssues : list Issue.t)
  (quickWins strategic : list Recommendation.t) : nat :=
  List.length (filter Issue.premium criticalIssues)
  + List.length (filter Recommendation.premium quickWins)
  + List.length (filter Recommendation.premium strategic).

Definition generateRecommendations (analyses : Analyses.t)
  : Recommendations.t :=
  let seo := Analyses.seoAnalysis analyses in
  let spelling :=
    ContentAnalysis.spellingIssues (Analyses.contentAnalysis analyses) in
  let criticalIssues := [] in
  let quickWins := [] in
  let strategicImprovements := [] in
  let criticalIssues :=
    if negb (MetaTag.present (SEOAnalysis.title seo)) then
      criticalIssues ++
      [ Issue.make critical "SEO" "Missing Page Title"
          "Your page is missing a title tag, which is crucial for SEO"
          "Search engines cannot properly index your page" false ]
    else criticalIssues in
  let criticalIssues :=
    if negb (MetaTag.present (SEOAnalysis.description seo)) then
      criticalIssues ++
      [ Issue.make high "SEO" "Missing Meta Description"
          "No meta description found"
          "Lower click-through rates from search results" false ]
    else criticalIssues in
  let quickWins :=
    if 0 <? List.length spelling then
      quickWins ++
      [ Recommendation.make "Fix Spelling Errors"
          ("Found " ++ show_nat (List.length spelling) ++ " spelling issues")
          Level.high Level.low "Content" (5 <? List.length spelling) ]
    else quickWins in
  let quickWins :=
    if negb (PerformanceAnalysis.lazyLoading
               (Analyses.performanceAnalysis analyses)) then
      quickWins ++
      [ Recommendation.make "Implement Lazy Loading"
          "Add lazy loading to images for faster initial page load"
          Level.medium Level.low "Performance" false ]
    else quickWins in
  let strategicImprovements :=
    if (PsychologyAnalysis.score (Analyses.psychologyAnalysis analyses) <? 70)%Z
    then
      strategicImprovements ++
      [ Recommendation.make "Enhance Trust Signals"
          "Add testimonials, security badges, and social proof"
          Level.high Level.medium "Psychology" true ]
    else strategicImprovements in
  let strategicImprovements :=
    if (DesignAnalysis.score (Analyses.designAnalysis analyses) <? 70)%Z then
      strategicImprovements ++
      [ Recommendation.make "Improve Visual Hierarchy"
          "Optimize typography and spacing for better readability"
          Level.high Level.medium "Design" true ]
    else strategicImprovements in
  Recommendations.make criticalIssues quickWins strategicImprovements.

(** ** The analyzer *)

Section Analyzer.

Context {cheerio : Cheerio.API}.

(** The private fields of [WebsiteAnalyzer]; [dollar] is the field [$]. *)
Record WebsiteAnalyzer : Type := {
  html : string;
  dollar : option Cheerio.CheerioAPI;
  url : string }.

(** A fresh instance, as the field initialisers leave it. *)
Definition newAnalyzer : WebsiteAnalyzer :=
  {| html := EmptyString; dollar := None; url := EmptyString |}.

(** What a run sees of the outside: the answer of the network to a GET
    request and the clock.  The data of a response is taken to be text; a
    response that axios hands over as another value, such as a parsed JSON
    document, is left out. *)
Record Env : Type := {
  axios_get : string -> completion string;
  now : string }.

(** The analyzer together with the log of the requests sent so far, the
    latest first. *)
Record Machine : Type := {
  this : WebsiteAnalyzer;
  requests : list string }.

Definition M (A : Type) : Type := Env -> Machine -> completion A * Machine.

#[export] Instance Monad_M : Monad M := {
  ret := fun A (a : A) (_ : Env) (s : Machine) => (Normal a, s);
  bind := fun A B (c : M A) (k : A -> M B) (env : Env) (s : Machine) =>
    match c env s with
    | (Normal a, s') => k a env s'
    | (Throw e, s') => (Throw e, s')
    end
}.

Definition throw {A : Type} (e : thrown) : M A :=
  fun _ s => (Throw e, s).

(** [await p] for a settled promise [p]. *)
Definition await {A : Type} (p : completion A) : M A :=
  fun _ s => (p, s).

(** Calling an [async] method that contains no [await]: its body runs at
    once and the outcome is kept in the promise. *)
Definition settle {A : Type} (c : M A) : M (completion A) :=
  fun env s => let (r, s') := c env s in (Normal r, s').

(** [try { body } catch (error) { handler }] *)
Definition try_catch {A : Type} (body : M A) (handler : thrown -> M A)
  : M A :=
  fun env s =>
    match body env s with
    | (Normal a, s') => (Normal a, s')
    | (Throw e, s') => handler e env s'
    end.

Definition getThis : M WebsiteAnalyzer :=
  fun _ s => (Normal (this s), s).

Definition setThis (a : WebsiteAnalyzer) : M unit :=
  fun _ s => (Normal tt, {| this := a; requests := requests s |}).

Definition clock : M string := fun env s => (Normal (now env), s).

(** [axios.get(url, ...)]: one request goes out, the network answers it. *)
Definition get (u : string) : M string :=
  fun env s =>
    (axios_get env u, {| this := this s; requests := u :: requests s |}).

(** [if (!this.$) throw new Error('HTML not loaded'); const $ = this.$;] *)
Definition loaded : M Cheerio.CheerioAPI :=
  a <- getThis ;;
  match dollar a with
  | None => throw (Error "HTML not loaded")
  | Some d => ret d
  end.

(** [$(selector)] *)
Definition query (d : Cheerio.CheerioAPI) (selector : string)
  : M Cheerio.Selection :=
  await (Cheerio.select d selector).

Definition fetchWebsite (u : string) : M unit :=
  data <- get u ;;
  a <- getThis ;;
  setThis {| html := data; dollar := dollar a; url := url a |} ;;;
  a <- getThis ;;
  setThis {| html := html a; dollar := Some (Cheerio.load (html a));
             url := url a |}.

(** *** Analysis helper methods *)

Definition analyzeHeadingStructure (d : Cheerio.CheerioAPI)
  : M HeadingAnalysis.t :=
  h1 <- query d "h1" ;;
  h2 <- query d "h2" ;;
  h3 <- query d "h3" ;;
  let h1 := Cheerio.length h1 in
  let h2 := Cheerio.length h2 in
  let h3 := Cheerio.length h3 in
  ret (HeadingAnalysis.make h1 h2 h3
         ((h1 =? 1) && (0 <? h2))
         (if (h1 =? 1) && (0 <? h2) then 90%Z else 60%Z)).

Definition assessMessageClarity (d : Cheerio.CheerioAPI) : M Z :=
  h1 <- query d "h1" ;;
  let h1 := Cheerio.text (Cheerio.first h1) in
  title <- query d "title" ;;
  let title := Cheerio.text title in
  if (20 <? Str.length h1) && (20 <? Str.length title) then ret 90%Z
  else if (10 <? Str.length h1) || (10 <? Str.length title)
  then ret 70%Z
  else ret 40%Z.

Definition assessVisualHierarchy (d : Cheerio.CheerioAPI) : M Z :=
  h1 <- query d "h1" ;;
  h2 <- query d "h2" ;;
  h3 <- query d "h3" ;;
  let h1 := Cheerio.length h1 in
  let h2 := Cheerio.length h2 in
  let h3 := Cheerio.length h3 in
  if (h1 =? 1) && (2 <=? h2) && (1 <=? h3) then ret 90%Z
  else if (h1 =? 1) && (1 <=? h2) then ret 75%Z
  else ret 50%Z.

Definition assessWhitespace (d : Cheerio.CheerioAPI) : M Z :=
  elements <- query d "*" ;;
  let elements := Cheerio.length elements in
  body <- query d "body" ;;
  let text := Str.length (Cheerio.text body) in
  let density := (num elements / num (Nat.max text 1))%Q in
  if Qgtb density 0.01 then ret 80%Z
  else if Qgtb density 0.005 then ret 65%Z
  else ret 50%Z.

(** One entry of the object literal [signals]. *)
Definition hasAny (d : Cheerio.CheerioAPI) (selector : string) : M bool :=
  found <- query d selector ;;
  ret (0 <? Cheerio.length found).

Definition detectTrustSignals (d : Cheerio.CheerioAPI) : M TrustSignals.t :=
  canonical <- query d ("link[rel=" ++ quoted "canonical" ++ "]") ;;
  let ssl :=
    match Cheerio.attr canonical "href" with
    | Some href => startsWith href "https://"
    | None => false
    end in
  contact <-
    hasAny d ("*:contains(" ++ quoted "contact" ++ "), *:contains("
              ++ quoted "email" ++ "), *:contains(" ++ quoted "phone" ++ ")") ;;
  privacy <- hasAny d ("a[href*=" ++ quoted "privacy" ++ "]") ;;
  terms <- hasAny d ("a[href*=" ++ quoted "terms" ++ "]") ;;
  testimonials <-
    hasAny d ("*:contains(" ++ quoted "testimonial" ++ "), .testimonial") ;;
  badge <-
    hasAny d ("img[alt*=" ++ quoted "secure" ++ "], img[alt*=" ++ quoted "ssl"
              ++ "], img[alt*=" ++ quoted "verified" ++ "]") ;;
  let signals :=
    [ ("SSL Certificate", ssl);
      ("Contact Information", contact);
      ("Privacy Policy", privacy);
      ("Terms of Service", terms);
      ("Testimonials", testimonials);
      ("Security Badge", badge) ] in
  let present := map fst (filter snd signals) in
  let missing := map fst (filter (fun e => negb (snd e)) signals) in
  let score :=
    (num (List.length present)
     / num (List.length present + List.length missing) * 100)%Q in
  ret (TrustSignals.make score present missing).

Definition actionWords : list string :=
  ["buy"; "get"; "start"; "try"; "download"; "subscribe"; "contact"; "learn"].

Definition assessCTAClarity (ctas : Cheerio.Selection) : M Z :=
  if Cheerio.length ctas =? 0 then ret 0%Z
  else
    let ctaText := toLowerCase (Cheerio.text ctas) in
    let hasActionWord :=
      existsb (fun word => includes ctaText word) actionWords in
    if hasActionWord && (1 <=? Cheerio.length ctas)
       && (Cheerio.length ctas <=? 3) then ret 90%Z
    else if hasActionWord then ret 75%Z
    else if 0 <? Cheerio.length ctas then ret 60%Z
    else ret 30%Z.

(** [$(sel).text().toLowerCase().includes(w)] *)
Definition textIncludes (d : Cheerio.CheerioAPI) (selector w : string)
  : M bool :=
  found <- query d selector ;;
  ret (includes (toLowerCase (Cheerio.text found)) w).

(** *** The six analysis modules *)

Definition analyzeContent : M ContentAnalysis.t :=
  d <- loaded ;;
  body <- query d "body" ;;
  let text := Cheerio.text body in
  let wordCount := countWords text in
  headings <- query d "h1, h2, h3, h4, h5, h6" ;;
  headingStructure <- analyzeHeadingStructure d ;;
  hasCTA <-
    orElse (textIncludes d "button, a" "contact")
      (orElse (textIncludes d "button, a" "get started")
         (textIncludes d "button, a" "buy now")) ;;
  title <- query d "title" ;;
  let titleText := toLowerCase (Cheerio.text title) in
  h1 <- query d "h1" ;;
  let h1Text := toLowerCase (Cheerio.text (Cheerio.first h1)) in
  let hasClearValue :=
    (10 <? Str.length titleText) && (10 <? Str.length h1Text) in
  let readabilityScore := calculateReadability text in
  let spellingIssues := detectSpellingIssues text in
  let grammarIssues := detectGrammarIssues text in
  messageClarity <- assessMessageClarity d ;;
  let score :=
    calculateContentScore
      (ContentParams.make wordCount readabilityScore
         (List.length spellingIssues) (List.length grammarIssues)
         hasClearValue hasCTA messageClarity) in
  ret (ContentAnalysis.make score wordCount readabilityScore
         (slice0 5 spellingIssues) (slice0 5 grammarIssues)
         headingStructure
         (ContentQuality.make hasClearValue hasCTA messageClarity)).

(** A falsy attribute value: absent or empty. *)
Definition falsy (v : option string) : bool :=
  match v with
  | Some s => Str.length s =? 0
  | None => true
  end.

Definition orEmpty (v : option string) : string :=
  match v with
  | Some s => s
  | None => EmptyString
  end.

Definition analyzeSEO : M SEOAnalysis.t :=
  d <- loaded ;;
  title <- query d "title" ;;
  let title := Cheerio.text title in
  description <- query d ("meta[name=" ++ quoted "description" ++ "]") ;;
  let description := orEmpty (Cheerio.attr description "content") in
  keywords <- query d ("meta[name=" ++ quoted "keywords" ++ "]") ;;
  let keywords :=
    match Cheerio.attr keywords "content" with
    | Some content => split_char "," content
    | None => []
    end in
  h1 <- query d "h1" ;;
  let h1Count := Cheerio.length h1 in
  properStructure <-
    (if h1Count =? 1 then hasAny d "h2" else ret false) ;;
  images <- query d "img" ;;
  let missingAlt :=
    List.length
      (filter (fun img => falsy (Cheerio.attr (Cheerio.wrap d img) "alt"))
         (Cheerio.toArray images)) in
  a <- getThis ;;
  internal <-
    query d ("a[href^=" ++ quoted "/" ++ "], a[href^=" ++ dq ++ url a ++ dq
             ++ "]") ;;
  let internalLinks := Cheerio.length internal in
  external <- query d ("a[href^=" ++ quoted "http" ++ "]") ;;
  a <- getThis ;;
  external <-
    await (Cheerio.not external ("[href^=" ++ dq ++ url a ++ dq ++ "]")) ;;
  let externalLinks := Cheerio.length external in
  schemaMarkup <-
    hasAny d ("script[type=" ++ quoted "application/ld+json" ++ "]") ;;
  viewport <- query d ("meta[name=" ++ quoted "viewport" ++ "]") ;;
  let viewport := Cheerio.attr viewport "content" in
  let mobileOptimized :=
    negb (falsy viewport) && includes (orEmpty viewport) "width=device-width" in
  let score :=
    calculateSEOScore
      (SEOParams.make (Str.length title) (Str.length description)
         h1Count properStructure missingAlt (Cheerio.length images)
         schemaMarkup mobileOptimized) in
  ret (SEOAnalysis.make score
         (MetaTag.make (0 <? Str.length title) (Str.length title)
            ((30 <=? Str.length title) && (Str.length title <=? 60)))
         (MetaTag.make (0 <? Str.length description)
            (Str.length description)
            ((120 <=? Str.length description)
             && (Str.length description <=? 160)))
         keywords h1Count properStructure
         (Cheerio.length images) missingAlt
         (inject_Z (Z.of_nat (Cheerio.length images) - Z.of_nat missingAlt)
          / num (Nat.max (Cheerio.length images) 1) * 100)%Q
         internalLinks externalLinks schemaMarkup mobileOptimized).

(** [$(sel).toArray().some(el => $(el).attr(name)?.includes(part))] *)
Definition someAttrIncludes (d : Cheerio.CheerioAPI)
  (selector name part : string) : M bool :=
  found <- query d selector ;;
  ret (existsb
         (fun el =>
            match Cheerio.attr (Cheerio.wrap d el) name with
            | Some v => includes v part
            | None => false
            end)
         (Cheerio.toArray found)).

Definition analyzePerformance : M PerformanceAnalysis.t :=
  d <- loaded ;;
  scripts <- query d "script[src]" ;;
  let scripts := Cheerio.length scripts in
  styles <- query d ("link[rel=" ++ quoted "stylesheet" ++ "]") ;;
  let styles := Cheerio.length styles in
  images <- query d "img" ;;
  let images := Cheerio.length images in
  hasMinifiedCSS <-
    someAttrIncludes d ("link[rel=" ++ quoted "stylesheet" ++ "]") "href"
      ".min.css" ;;
  hasMinifiedJS <- someAttrIncludes d "script[src]" "src" ".min.js" ;;
  hasLazyLoading <- hasAny d ("img[loading=" ++ quoted "lazy" ++ "]") ;;
  let estimatedLoadTime :=
    (num scripts * 0.2 + num styles * 0.15 + num images * 0.1)%Q in
  let score :=
    calculatePerformanceScore
      (PerformanceParams.make scripts styles images hasMinifiedCSS
         hasMinifiedJS hasLazyLoading estimatedLoadTime) in
  ret (PerformanceAnalysis.make score (toFixed2 estimatedLoadTime)
         images scripts styles hasMinifiedCSS hasMinifiedJS false
         hasLazyLoading).

(** The callback of [$('*').each], pushing onto [fontSizes]. *)
Definition collectFontSize (d : Cheerio.CheerioAPI) (fontSizes : list Z)
  (el : Cheerio.Element) : list Z :=
  let fontSize := Cheerio.css (Cheerio.wrap d el) "font-size" in
  if falsy fontSize then fontSizes
  else
    match parseInt (orEmpty fontSize) with
    | Some size => fontSizes ++ [size]
    | None => fontSizes
    end.

Definition analyzeDesign : M DesignAnalysis.t :=
  d <- loaded ;;
  all <- query d "*" ;;
  let fontSizes := fold_left (collectFontSize d) (Cheerio.toArray all) [] in
  let uniqueFontSizes := unique fontSizes [] in
  let readableSize := existsb (fun size => (16 <=? size)%Z) fontSizes in
  visualHierarchy <- assessVisualHierarchy d ;;
  whitespace <- assessWhitespace d ;;
  images <- query d "img" ;;
  let imageCount := Cheerio.length images in
  body <- query d "body" ;;
  let textLength := Str.length (Cheerio.text body) in
  let imageTextBalance := calculateImageTextBalance imageCount textLength in
  let score :=
    calculateDesignScore
      (DesignParams.make visualHierarchy whitespace readableSize
         (List.length uniqueFontSizes)
         (ImageTextBalance.score imageTextBalance)) in
  ret (DesignAnalysis.make score visualHierarchy whitespace 75 []
         (slice0 10 uniqueFontSizes) readableSize
         (List.length uniqueFontSizes) imageTextBalance).

Definition analyzePsychology : M PsychologyAnalysis.t :=
  d <- loaded ;;
  trustSignals <- detectTrustSignals d ;;
  ctas <- query d "button, a.button, a.btn, .cta" ;;
  let ctaText := toLowerCase (Cheerio.text ctas) in
  let hasUrgency :=
    includes ctaText "now" || includes ctaText "today"
    || includes ctaText "limited" in
  hasSocialProof <-
    orElse (hasAny d ("*:contains(" ++ quoted "customers" ++ ")"))
      (orElse (hasAny d ("*:contains(" ++ quoted "reviews" ++ ")"))
         (hasAny d ("*:contains(" ++ quoted "testimonial" ++ ")"))) ;;
  let ctaAboveFold := 0 <? Cheerio.length ctas in
  ctaClarity <- assessCTAClarity ctas ;;
  let score :=
    calculatePsychologyScore
      (PsychologyParams.make
         (List.length (TrustSignals.present trustSignals))
         (Cheerio.length ctas) ctaAboveFold ctaClarity hasUrgency
         hasSocialProof) in
  ret (PsychologyAnalysis.make score trustSignals
         (CtaPlacement.make ctaClarity (Cheerio.length ctas) ctaAboveFold
            ctaClarity)
         (ColorPsychology.make 70 [] "Professional" 75)
         hasUrgency hasSocialProof).

Definition analyzeAccessibility : M AccessibilityAnalysis.t :=
  d <- loaded ;;
  needing <- query d "button, a, input, select, textarea" ;;
  let elementsNeedingAria := Cheerio.length needing in
  labelled <- query d "[aria-label], [aria-labelledby]" ;;
  let elementsWithAria := Cheerio.length labelled in
  images <- query d "img" ;;
  let images := Cheerio.length images in
  withAlt <- query d "img[alt]" ;;
  let imagesWithAlt := Cheerio.length withAlt in
  hasSemanticHTML <- hasAny d "header, nav, main, footer, article, section" ;;
  hasLangAttr <- hasAny d "html[lang]" ;;
  let ariaScore :=
    if 0 <? elementsNeedingAria
    then (num elementsWithAria / num elementsNeedingAria * 100)%Q
    else 100%Q in
  let altScore :=
    if 0 <? images then (num imagesWithAlt / num images * 100)%Q
    else 100%Q in
  let score :=
    calculateAccessibilityScore
      (AccessibilityParams.make ariaScore altScore hasSemanticHTML
         hasLangAttr) in
  ret (AccessibilityAnalysis.make score
         (if (80 <=? score)%Z then "AA"
          else if (60 <=? score)%Z then "A" else "Needs Improvement")
         ariaScore
         (Z.of_nat elementsNeedingAria - Z.of_nat elementsWithAria)%Z
         true
         (hasSemanticHTML && Qgtb ariaScore 50)
         4.5%Q).

(** *** The entry point *)

(** [Promise.all] of six settled promises: the six values, or the first
    rejection in the order of the array. *)
Definition Promise_all {A B C D E F : Type}
  (a : completion A) (b : completion B) (c : completion C)
  (d : completion D) (e : completion E) (f : completion F)
  : completion (A * B * C * D * E * F) :=
  a <- a ;; b <- b ;; c <- c ;; d <- d ;; e <- e ;; f <- f ;;
  ret (a, b, c, d, e, f).

(** The message of the error thrown by the [catch] clause of [analyze]. *)
Definition failureMessage (error : thrown) : string :=
  "Analysis failed: "
  ++ match error with
     | Error message => message
     | NonError _ => "Unknown error"
     end.

Definition analyze (u : string) : M AnalysisResult.t :=
  a <- getThis ;;
  setThis {| html := html a; dollar := dollar a; url := u |} ;;;
  try_catch
    (fetchWebsite u ;;;
     content <- settle analyzeContent ;;
     seo <- settle analyzeSEO ;;
     performance <- settle analyzePerformance ;;
     design <- settle analyzeDesign ;;
     psychology <- settle analyzePsychology ;;
     accessibility <- settle analyzeAccessibility ;;
     all <-
       await (Promise_all content seo performance design psychology
                accessibility) ;;
     let '(contentAnalysis, seoAnalysis, performanceAnalysis, designAnalysis,
           psychologyAnalysis, accessibilityAnalysis) := all in
     let analyses :=
       Analyses.make contentAnalysis seoAnalysis performanceAnalysis
         designAnalysis psychologyAnalysis accessibilityAnalysis in
     let overallScore := calculateOverallScore analyses in
     let recommendations := generateRecommendations analyses in
     let criticalIssues := Recommendations.criticalIssues recommendations in
     let quickWins := Recommendations.quickWins recommendations in
     let strategicImprovements :=
       Recommendations.strategicImprovements recommendations in
     timestamp <- clock ;;
     ret (AnalysisResult.make u timestamp overallScore contentAnalysis
            seoAnalysis performanceAnalysis designAnalysis psychologyAnalysis
            accessibilityAnalysis criticalIssues quickWins
            strategicImprovements
            (countFreeInsights criticalIssues quickWins)
            (countPremiumInsights criticalIssues quickWins
               strategicImprovements)))
    (fun error => throw (Error (failureMessage error))).

End Analyzer.

(** ** A document tree with the selectors the analyzer uses

    An executable stand-in for cheerio: a page is a forest of elements and
    text nodes, a selection is a list of elements in document order, and a
    selector is a comma-separated list of compound selectors made of a tag
    name or [*], classes, attribute tests and [:contains(...)]. *)

Module Dom.

Inductive node : Type :=
| Text (s : string)
| Elem (tag : string) (attrs : list (string * string)) (children : list node).

Fixpoint textContent (n : node) : string :=
  match n with
  | Text s => s
  | Elem _ _ children => Str.concat EmptyString (map textContent children)
  end.

(** The element itself and its descendants, in document order. *)
Fixpoint elements (n : node) : list node :=
  match n with
  | Text _ => []
  | Elem _ _ children => n :: flat_map elements children
  end.

Definition attribute (n : node) (name : string) : option string :=
  match n with
  | Text _ => None
  | Elem _ attrs _ => lookup attrs name
  end.

Inductive attr_op : Type := Has | Equals | Prefix | Substring.

Record compound : Type := {
  c_tag : option string;
  c_classes : list string;
  c_attrs : list (string * attr_op * string);
  c_contains : list string }.

Definition anything : compound :=
  {| c_tag := None; c_classes := []; c_attrs := []; c_contains := [] |}.

Definition with_tag (c : compound) (t : string) : compound :=
  {| c_tag := if Str.eqb t "*" then None else Some t;
     c_classes := c_classes c; c_attrs := c_attrs c;
     c_contains := c_contains c |}.

Definition with_class (c : compound) (k : string) : compound :=
  {| c_tag := c_tag c; c_classes := c_classes c ++ [k];
     c_attrs := c_attrs c; c_contains := c_contains c |}.

Definition with_attr (c : compound) (name : string) (op : attr_op)
  (v : string) : compound :=
  {| c_tag := c_tag c; c_classes := c_classes c;
     c_attrs := c_attrs c ++ [(name, op, v)]; c_contains := c_contains c |}.

Definition with_contains (c : compound) (v : string) : compound :=
  {| c_tag := c_tag c; c_classes := c_classes c; c_attrs := c_attrs c;
     c_contains := c_contains c ++ [v] |}.

(** The states of the selector reader. *)
Inductive mode : Type :=
| Start
| Tag (buf : string)
| Class (buf : string)
| AttrName (buf : string)
| AttrEq (name : string) (op : attr_op)
| AttrValue (name : string) (op : attr_op)
| AttrQuoted (name : string) (op : attr_op) (buf : string)
| AttrBare (name : string) (op : attr_op) (buf : string)
| AttrEnd
| After
| Pseudo (buf : string)
| PseudoArg
| PseudoQuoted (buf : string)
| PseudoEnd
| Trail.

Definition is_name_char (c : unit16) : bool :=
  (((48 <=? c) && (c <=? 57)) || ((65 <=? c) && (c <=? 90))
   || ((97 <=? c) && (c <=? 122)) || (c =? 45) || (c =? 95))%N.

Definition snoc (s : string) (c : unit16) : string := s ++ String c EmptyString.

Definition bad {A : Type} (selector : string) : completion A :=
  Throw (Error ("Unmatched selector: " ++ selector)).

(** Reads a selector group; [done] holds the finished compounds and [cur]
    the one being read. *)
Fixpoint read (whole s : string) (done : list compound) (cur : compound)
  (m : mode) : completion (list compound) :=
  match s with
  | EmptyString =>
      match m with
      | Tag buf => Normal (done ++ [with_tag cur buf])
      | Class buf =>
          if Str.length buf =? 0 then bad whole
          else Normal (done ++ [with_class cur buf])
      | After | Trail => Normal (done ++ [cur])
      | _ => bad whole
      end
  | String c s' =>
      let next := read whole s' in
      let part (cur' : compound) : completion (list compound) :=
        if is_char c "." then next done cur' (Class EmptyString)
        else if is_char c "[" then next done cur' (AttrName EmptyString)
        else if is_char c ":" then next done cur' (Pseudo EmptyString)
        else if is_char c "," then next (done ++ [cur']) anything Start
        else if is_space c then next done cur' Trail
        else bad whole in
      match m with
      | Start =>
          if is_space c then next done cur Start
          else if is_char c "*" then next done (with_tag cur "*") After
          else if is_name_char c then next done cur (Tag (String c EmptyString))
          else if is_char c "," then bad whole
          else part cur
      | Tag buf =>
          if is_name_char c then next done cur (Tag (snoc buf c))
          else part (with_tag cur buf)
      | Class buf =>
          if is_name_char c then next done cur (Class (snoc buf c))
          else if Str.length buf =? 0 then bad whole
          else part (with_class cur buf)
      | AttrName buf =>
          if is_name_char c then next done cur (AttrName (snoc buf c))
          else if Str.length buf =? 0 then bad whole
          else if is_char c "]"
          then next done (with_attr cur buf Has EmptyString) After
          else if is_char c "=" then next done cur (AttrValue buf Equals)
          else if is_char c "^" then next done cur (AttrEq buf Prefix)
          else if is_char c "*" then next done cur (AttrEq buf Substring)
          else bad whole
      | AttrEq name op =>
          if is_char c "=" then next done cur (AttrValue name op)
          else bad whole
      | AttrValue name op =>
          if is_char c (ascii_of_nat 34)
          then next done cur (AttrQuoted name op EmptyString)
          else if is_name_char c
          then next done cur (AttrBare name op (String c EmptyString))
          else bad whole
      | AttrQuoted name op buf =>
          if is_char c (ascii_of_nat 34)
          then next done (with_attr cur name op buf) AttrEnd
          else next done cur (AttrQuoted name op (snoc buf c))
      | AttrBare name op buf =>
          if is_name_char c then next done cur (AttrBare name op (snoc buf c))
          else if is_char c "]"
          then next done (with_attr cur name op buf) After
          else bad whole
      | AttrEnd =>
          if is_char c "]" then next done cur After else bad whole
      | After => part cur
      | Pseudo buf =>
          if is_name_char c then next done cur (Pseudo (snoc buf c))
          else if is_char c "(" && Str.eqb buf "contains"
          then next done cur PseudoArg
          else bad whole
      | PseudoArg =>
          if is_char c (ascii_of_nat 34)
          then next done cur (PseudoQuoted EmptyString)
          else bad whole
      | PseudoQuoted buf =>
          if is_char c (ascii_of_nat 34)
          then next done (with_contains cur buf) PseudoEnd
          else next done cur (PseudoQuoted (snoc buf c))
      | PseudoEnd =>
          if is_char c ")" then next done cur After else bad whole
      | Trail =>
          if is_space c then next done cur Trail
          else if is_char c "," then next (done ++ [cur]) anything Start
          else bad whole
      end
  end.

Definition parse (selector : string) : completion (list compound) :=
  read selector selector [] anything Start.

Definition attr_holds (n : node) (test : string * attr_op * string) : bool :=
  let '(name, op, v) := test in
  match attribute n name with
  | None => false
  | Some actual =>
      match op with
      | Has => true
      | Equals => Str.eqb actual v
      | Prefix => startsWith actual v
      | Substring => includes actual v
      end
  end.

Definition has_class (n : node) (k : string) : bool :=
  match attribute n "class" with
  | None => false
  | Some names => existsb (Str.eqb k) (split_runs is_space names)
  end.

Definition matches (n : node) (c : compound) : bool :=
  match n with
  | Text _ => false
  | Elem tag _ _ =>
      match c_tag c with
      | Some t => Str.eqb t tag
      | None => true
      end
      && forallb (has_class n) (c_classes c)
      && forallb (attr_holds n) (c_attrs c)
      && forallb (includes (textContent n)) (c_contains c)
  end.

Definition matches_any (group : list compound) (n : node) : bool :=
  existsb (matches n) group.

(** *** Reading a page

    A small reader for well-nested markup: tags with quoted or bare
    attribute values, text, and [<!...>] declarations, which it skips. *)

Inductive token : Type :=
| TText (s : string)
| TOpen (tag : string) (attrs : list (string * string))
| TClose (tag : string).

Inductive hmode : Type :=
| HText (buf : string)
| HLt
| HBang
| HOpenName (buf : string)
| HCloseName (buf : string)
| HAttrs (tag : string) (attrs : list (string * string))
| HAttrName (tag : string) (attrs : list (string * string)) (buf : string)
| HAttrValue (tag : string) (attrs : list (string * string)) (name : string)
| HAttrQuoted (tag : string) (attrs : list (string * string))
    (name buf : string)
| HAttrBare (tag : string) (attrs : list (string * string))
    (name buf : string).

Definition flush (buf : string) : list token :=
  if Str.length buf =? 0 then [] else [TText buf].

Fixpoint tokenize (s : string) (m : hmode) : list token :=
  match s with
  | EmptyString =>
      match m with
      | HText buf => flush buf
      | _ => []
      end
  | String c s' =>
      let gt := is_char c ">" in
      let opened tag attrs :=
        TOpen (toLowerCase tag) attrs :: tokenize s' (HText EmptyString) in
      match m with
      | HText buf =>
          if is_char c "<" then flush buf ++ tokenize s' HLt
          else tokenize s' (HText (snoc buf c))
      | HLt =>
          if is_char c "/" then tokenize s' (HCloseName EmptyString)
          else if is_char c "!" then tokenize s' HBang
          else if is_name_char c
          then tokenize s' (HOpenName (String c EmptyString))
          else tokenize s' (HText (String (ch "<") (String c EmptyString)))
      | HBang =>
          if gt then tokenize s' (HText EmptyString) else tokenize s' HBang
      | HOpenName buf =>
          if is_name_char c then tokenize s' (HOpenName (snoc buf c))
          else if gt then opened buf []
          else tokenize s' (HAttrs buf [])
      | HCloseName buf =>
          if gt then TClose (toLowerCase buf) :: tokenize s' (HText EmptyString)
          else if is_name_char c then tokenize s' (HCloseName (snoc buf c))
          else tokenize s' (HCloseName buf)
      | HAttrs tag attrs =>
          if gt then opened tag attrs
          else if is_name_char c
          then tokenize s' (HAttrName tag attrs (String c EmptyString))
          else tokenize s' (HAttrs tag attrs)
      | HAttrName tag attrs buf =>
          if is_name_char c then tokenize s' (HAttrName tag attrs (snoc buf c))
          else if is_char c "=" then tokenize s' (HAttrValue tag attrs buf)
          else if gt then opened tag (attrs ++ [(buf, EmptyString)])
          else tokenize s' (HAttrs tag (attrs ++ [(buf, EmptyString)]))
      | HAttrValue tag attrs name =>
          if is_char c (ascii_of_nat 34)
          then tokenize s' (HAttrQuoted tag attrs name EmptyString)
          else if gt then opened tag (attrs ++ [(name, EmptyString)])
          else if is_space c then tokenize s' (HAttrValue tag attrs name)
          else tokenize s' (HAttrBare tag attrs name (String c EmptyString))
      | HAttrQuoted tag attrs name buf =>
          if is_char c (ascii_of_nat 34)
          then tokenize s' (HAttrs tag (attrs ++ [(name, buf)]))
          else tokenize s' (HAttrQuoted tag attrs name (snoc buf c))
      | HAttrBare tag attrs name buf =>
          if gt then opened tag (attrs ++ [(name, buf)])
          else if is_space c
          then tokenize s' (HAttrs tag (attrs ++ [(name, buf)]))
          else tokenize s' (HAttrBare tag attrs name (snoc buf c))
      end
  end.

Definition is_void (tag : string) : bool :=
  existsb (Str.eqb tag) ["meta"; "img"; "link"; "input"; "br"; "hr"].

(** Builds the forest; [open] holds the elements not yet closed, innermost
    first, each with the siblings read before it, and [level] the nodes of
    the current level, the latest first. *)
Fixpoint build (tokens : list token)
  (open : list (string * list (string * string) * list node))
  (level : list node) : list node :=
  match tokens with
  | [] =>
      fold_left
        (fun inner frame =>
           let '(tag, attrs, before) := frame in
           rev (Elem tag attrs inner :: before))
        open (rev level)
  | TText s :: rest => build rest open (Text s :: level)
  | TOpen tag attrs :: rest =>
      if is_void tag then build rest open (Elem tag attrs [] :: level)
      else build rest ((tag, attrs, level) :: open) []
  | TClose _ :: rest =>
      match open with
      | (tag, attrs, before) :: outer =>
          build rest outer (Elem tag attrs (rev level) :: before)
      | [] => build rest [] level
      end
  end.

Definition read_page (html : string) : list node :=
  build (tokenize html (HText EmptyString)) [] [].

(** *** Inline styles *)

Fixpoint trim_end (s : string) : string :=
  match s with
  | EmptyString => EmptyString
  | String c s' =>
      let t := trim_end s' in
      if is_space c && (Str.length t =? 0) then EmptyString
      else String c t
  end.

Definition trim (s : string) : string := trim_end (skip_space s).

Fixpoint declared (prop : string) (declarations : list string)
  : option string :=
  match declarations with
  | [] => None
  | decl :: rest =>
      match split_char ":" decl with
      | name :: value :: _ =>
          if Str.eqb (trim name) prop then Some (trim value)
          else declared prop rest
      | _ => declared prop rest
      end
  end.

(** *** The operations *)

Definition select (page : list node) (selector : string)
  : completion (list node) :=
  group <- parse selector ;;
  ret (filter (matches_any group) (flat_map elements page)).

Definition not (selection : list node) (selector : string)
  : completion (list node) :=
  group <- parse selector ;;
  ret (filter (fun n => negb (matches_any group n)) selection).

Definition text (selection : list node) : string :=
  Str.concat EmptyString (map textContent selection).

Definition attr (selection : list node) (name : string) : option string :=
  match selection with
  | n :: _ => attribute n name
  | [] => None
  end.

Definition css (selection : list node) (prop : string) : option string :=
  match attr selection "style" with
  | Some style => declared prop (split_char ";" style)
  | None => None
  end.

#[export] Instance api : Cheerio.API := {
  Cheerio.CheerioAPI := list node;
  Cheerio.Selection := list node;
  Cheerio.Element := node;
  Cheerio.load := read_page;
  Cheerio.select := select;
  Cheerio.wrap := fun _ n => [n];
  Cheerio.length := @List.length node;
  Cheerio.text := text;
  Cheerio.first := firstn 1;
  Cheerio.attr := attr;
  Cheerio.css := css;
  Cheerio.not := not;
  Cheerio.toArray := fun selection => selection
}.

End Dom.

(** ** Notions used to state the properties *)

(** A weight that counts only when its condition holds. *)
Definition gate (b : bool) (w : Z) : Z := if b then w else 0%Z.

Definition gateQ (b : bool) (w : Q) : Q := if b then w else 0%Q.

(** A base value plus the gated weights, in order. *)
Definition gated_sum (base : Z) (gates : list (bool * Z)) : Z :=
  fold_left (fun acc g => (acc + gate (fst g) (snd g))%Z) gates base.

(** The upper clamp at 100, with a lower clamp where there is one. *)
Definition clamp (lo : option Z) (x : Z) : Z :=
  match lo with
  | Some l => Z.max l (Z.min 100 x)
  | None => Z.min 100 x
  end.

(** [f] is the base plus the weights gated by [features], clamped. *)
Definition gated_form {P : Type} (base : Z) (weights : list Z)
  (lo : option Z) (features : list (P -> bool)) (f : P -> Z) : Prop :=
  List.length weights = List.length features /\
  forall p,
    f p = clamp lo
            (gated_sum base
               (combine (map (fun feature => feature p) features) weights)).

(** [f] has that form for some fixed base and weights. *)
Definition gated_linear {P : Type} (features : list (P -> bool))
  (f : P -> Z) : Prop :=
  exists (base : Z) (weights : list Z) (lo : option Z),
    gated_form base weights lo features f.

(** [w] occurs in [s] at index [i]. *)
Definition occurs_at (w s : string) (i : nat) : Prop :=
  exists pre post : string,
    s = (pre ++ w ++ post)%js /\ Str.length pre = i.

Definition occurs (w s : string) : Prop := exists i, occurs_at w s i.













(** The number of maximal runs of separator characters in [s]; [in_run]
    tells that the character before [s] was a separator. *)
Fixpoint runs (sep : unit16 -> bool) (s : string) (in_run : bool) : nat :=
  match s with
  | EmptyString => 0
  | String c s' =>
      if sep c then (if in_run then 0 else 1) + runs sep s' true
      else runs sep s' false
  end.

(** The last character of [s] is a separator; [prev] answers for the empty
    string. *)
Fixpoint endsWith (sep : unit16 -> bool) (s : string) (prev : bool) : bool :=
  match s with
  | EmptyString => prev
  | String c s' => endsWith sep s' (sep c)
  end.

(** A text that is not empty and has no white space at either end. *)
Definition trimmed (text : string) : bool :=
  match text with
  | EmptyString => false
  | String c _ => negb (is_space c) && negb (endsWith is_space text false)
  end.

(** The readability band of a text with the given counts. *)
Definition band (words sentences : nat) : Z :=
  if words <=? 15 * Nat.max sentences 1 then 90%Z
  else if words <=? 20 * Nat.max sentences 1 then 75%Z
  else if words <=? 25 * Nat.max sentences 1 then 60%Z
  else 40%Z.

(** The segments [calculateReadability] counts. *)
Definition wordSegments (text : string) : nat :=
  List.length (split_runs is_space text).

Definition sentenceSegments (text : string) : nat :=
  List.length (split_runs is_sentence_end text).

(** The conditions each scoring method tests, in the order of its [if]
    statements. *)
Definition contentFeatures : list (ContentParams.t -> bool) :=
  [ fun p => 300 <=? ContentParams.wordCount p;
    fun p => (60 <=? ContentParams.readabilityScore p)%Z;
    fun p => ContentParams.spellingIssues p =? 0;
    ContentParams.hasClearValue ].

Definition seoFeatures : list (SEOParams.t -> bool) :=
  [ fun p => (30 <=? SEOParams.title p) && (SEOParams.title p <=? 60);
    fun p => 120 <=? SEOParams.description p;
    SEOParams.properStructure;
    SEOParams.schemaMarkup;
    SEOParams.mobileOptimized ].

Definition performanceFeatures : list (PerformanceParams.t -> bool) :=
  [ fun p => 10 <? PerformanceParams.scripts p;
    PerformanceParams.hasMinifiedCSS;
    PerformanceParams.hasMinifiedJS;
    PerformanceParams.hasLazyLoading ].

Definition designFeatures : list (DesignParams.t -> bool) :=
  [ fun p => (70 <=? DesignParams.visualHierarchy p)%Z;
    fun p => (70 <=? DesignParams.whitespace p)%Z;
    DesignParams.readableSize;
    fun p => (3 <=? DesignParams.fontVariety p)
             && (DesignParams.fontVariety p <=? 6) ].

Definition psychologyFeatures : list (PsychologyParams.t -> bool) :=
  [ fun p => 3 <=? PsychologyParams.trustSignals p;
    fun p => 1 <=? PsychologyParams.ctaCount p;
    PsychologyParams.ctaAboveFold;
    PsychologyParams.hasSocialProof ].

Definition accessibilityFeatures : list (AccessibilityParams.t -> bool) :=
  [ AccessibilityParams.hasSemanticHTML; AccessibilityParams.hasLangAttr ].

(** *** Runs of the analyzer *)

Section Observations.

Context {cheerio : Cheerio.API}.

(** [c] only reads the analyzer: it leaves the machine as it found it, and
    its outcome is the same in any environment and on any machine whose
    analyzer is related by [R]. *)
Definition reads {A : Type}
  (R : WebsiteAnalyzer -> WebsiteAnalyzer -> Prop) (c : M A) : Prop :=
  forall env env' m m',
    R (this m) (this m') -> c env m = (fst (c env' m'), m).

(** Two analyzers that hold the same parsed page. *)
Definition same_page (a b : WebsiteAnalyzer) : Prop := dollar a = dollar b.

(** An environment in which nothing answers. *)
Definition quiet : Env :=
  {| axios_get := fun _ => Throw (NonError EmptyString); now := EmptyString |}.

(** The outcome of a method on a given analyzer. *)
Definition outcome {A : Type} (c : M A) (a : WebsiteAnalyzer) : completion A :=
  fst (c quiet {| this := a; requests := [] |}).

(** The analyzer once [fetchWebsite] has stored the page [data]. *)
Definition afterFetch (u data : string) : WebsiteAnalyzer :=
  {| html := data; dollar := Some (Cheerio.load data); url := u |}.

(** The six module results on a given analyzer, or the first failure in the
    order of the array given to [Promise.all]. *)
Definition gather (a : WebsiteAnalyzer) : completion Analyses.t :=
  contentAnalysis <- outcome analyzeContent a ;;
  seoAnalysis <- outcome analyzeSEO a ;;
  performanceAnalysis <- outcome analyzePerformance a ;;
  designAnalysis <- outcome analyzeDesign a ;;
  psychologyAnalysis <- outcome analyzePsychology a ;;
  accessibilityAnalysis <- outcome analyzeAccessibility a ;;
  ret (Analyses.make contentAnalysis seoAnalysis performanceAnalysis
         designAnalysis psychologyAnalysis accessibilityAnalysis).

(** The object [analyze] returns for given module results. *)
Definition report (u timestamp : string) (analyses : Analyses.t)
  : AnalysisResult.t :=
  let recommendations := generateRecommendations analyses in
  AnalysisResult.make u timestamp (calculateOverallScore analyses)
    (Analyses.contentAnalysis analyses)
    (Analyses.seoAnalysis analyses)
    (Analyses.performanceAnalysis analyses)
    (Analyses.designAnalysis analyses)
    (Analyses.psychologyAnalysis analyses)
    (Analyses.accessibilityAnalysis analyses)
    (Recommendations.criticalIssues recommendations)
    (Recommendations.quickWins recommendations)
    (Recommendations.strategicImprovements recommendations)
    (countFreeInsights (Recommendations.criticalIssues recommendations)
       (Recommendations.quickWins recommendations))
    (countPremiumInsights (Recommendations.criticalIssues recommendations)
       (Recommendations.quickWins recommendations)
       (Recommendations.strategicImprovements recommendations)).

(** The six module results of a report. *)
Definition analysesOf (r : AnalysisResult.t) : Analyses.t :=
  Analyses.make (AnalysisResult.contentAnalysis r)
    (AnalysisResult.seoAnalysis r)
    (AnalysisResult.performanceAnalysis r)
    (AnalysisResult.designAnalysis r)
    (AnalysisResult.psychologyAnalysis r)
    (AnalysisResult.accessibilityAnalysis r).

(** The seven scores of a report: content, SEO, performance, design,
    psychology, accessibility, overall. *)
Definition moduleScores (analyses : Analyses.t) : list Z :=
  [ ContentAnalysis.score (Analyses.contentAnalysis analyses);
    SEOAnalysis.score (Analyses.seoAnalysis analyses);
    PerformanceAnalysis.score (Analyses.performanceAnalysis analyses);
    DesignAnalysis.score (Analyses.designAnalysis analyses);
    PsychologyAnalysis.score (Analyses.psychologyAnalysis analyses);
    AccessibilityAnalysis.score (Analyses.accessibilityAnalysis analyses) ].

Definition scores (r : AnalysisResult.t) : list Z :=
  moduleScores (analysesOf r) ++ [AnalysisResult.overallScore r].

(** A report with its time stamp replaced. *)
Definition withTimestamp (t : string) (r : AnalysisResult.t)
  : AnalysisResult.t :=
  AnalysisResult.make (AnalysisResult.url r) t
    (AnalysisResult.overallScore r)
    (AnalysisResult.contentAnalysis r)
    (AnalysisResult.seoAnalysis r)
    (AnalysisResult.performanceAnalysis r)
    (AnalysisResult.designAnalysis r)
    (AnalysisResult.psychologyAnalysis r)
    (AnalysisResult.accessibilityAnalysis r)
    (AnalysisResult.criticalIssues r)
    (AnalysisResult.quickWins r)
    (AnalysisResult.strategicImprovements r)
    (AnalysisResult.freeInsightsCount r)
    (AnalysisResult.premiumInsightsAvailable r).

Definition mapCompletion {A B : Type} (f : A -> B) (c : completion A)
  : completion B :=
  match c with
  | Normal a => Normal (f a)
  | Throw e => Throw e
  end.

(** A result of any of the six modules. *)
Inductive ModuleResult : Type :=
| Content (r : ContentAnalysis.t)
| SEO (r : SEOAnalysis.t)
| Performance (r : PerformanceAnalysis.t)
| Design (r : DesignAnalysis.t)
| Psychology (r : PsychologyAnalysis.t)
| Accessibility (r : AccessibilityAnalysis.t).

Definition mapM {A B : Type} (f : A -> B) (c : M A) : M B :=
  a <- c ;; ret (f a).

(** The six calls of the array given to [Promise.all], in its order. *)
Definition modules : list (M ModuleResult) :=
  [ mapM Content analyzeContent;
    mapM SEO analyzeSEO;
    mapM Performance analyzePerformance;
    mapM Design analyzeDesign;
    mapM Psychology analyzePsychology;
    mapM Accessibility analyzeAccessibility ].

(** Calls the methods one after the other and keeps each outcome. *)
Fixpoint callAll (calls : list (M ModuleResult))
  : M (list (completion ModuleResult)) :=
  match calls with
  | [] => ret []
  | c :: rest =>
      p <- settle c ;;
      ps <- callAll rest ;;
      ret (p :: ps)
  end.

(** Whatever [c] returns satisfies [P]. *)
Definition ensures {A : Type} (c : M A) (P : A -> Prop) : Prop :=
  forall env m a m', c env m = (Normal a, m') -> P a.

(** The machine a call leaves behind: the url is stored, one request has
    gone out, and the page is stored when the request succeeded. *)
Definition machineAfter (env : Env) (u : string) (m : Machine) : Machine :=
  {| this :=
       match axios_get env u with
       | Normal data => afterFetch u data
       | Throw _ =>
           {| html := html (this m); dollar := dollar (this m); url := u |}
       end;
     requests := u :: requests m |}.

(** The value a call completes with. *)
Definition completionOf (env : Env) (u : string)
  : completion AnalysisResult.t :=
  match axios_get env u with
  | Throw e => Throw (Error (failureMessage e))
  | Normal data =>
      match gather (afterFetch u data) with
      | Normal analyses => Normal (report u (now env) analyses)
      | Throw e => Throw (Error (failureMessage e))
      end
  end.

(** The underlying message of a thrown value, as the [catch] clause of
    [analyze] reads it. *)
Definition underlying (cause : thrown) : string :=
  match cause with
  | Error message => message
  | NonError _ => "Unknown error"
  end.

End Observations.

(** ** Sample pages *)

Module Samples.

#[local] Existing Instance Dom.api.

(** A small page with six places to vary: the attributes of [html], an
    extra element of [head], the attributes of the heading, of the image
    and of the link, and one word of the paragraph. *)
Definition makePage
  (htmlAttrs headExtra headingAttrs imageAttrs linkAttrs word : string)
  : string :=
  "<!DOCTYPE html><html" ++ htmlAttrs ++ "><head><title>Acme Widgets</title>"
  ++ headExtra ++ "</head><body><h1" ++ headingAttrs ++ ">Acme</h1>"
  ++ "<p>We sell " ++ word ++ " widgets.</p>"
  ++ "<img src=a.png alt=logo" ++ imageAttrs ++ ">"
  ++ "<a href=/about" ++ linkAttrs ++ ">About</a></body></html>".

Definition none : string := EmptyString.

Definition page : string := makePage none none none none none "many".

(** The same page with one word of the spelling list. *)
Definition misspelt : string := makePage none none none none none "alot".

Definition withViewport : string :=
  makePage none
    ("<meta name=viewport content=" ++ quoted "width=device-width" ++ ">")
    none none none "many".

Definition withLazyImage : string :=
  makePage none none none " loading=lazy" none "many".

Definition withLargeHeading : string :=
  makePage none none (" style=" ++ quoted "font-size: 18px") none none "many".

Definition withCta : string :=
  makePage none none none none " class=cta" "many".

Definition withLang : string :=
  makePage " lang=en" none none none none "many".

Definition site : string := "https://acme.example".

(** A url with a double quote in it: the selector [analyzeSEO] builds from
    it does not parse. *)
Definition oddSite : string := "https://acme.example/" ++ dq ++ "x".

(** A network that answers every request with [data]. *)
Definition serving (data time : string) : Env :=
  {| axios_get := fun _ => Normal data; now := time |}.

(** A network on which every request fails. *)
Definition offline : Env :=
  {| axios_get := fun _ => Throw (Error "getaddrinfo ENOTFOUND acme.example");
     now := "2024-01-01T00:00:00.000Z" |}.

(** A network whose failure is not an [Error] object. *)
Definition broken : Env :=
  {| axios_get := fun _ => Throw (NonError "timeout");
     now := "2024-01-01T00:00:00.000Z" |}.

Definition morning : string := "2024-01-01T08:00:00.000Z".
Definition evening : string := "2024-01-01T20:00:00.000Z".

(** A new analyzer, and one that has analyzed another page before. *)
Definition fresh : Machine := {| this := newAnalyzer; requests := [] |}.

Definition used : Machine :=
  snd (analyze "https://other.example" (serving misspelt morning) fresh).

(** The seven scores of the report for [data], if there is one. *)
Definition scoresFor (data : string) : completion (list Z) :=
  match fst (analyze site (serving data morning) fresh) with
  | Normal r => Normal (scores r)
  | Throw e => Throw e
  end.

End Samples.

(** ** The request handler of [app/api/analyze/route.ts]

    The body of a request is given by the outcome of [req.json()]: it
    throws on a body that is not JSON, and otherwise gives the value read:
    [null], or a value with its [url] property, a string or nothing.
    Values of [url] of other types are left out. *)

Module Route.

Section Handler.

Context {cheerio : Cheerio.API}.

(** What the handler sees of its surroundings: the network and the clock the
    analyzer uses, the urls [new URL(url)] accepts, whether [NODE_ENV] is
    ['development'], and the message of the [TypeError] that the engine
    throws where [null] is destructured. *)
Record Server : Type := {
  outside : Env;
  parses : string -> bool;
  development : bool;
  nullMessage : string }.

(** The value [req.json()] reads. *)
Inductive Json : Type :=
| JNull
| JValue (url : option string).

(** [const { url } = value] *)
Definition destructure (server : Server) (value : Json)
  : completion (option string) :=
  match value with
  | JNull => Throw (Error (nullMessage server))
  | JValue url => Normal url
  end.

(** A line of [console.log], or a call of [console.error] with a label and
    the value caught. *)
Inductive logged : Type :=
| Log (line : string)
| LogError (label : string) (error : thrown).

(** The requests sent to the network so far, the latest first, and the
    console, the latest line last. *)
Record World : Type := {
  sent : list string;
  console : list logged }.

(** The three shapes of a response body. *)
Inductive Body : Type :=
| Refused (error : string)
| Analysed (success : bool) (analysis : AnalysisResult.t) (tier : string)
    (upgradeAvailable : bool)
| Failed (error message : string) (details : option string).

Record Response : Type := {
  body : Body;
  status : nat }.

(** The decimal text of an integer, as a template literal prints it. *)
Definition showInt (z : Z) : string :=
  literal (NilZero.string_of_int (Z.to_int z)).

Definition logLine (line : string) (w : World) : World :=
  {| sent := sent w; console := console w ++ [Log line] |}.

(** The [message] field of a failure. *)
Definition userMessage (errorMessage : string) : string :=
  if includes errorMessage "ENOTFOUND"
  then "Could not reach the website. Please check the URL and try again."
  else if includes errorMessage "timeout"
  then "Website took too long to respond. Please try again."
  else "Unable to analyze the website. Please try a different URL.".

(** The outer [catch] clause. *)
Definition onError (server : Server) (error : thrown) (w : World)
  : Response * World :=
  let w :=
    {| sent := sent w;
       console := console w ++ [LogError "Analysis error:" error] |} in
  let errorMessage :=
    match error with
    | Error message => message
    | NonError _ => "Unknown error"
    end in
  ({| body :=
        Failed "Analysis failed" (userMessage errorMessage)
          (if development server then Some errorMessage else None);
      status := 500 |},
   w).

Definition POST (server : Server) (json : completion Json) (w : World)
  : Response * World :=
  match value <- json ;; destructure server value with
  | Throw error => onError server error w
  | Normal url =>
      if falsy url then
        ({| body := Refused "URL is required"; status := 400 |}, w)
      else
        let url := orEmpty url in
        if negb (parses server url) then
          ({| body :=
                Refused
                  "Invalid URL format. Please enter a valid website URL.";
              status := 400 |},
           w)
        else
          let w :=
            logLine ("Starting enterprise-grade analysis for: " ++ url) w in
          let analyzer := newAnalyzer in
          let (result, m) :=
            analyze url (outside server)
              {| this := analyzer; requests := sent w |} in
          let w := {| sent := requests m; console := console w |} in
          match result with
          | Normal analysis =>
              let w :=
                logLine
                  ("Analysis completed. Overall score: "
                   ++ showInt (AnalysisResult.overallScore analysis))
                  w in
              ({| body :=
                    Analysed true analysis "free"
                      (0 <? AnalysisResult.premiumInsightsAvailable analysis);
                  status := 200 |},
               w)
          | Throw error => onError server error w
          end
  end.

End Handler.

(** A message of the kind engines give for it. *)
Definition sampleNullMessage : string :=
  "Cannot destructure property 'url' of null".

End Route.

(** ** Further notions *)

(** The text is empty or begins with white space. *)
Definition startsBlank (text : string) : bool :=
  match text with
  | EmptyString => true
  | String c _ => is_space c
  end.

(** A string of length 0. *)
Definition blank (w : string) : bool := negb (0 <? Str.length w).

(** 1 when the condition holds, 0 otherwise. *)
Definition count1 (b : bool) : nat := if b then 1 else 0.

(** The six names [detectTrustSignals] sorts into present and missing. *)
Definition trustSignalNames : list string :=
  [ "SSL Certificate"; "Contact Information"; "Privacy Policy";
    "Terms of Service"; "Testimonials"; "Security Badge" ].

(** [n] copies of [s]. *)
Fixpoint copies (n : nat) (s : string) : string :=
  match n with
  | 0 => EmptyString
  | S n' => s ++ copies n' s
  end.

(** A page with eleven scripts, an image without [alt], a link without
    label and 150 words in one sentence, one of them misspelt. *)
Definition barePage : string :=
  "<html><head></head><body>" ++ copies 11 "<script src=a.js></script>"
  ++ "<img src=a.png><a href=/x>x</a>" ++ copies 150 "definately "
  ++ "</body></html>".

(** A page with two labelled [div] elements and one link without label. *)
Definition labelledPage : string :=
  "<html><body><div aria-label=a>x</div><div aria-label=b>y</div>"
  ++ "<a href=/x>x</a></body></html>".

(** ** Properties of the scoring methods *)

(** Two parameter objects on which every feature agrees get the same value
    from a gated linear function. *)
Lemma gated_linear_agree {P : Type} (features : list (P -> bool))
  (f : P -> Z) (p q : P) :
  gated_linear features f ->
  Forall (fun feature => feature p = feature q) features ->
  f p = f q.
Proof.
  intros (base & weights & lo & _ & Hf) Hagree.
  rewrite (Hf p), (Hf q).
  replace (map (fun feature => feature p) features)
    with (map (fun feature => feature q) features); [reflexivity |].
  clear Hf.
  induction Hagree as [| feature rest Hfeat _ IH]; [reflexivity |].
  simpl. rewrite Hfeat, IH. reflexivity.
Qed.

Lemma content_score_formula params :
  calculateContentScore params =
  Z.min 100
    (70 + gate (300 <=? ContentParams.wordCount params)%nat 10
     + gate (60 <=? ContentParams.readabilityScore params)%Z 10
     + gate (ContentParams.spellingIssues params =? 0)%nat 5
     + gate (ContentParams.hasClearValue params) 5)%Z.
Proof.
  unfold calculateContentScore, gate.
  destruct (300 <=? _), (60 <=? _)%Z, (_ =? 0), (ContentParams.hasClearValue _);
    reflexivity.
Qed.

Lemma seo_score_formula params :
  calculateSEOScore params =
  Z.min 100
    (50 + gate ((30 <=? SEOParams.title params)
                && (SEOParams.title params <=? 60))%nat 15
     + gate (120 <=? SEOParams.description params)%nat 15
     + gate (SEOParams.properStructure params) 10
     + gate (SEOParams.schemaMarkup params) 5
     + gate (SEOParams.mobileOptimized params) 5)%Z.
Proof.
  unfold calculateSEOScore, gate.
  destruct (_ && _), (120 <=? _), (SEOParams.properStructure _),
    (SEOParams.schemaMarkup _), (SEOParams.mobileOptimized _); reflexivity.
Qed.

Lemma performance_score_formula params :
  calculatePerformanceScore params =
  Z.max 0
    (Z.min 100
       (80 + gate (10 <? PerformanceParams.scripts params)%nat (-10)
        + gate (PerformanceParams.hasMinifiedCSS params) 5
        + gate (PerformanceParams.hasMinifiedJS params) 5
        + gate (PerformanceParams.hasLazyLoading params) 10))%Z.
Proof.
  unfold calculatePerformanceScore, gate.
  destruct (10 <? _), (PerformanceParams.hasMinifiedCSS _),
    (PerformanceParams.hasMinifiedJS _), (PerformanceParams.hasLazyLoading _);
    reflexivity.
Qed.

Lemma design_score_formula params :
  calculateDesignScore params =
  Z.min 100
    (60 + gate (70 <=? DesignParams.visualHierarchy params)%Z 15
     + gate (70 <=? DesignParams.whitespace params)%Z 10
     + gate (DesignParams.readableSize params) 10
     + gate ((3 <=? DesignParams.fontVariety params)
             && (DesignParams.fontVariety params <=? 6))%nat 5)%Z.
Proof.
  unfold calculateDesignScore, gate.
  destruct (70 <=? DesignParams.visualHierarchy _)%Z,
    (70 <=? DesignParams.whitespace _)%Z, (DesignParams.readableSize _),
    (_ && _); reflexivity.
Qed.

Lemma psychology_score_formula params :
  calculatePsychologyScore params =
  Z.min 100
    (50 + gate (3 <=? PsychologyParams.trustSignals params)%nat 20
     + gate (1 <=? PsychologyParams.ctaCount params)%nat 10
     + gate (PsychologyParams.ctaAboveFold params) 10
     + gate (PsychologyParams.hasSocialProof params) 10)%Z.
Proof.
  unfold calculatePsychologyScore, gate.
  destruct (3 <=? _), (1 <=? _), (PsychologyParams.ctaAboveFold _),
    (PsychologyParams.hasSocialProof _); reflexivity.
Qed.

Lemma accessibility_score_formula params :
  calculateAccessibilityScore params =
  Z.min 100
    (JS.round
       ((AccessibilityParams.ariaScore params
         + AccessibilityParams.altScore params) / 2
        + gateQ (AccessibilityParams.hasSemanticHTML params) 10
        + gateQ (AccessibilityParams.hasLangAttr params) 5)%Q
     )%Z.
Proof.
  unfold calculateAccessibilityScore, gateQ, JS.round.
  f_equal. apply Qfloor_comp.
  destruct (AccessibilityParams.hasSemanticHTML _),
    (AccessibilityParams.hasLangAttr _); ring.
Qed.

(** C2, as amended: five of the six scoring methods are a fixed base plus
    fixed weights, each gated by a boolean or count-threshold condition,
    clamped to at most 100 (the performance score also to at least 0).  The
    accessibility score starts from the mean of the two percentages
    [ariaScore] and [altScore] instead of a constant, adds 10 and 5 under
    its two boolean conditions, is rounded and clamped to at most 100. *)
Theorem subscores_gated_linear :
  gated_form 70 [10; 10; 5; 5]%Z None contentFeatures calculateContentScore
  /\ gated_form 50 [15; 15; 10; 5; 5]%Z None seoFeatures calculateSEOScore
  /\ gated_form 80 [-10; 5; 5; 10]%Z (Some 0%Z) performanceFeatures
       calculatePerformanceScore
  /\ gated_form 60 [15; 10; 10; 5]%Z None designFeatures calculateDesignScore
  /\ gated_form 50 [20; 10; 10; 10]%Z None psychologyFeatures
       calculatePsychologyScore
  /\ forall params,
       calculateAccessibilityScore params =
       Z.min 100
         (JS.round
            ((AccessibilityParams.ariaScore params
              + AccessibilityParams.altScore params) / 2
             + gateQ (AccessibilityParams.hasSemanticHTML params) 10
             + gateQ (AccessibilityParams.hasLangAttr params) 5)%Q).
Proof.
  repeat split; try reflexivity; intro p.
  - apply content_score_formula.
  - apply seo_score_formula.
  - apply performance_score_formula.
  - apply design_score_formula.
  - apply psychology_score_formula.
  - apply accessibility_score_formula.
Qed.

(** C2 fails for the accessibility score: no fixed base and weights on its
    two conditions give it, since with both conditions false it is 0 for
    percentages 0 and 0, and 100 for percentages 100 and 100. *)
Lemma accessibility_base_not_constant :
  ~ gated_linear accessibilityFeatures calculateAccessibilityScore.
Proof.
  intro H.
  pose proof
    (gated_linear_agree accessibilityFeatures calculateAccessibilityScore
       (AccessibilityParams.make 0 0 false false)
       (AccessibilityParams.make 100 100 false false) H) as Heq.
  assert (Hagree :
    Forall (fun feature : AccessibilityParams.t -> bool =>
              feature (AccessibilityParams.make 0 0 false false)
              = feature (AccessibilityParams.make 100 100 false false))
      accessibilityFeatures)
    by (repeat constructor).
  specialize (Heq Hagree). vm_compute in Heq. discriminate.
Qed.

Lemma filter_all {A : Type} (f : A -> bool) (l : list A) :
  Forall (fun x => f x = true) l -> filter f l = l.
Proof.
  induction 1 as [| x l Hx _ IH]; simpl; [reflexivity |].
  now rewrite Hx, IH.
Qed.

Lemma filter_none {A : Type} (f : A -> bool) (l : list A) :
  Forall (fun x => f x = false) l -> filter f l = [].
Proof.
  induction 1 as [| x l Hx _ IH]; simpl; [reflexivity |].
  now rewrite Hx, IH.
Qed.

(** ** Readability *)

(** White space at the ends leaves empty segments, and so does a final
    full stop. *)
Example split_runs_blanks :
  split_runs is_space " a  b " = [EmptyString; "a"; "b"; EmptyString].
Proof. reflexivity. Qed.

Example split_runs_sentences :
  split_runs is_sentence_end "Hi. There!?" = ["Hi"; " There"; EmptyString].
Proof. reflexivity. Qed.

Lemma split_from_length sep s acc in_run :
  List.length (split_from sep s acc in_run) = S (runs sep s in_run).
Proof.
  revert acc in_run.
  induction s as [| c s IH]; intros acc in_run; simpl; [reflexivity |].
  destruct (sep c); [destruct in_run |]; simpl; now rewrite IH.
Qed.

Lemma num_pos s : 1 <= s -> (0 < num s)%Q.
Proof.
  intro H. unfold num. change 0%Q with (inject_Z 0).
  rewrite <- Zlt_Qlt. lia.
Qed.

(** The comparison of an average with a whole bound, without division. *)
Lemma average_le w s k :
  1 <= s ->
  Qle_bool (num w / num s) (inject_Z (Z.of_nat k)) = (w <=? k * s).
Proof.
  intro Hs. pose proof (num_pos s Hs) as Hpos.
  destruct (Nat.leb_spec w (k * s)) as [Hle | Hgt].
  - apply Qle_bool_iff. apply Qle_shift_div_r; [exact Hpos |].
    unfold num. rewrite <- inject_Z_mult, <- Zle_Qle. lia.
  - apply not_true_is_false. intro Hq. apply Qle_bool_iff in Hq.
    assert (Hlt : (inject_Z (Z.of_nat k) * num s < num w)%Q)
      by (unfold num; rewrite <- inject_Z_mult, <- Zlt_Qlt; lia).
    apply Qlt_shift_div_l in Hlt; [| exact Hpos].
    exact (Qlt_not_le _ _ Hlt Hq).
Qed.

Lemma readability_band text :
  calculateReadability text = band (wordSegments text) (sentenceSegments text).
Proof.
  unfold calculateReadability, band, wordSegments, sentenceSegments.
  set (w := List.length (split_runs is_space text)).
  set (s := List.length (split_runs is_sentence_end text)).
  assert (Hs : 1 <= Nat.max s 1) by lia.
  change 15%Q with (inject_Z (Z.of_nat 15)).
  change 20%Q with (inject_Z (Z.of_nat 20)).
  change 25%Q with (inject_Z (Z.of_nat 25)).
  rewrite !average_le by exact Hs. reflexivity.
Qed.

Lemma band_values w s : In (band w s) [90; 75; 60; 40]%Z.
Proof.
  unfold band.
  destruct (w <=? 15 * _); [now left |].
  destruct (w <=? 20 * _); [now right; left |].
  destruct (w <=? 25 * _);
    [now right; right; left | now right; right; right; left].
Qed.

(** X1: what [calculateReadability] computes, for every text: with words the
    number of segments that splitting on runs of white space produces (one
    more than the number of runs, so that white space at either end of the
    text adds an empty segment) and sentences the number of segments that
    splitting on runs of [.], [!], [?] produces, it returns 90 if
    words / max(sentences, 1) <= 15, 75 if <= 20, 60 if <= 25 and 40
    otherwise; its value is one of 90, 75, 60, 40 and is the same for two
    texts with the same two counts. *)
Theorem readability_by_segments (text : string) :
  wordSegments text = S (runs is_space text false)
  /\ sentenceSegments text = S (runs is_sentence_end text false)
  /\ calculateReadability text
     = band (wordSegments text) (sentenceSegments text)
  /\ In (calculateReadability text) [90; 75; 60; 40]%Z
  /\ forall other,
       wordSegments other = wordSegments text ->
       sentenceSegments other = sentenceSegments text ->
       calculateReadability other = calculateReadability text.
Proof.
  repeat split.
  - apply split_from_length.
  - apply split_from_length.
  - apply readability_band.
  - rewrite readability_band. apply band_values.
  - intros other Hw Hs. rewrite !readability_band, Hw, Hs. reflexivity.
Qed.

(** C4: with words the white-space separated tokens of the text, as
    [analyzeContent] counts them for [wordCount], fifteen words in one
    sentence should give 90.  [calculateReadability] splits the text in the
    same way but keeps the empty strings: after a leading blank it counts
    sixteen words and returns 75, while it returns 90 for the same words
    without the blank. *)
Theorem readability_counts_empty_segments :
  let text := " a a a a a a a a a a a a a a a" in
  let other := "a a a a a a a a a a a a a a a" in
  countWords text = 15 /\ sentenceSegments text = 1
  /\ countWords other = 15 /\ sentenceSegments other = 1
  /\ band 15 1 = 90%Z
  /\ wordSegments text = 16
  /\ calculateReadability text = 75%Z
  /\ calculateReadability other = 90%Z.
Proof. vm_compute. repeat split. Qed.

Lemma split_from_nonempty sep s acc in_run :
  endsWith sep s in_run = false ->
  (in_run = false ->
   acc <> EmptyString
   \/ exists c s', s = String c s' /\ sep c = false) ->
  Forall (fun w => (0 <? Str.length w) = true)
    (split_from sep s acc in_run).
Proof.
  revert acc in_run.
  induction s as [| c s IH]; intros acc in_run Hend Hacc; simpl in *.
  - subst in_run. constructor; [| constructor].
    destruct (Hacc eq_refl) as [Hne | (c & s' & H & _)]; [| discriminate].
    destruct acc; [contradiction | reflexivity].
  - destruct (sep c) eqn:Hc.
    + destruct in_run.
      * apply IH; [exact Hend | discriminate].
      * constructor; [| apply IH; [exact Hend | discriminate]].
        destruct (Hacc eq_refl) as [Hne | (c' & s' & H & Hc')].
        -- destruct acc; [contradiction | reflexivity].
        -- injection H as <- <-. congruence.
    + apply IH; [exact Hend |]. intros _. left.
      destruct acc; discriminate.
Qed.

(** On a trimmed text the two ways of counting words agree. *)
Lemma trimmed_words text :
  trimmed text = true -> countWords text = wordSegments text.
Proof.
  unfold trimmed, countWords, wordSegments, split_runs.
  destruct text as [| c s]; [discriminate |].
  intro H. apply andb_true_iff in H as [Hfirst Hlast].
  apply negb_true_iff in Hfirst. apply negb_true_iff in Hlast.
  rewrite filter_all; [reflexivity |].
  apply split_from_nonempty; [exact Hlast |].
  intros _. right. now exists c, s.
Qed.

(** X2: on a text that is not empty and has no white space at either end,
    [calculateReadability] is the band of its number of words, as
    [analyzeContent] counts them, and its number of sentence segments. *)
Theorem readability_trimmed (text : string) :
  trimmed text = true ->
  calculateReadability text = band (countWords text) (sentenceSegments text).
Proof.
  intro H. rewrite (trimmed_words text H). apply readability_band.
Qed.

(** Five words in three sentence segments. *)
Lemma readability_trimmed_witness :
  calculateReadability "One two three. Four five!"
  = band (countWords "One two three. Four five!")
      (sentenceSegments "One two three. Four five!").
Proof. apply readability_trimmed. reflexivity. Defined.

(** ** Spelling *)


Lemma startsWith_spec s w :
  startsWith s w = true <-> exists post, s = (w ++ post)%js.
Proof.
  revert s. induction w as [| a w IH]; intro s.
  - destruct s; simpl; split; intros _; try reflexivity; eauto.
  - destruct s as [| b s]; simpl.
    + split; [discriminate | intros [post H]; discriminate].
    + rewrite andb_true_iff, IH. split.
      * intros [Hab [post ->]]. apply N.eqb_eq in Hab as ->. eauto.
      * intros [post H]. injection H as -> ->.
        split; [apply N.eqb_refl | eauto].
Qed.

Lemma occurs_at_0 w s : occurs_at w s 0 <-> startsWith s w = true.
Proof.
  rewrite startsWith_spec. split.
  - intros (pre & post & -> & Hlen).
    destruct pre; [now exists post | discriminate].
  - intros [post ->]. exists EmptyString, post. split; reflexivity.
Qed.

Lemma occurs_at_S w c s i : occurs_at w (String c s) (S i) <-> occurs_at w s i.
Proof.
  split.
  - intros (pre & post & H & Hlen). destruct pre as [| a pre]; [discriminate |].
    simpl in H, Hlen. injection H as _ ->. injection Hlen as <-.
    exists pre, post. split; reflexivity.
  - intros (pre & post & -> & <-). exists (String c pre), post.
    split; reflexivity.
Qed.

Lemma occurs_at_empty w i : ~ occurs_at w EmptyString (S i).
Proof.
  intros (pre & post & H & Hlen). destruct pre; discriminate.
Qed.



Lemma includes_occurs s w : includes s w = true <-> occurs w s.
Proof.
  induction s as [| c s IH]; cbn [includes].
  - rewrite orb_false_r, <- occurs_at_0. split; [intro H; now exists 0 |].
    intros [[| i] H]; [exact H | now apply occurs_at_empty in H].
  - rewrite orb_true_iff, IH, <- occurs_at_0. split.
    + intros [H | [i H]]; [now exists 0 | exists (S i); now apply occurs_at_S].
    + intros [[| i] H]; [now left | right; exists i].
      now apply occurs_at_S in H.
Qed.


(** The loop of [detectSpellingIssues]: one issue, in order, for each word
    of the list that the lowered text includes. *)
Lemma detect_fold text ws acc :
  fold_left (checkWord text) ws acc =
  acc ++ map (fun w => SpellingIssue.make w (getCorrection w)
                         (indexOf (toLowerCase text) w))
           (filter (includes (toLowerCase text)) ws).
Proof.
  revert acc. induction ws as [| w ws IH]; intro acc; simpl.
  - now rewrite app_nil_r.
  - rewrite IH. unfold checkWord.
    destruct (includes (toLowerCase text) w); simpl; [| reflexivity].
    now rewrite <- app_assoc.
Qed.

(** *** Occurrences in the text and in the lower-cased text *)






















(** In "I RECIEVE alot", two list words are found, in the order of the
    list. *)
Example detectSpellingIssues_run :
  detectSpellingIssues "I RECIEVE alot" =
  [ SpellingIssue.make "recieve" "receive" 2;
    SpellingIssue.make "alot" "a lot" 10 ].
Proof. reflexivity. Qed.

(** ** The analysis methods only read the analyzer *)

Section Frames.

Context {cheerio : Cheerio.API}.

Variable R : WebsiteAnalyzer -> WebsiteAnalyzer -> Prop.
Hypothesis R_refl : forall a, R a a.

Lemma reads_ret {A : Type} (a : A) : reads R (ret a).
Proof. intros env env' m m' _. reflexivity. Qed.

Lemma reads_await {A : Type} (p : completion A) : reads R (await p).
Proof. intros env env' m m' _. reflexivity. Qed.

Lemma reads_throw {A : Type} (e : thrown) : reads R (@throw _ A e).
Proof. intros env env' m m' _. reflexivity. Qed.

Lemma reads_query d selector : reads R (query d selector).
Proof. apply reads_await. Qed.

Lemma reads_bind {A B : Type} (c : M A) (k : A -> M B) :
  reads R c -> (forall a, reads R (k a)) -> reads R (a <- c ;; k a).
Proof.
  intros Hc Hk env env' m m' HR. simpl.
  rewrite (Hc env env' m m' HR).
  rewrite (Hc env' env' m' m' (R_refl _)) at 2.
  destruct (fst (c env' m')) as [a | e]; [| reflexivity].
  apply (Hk a env env' m m' HR).
Qed.

Lemma reads_if {A : Type} (b : bool) (c1 c2 : M A) :
  reads R c1 -> reads R c2 -> reads R (if b then c1 else c2).
Proof. now destruct b. Qed.

End Frames.

Ltac reads_step :=
  first
    [ assumption
    | apply reads_ret
    | apply reads_await
    | apply reads_throw
    | apply reads_query
    | apply reads_if
    | apply reads_bind;
      [ first [assumption | intro; reflexivity] | | intro ] ].

Ltac reads_auto := cbv zeta; repeat (reads_step; cbv beta zeta).

Section Readers.

Context {cheerio : Cheerio.API}.

Lemma reads_getThis : reads eq getThis.
Proof. intros env env' m m' H. unfold getThis. simpl. now rewrite H. Qed.

Lemma reads_loaded : reads same_page loaded.
Proof.
  intros env env' m m' H. unfold loaded, getThis, same_page in *. simpl.
  rewrite H. now destruct (dollar (this m')).
Qed.

(** What reads the page only also reads the whole analyzer only. *)
Lemma reads_same_page_eq {A : Type} (c : M A) :
  reads same_page c -> reads eq c.
Proof.
  intros Hc env env' m m' H. apply Hc. unfold same_page. now rewrite H.
Qed.

Lemma analyzeContent_reads : reads same_page analyzeContent.
Proof.
  pose proof reads_loaded.
  unfold analyzeContent, analyzeHeadingStructure, assessMessageClarity,
    orElse, textIncludes.
  reads_auto.
Qed.

Lemma analyzeSEO_reads : reads eq analyzeSEO.
Proof.
  pose proof (reads_same_page_eq _ reads_loaded).
  pose proof reads_getThis.
  unfold analyzeSEO, hasAny. reads_auto.
Qed.

Lemma analyzePerformance_reads : reads same_page analyzePerformance.
Proof.
  pose proof reads_loaded.
  unfold analyzePerformance, someAttrIncludes, hasAny. reads_auto.
Qed.

Lemma analyzeDesign_reads : reads same_page analyzeDesign.
Proof.
  pose proof reads_loaded.
  unfold analyzeDesign, assessVisualHierarchy, assessWhitespace. reads_auto.
Qed.

Lemma analyzePsychology_reads : reads same_page analyzePsychology.
Proof.
  pose proof reads_loaded.
  unfold analyzePsychology, detectTrustSignals, assessCTAClarity, orElse,
    hasAny.
  reads_auto.
Qed.

Lemma analyzeAccessibility_reads : reads same_page analyzeAccessibility.
Proof.
  pose proof reads_loaded.
  unfold analyzeAccessibility, hasAny. reads_auto.
Qed.

End Readers.

(** ** What a call of [analyze] does *)

Section Runs.

Context {cheerio : Cheerio.API}.

Lemma settle_reads {A : Type} (c : M A) env m :
  reads eq c -> settle c env m = (Normal (outcome c (this m)), m).
Proof.
  intro Hc. unfold settle, outcome.
  now rewrite (Hc env quiet m {| this := this m; requests := [] |} eq_refl).
Qed.

Lemma analyze_run env m u :
  analyze u env m = (completionOf env u, machineAfter env u m).
Proof.
  unfold analyze, completionOf, machineAfter, try_catch, fetchWebsite, get,
    getThis, setThis, clock, await, throw.
  cbn [bind ret Monad_M this requests html dollar url].
  destruct (axios_get env u) as [data | e]; [| reflexivity].
  fold (afterFetch u data).
  set (m1 := {| this := afterFetch u data; requests := u :: requests m |}).
  rewrite (settle_reads analyzeContent env m1
             (reads_same_page_eq _ analyzeContent_reads)).
  rewrite (settle_reads analyzeSEO env m1 analyzeSEO_reads).
  rewrite (settle_reads analyzePerformance env m1
             (reads_same_page_eq _ analyzePerformance_reads)).
  rewrite (settle_reads analyzeDesign env m1
             (reads_same_page_eq _ analyzeDesign_reads)).
  rewrite (settle_reads analyzePsychology env m1
             (reads_same_page_eq _ analyzePsychology_reads)).
  rewrite (settle_reads analyzeAccessibility env m1
             (reads_same_page_eq _ analyzeAccessibility_reads)).
  unfold gather, Promise_all. cbn [this m1].
  destruct (outcome analyzeContent _); [| reflexivity].
  destruct (outcome analyzeSEO _); [| reflexivity].
  destruct (outcome analyzePerformance _); [| reflexivity].
  destruct (outcome analyzeDesign _); [| reflexivity].
  destruct (outcome analyzePsychology _); [| reflexivity].
  destruct (outcome analyzeAccessibility _); reflexivity.
Qed.

End Runs.

(** ** What the analysis methods return *)

Section Ensures.

Context {cheerio : Cheerio.API}.

Lemma ensures_ret {A : Type} (a : A) (P : A -> Prop) :
  P a -> ensures (ret a) P.
Proof. intros H env m b m' Hrun. injection Hrun as <- _. exact H. Qed.

Lemma ensures_bind {A B : Type} (c : M A) (k : A -> M B) (P : B -> Prop) :
  (forall a, ensures (k a) P) -> ensures (a <- c ;; k a) P.
Proof.
  intros Hk env m b m' Hrun. simpl in Hrun.
  destruct (c env m) as [[a | e] m1]; [| discriminate].
  exact (Hk a env m1 b m' Hrun).
Qed.

Lemma outcome_ensures {A : Type} (c : M A) (P : A -> Prop) a x :
  ensures c P -> outcome c a = Normal x -> P x.
Proof.
  intros Hc Hx. unfold outcome in Hx.
  destruct (c quiet _) as [r m'] eqn:Hrun. simpl in Hx. subst r.
  exact (Hc _ _ _ _ Hrun).
Qed.

End Ensures.

(** Steps to the value a method returns at its end. *)
Ltac to_return :=
  cbv zeta;
  repeat (apply ensures_bind; intro; cbv beta zeta);
  apply ensures_ret.

Section Returns.

Context {cheerio : Cheerio.API}.

Lemma analyzeContent_returns :
  ensures analyzeContent
    (fun r =>
       (exists params,
          ContentAnalysis.score r = calculateContentScore params)
       /\ List.length (ContentAnalysis.spellingIssues r) <= 5).
Proof.
  unfold analyzeContent. to_return.
  cbn [ContentAnalysis.score ContentAnalysis.spellingIssues].
  split; [eauto |]. unfold slice0. rewrite length_firstn. lia.
Qed.

Lemma analyzeSEO_returns :
  ensures analyzeSEO
    (fun r => exists params, SEOAnalysis.score r = calculateSEOScore params).
Proof. unfold analyzeSEO. to_return. simpl. eauto. Qed.

Lemma analyzePerformance_returns :
  ensures analyzePerformance
    (fun r =>
       exists params,
         PerformanceAnalysis.score r = calculatePerformanceScore params).
Proof. unfold analyzePerformance. to_return. simpl. eauto. Qed.

Lemma analyzeDesign_returns :
  ensures analyzeDesign
    (fun r =>
       exists params, DesignAnalysis.score r = calculateDesignScore params).
Proof. unfold analyzeDesign. to_return. simpl. eauto. Qed.

Lemma analyzePsychology_returns :
  ensures analyzePsychology
    (fun r =>
       exists params,
         PsychologyAnalysis.score r = calculatePsychologyScore params).
Proof. unfold analyzePsychology. to_return. simpl. eauto. Qed.

Lemma percentage_nonneg a b : (0 <= num a / num b * 100)%Q.
Proof.
  apply Qmult_le_0_compat; [| discriminate].
  unfold Qdiv. apply Qmult_le_0_compat.
  - unfold num. change 0%Q with (inject_Z 0). rewrite <- Zle_Qle. lia.
  - apply Qinv_le_0_compat. unfold num. change 0%Q with (inject_Z 0).
    rewrite <- Zle_Qle. lia.
Qed.

Lemma analyzeAccessibility_returns :
  ensures analyzeAccessibility
    (fun r =>
       exists params,
         AccessibilityAnalysis.score r = calculateAccessibilityScore params
         /\ (0 <= AccessibilityParams.ariaScore params)%Q
         /\ (0 <= AccessibilityParams.altScore params)%Q).
Proof.
  unfold analyzeAccessibility. to_return. simpl.
  eexists. split; [reflexivity |]. simpl. split.
  - destruct (0 <? _); [apply percentage_nonneg | discriminate].
  - destruct (0 <? _); [apply percentage_nonneg | discriminate].
Qed.

End Returns.

(** ** Ranges of the scores *)

Lemma content_score_range params :
  (70 <= calculateContentScore params <= 100)%Z.
Proof.
  rewrite content_score_formula. unfold gate.
  destruct (300 <=? _), (60 <=? _)%Z, (_ =? 0), (ContentParams.hasClearValue _);
    lia.
Qed.

Lemma seo_score_range params : (50 <= calculateSEOScore params <= 100)%Z.
Proof.
  rewrite seo_score_formula. unfold gate.
  destruct (_ && _), (120 <=? _), (SEOParams.properStructure _),
    (SEOParams.schemaMarkup _), (SEOParams.mobileOptimized _); lia.
Qed.

Lemma performance_score_range params :
  (70 <= calculatePerformanceScore params <= 100)%Z.
Proof.
  rewrite performance_score_formula. unfold gate.
  destruct (10 <? _), (PerformanceParams.hasMinifiedCSS _),
    (PerformanceParams.hasMinifiedJS _), (PerformanceParams.hasLazyLoading _);
    lia.
Qed.

Lemma design_score_range params :
  (60 <= calculateDesignScore params <= 100)%Z.
Proof.
  rewrite design_score_formula. unfold gate.
  destruct (70 <=? DesignParams.visualHierarchy _)%Z,
    (70 <=? DesignParams.whitespace _)%Z, (DesignParams.readableSize _),
    (_ && _); lia.
Qed.

Lemma psychology_score_range params :
  (50 <= calculatePsychologyScore params <= 100)%Z.
Proof.
  rewrite psychology_score_formula. unfold gate.
  destruct (3 <=? _), (1 <=? _), (PsychologyParams.ctaAboveFold _),
    (PsychologyParams.hasSocialProof _); lia.
Qed.

Lemma round_nonneg q : (0 <= q)%Q -> (0 <= JS.round q)%Z.
Proof.
  intro H. unfold JS.round.
  change 0%Z with (Qfloor 0). apply Qfloor_resp_le.
  apply (Qle_trans _ q); [exact H |].
  rewrite <- (Qplus_0_r q) at 1. apply Qplus_le_r. discriminate.
Qed.

Lemma round_le q n : (q <= inject_Z n)%Q -> (JS.round q <= n)%Z.
Proof.
  intro H. unfold JS.round.
  assert (Hlt : (inject_Z (Qfloor (q + (1 # 2))) < inject_Z (n + 1))%Q).
  { apply (Qle_lt_trans _ (q + (1 # 2))); [apply Qfloor_le |].
    rewrite inject_Z_plus.
    apply (Qle_lt_trans _ (inject_Z n + (1 # 2))).
    - apply Qplus_le_l. exact H.
    - apply Qplus_lt_r. reflexivity. }
  rewrite <- Zlt_Qlt in Hlt. lia.
Qed.

Lemma accessibility_score_range params :
  (0 <= AccessibilityParams.ariaScore params)%Q ->
  (0 <= AccessibilityParams.altScore params)%Q ->
  (0 <= calculateAccessibilityScore params <= 100)%Z.
Proof.
  intros Haria Halt. unfold calculateAccessibilityScore. split; [| lia].
  apply Z.min_glb; [lia |]. apply round_nonneg.
  assert (Hmean :
    (0 <= (AccessibilityParams.ariaScore params
           + AccessibilityParams.altScore params) / 2)%Q).
  { apply Qle_shift_div_l; [reflexivity |].
    rewrite Qmult_0_l.
    rewrite <- (Qplus_0_r 0). now apply Qplus_le_compat. }
  destruct (AccessibilityParams.hasSemanticHTML params),
    (AccessibilityParams.hasLangAttr params);
    repeat (rewrite <- (Qplus_0_r 0);
            apply Qplus_le_compat; [| discriminate]);
    exact Hmean.
Qed.

Lemma overall_score_range analyses :
  Forall (fun s => 0 <= s <= 100)%Z (moduleScores analyses) ->
  (0 <= calculateOverallScore analyses <= 100)%Z.
Proof.
  unfold moduleScores. intro H.
  repeat match goal with
         | H : Forall _ (_ :: _) |- _ =>
             let H1 := fresh "H" in
             apply Forall_cons_iff in H as [H1 H]
         end.
  unfold calculateOverallScore. cbv zeta.
  repeat match goal with
         | H : (_ <= ?s <= _)%Z |- _ =>
             let L := fresh "L" in
             let U := fresh "U" in
             destruct H as [L U];
             rewrite Zle_Qle in L; rewrite Zle_Qle in U;
             change (inject_Z 0) with 0%Q in L;
             change (inject_Z 100) with 100%Q in U;
             generalize dependent (inject_Z s); intros
         end.
  split;
    [apply round_nonneg | apply round_le; change (inject_Z 100) with 100%Q];
    lra.
Qed.

(** ** The report of a successful call *)

Section Reports.

Context {cheerio : Cheerio.API}.

Lemma analyze_returns env m u r :
  fst (analyze u env m) = Normal r ->
  exists data analyses,
    axios_get env u = Normal data
    /\ gather (afterFetch u data) = Normal analyses
    /\ r = report u (now env) analyses.
Proof.
  rewrite analyze_run. unfold completionOf. simpl.
  destruct (axios_get env u) as [data | e]; [| discriminate].
  destruct (gather (afterFetch u data)) as [analyses | e] eqn:Hg;
    [| discriminate].
  intro H. injection H as <-. exists data, analyses. auto.
Qed.

Lemma gather_returns a analyses :
  gather a = Normal analyses ->
  outcome analyzeContent a = Normal (Analyses.contentAnalysis analyses)
  /\ outcome analyzeSEO a = Normal (Analyses.seoAnalysis analyses)
  /\ outcome analyzePerformance a
     = Normal (Analyses.performanceAnalysis analyses)
  /\ outcome analyzeDesign a = Normal (Analyses.designAnalysis analyses)
  /\ outcome analyzePsychology a
     = Normal (Analyses.psychologyAnalysis analyses)
  /\ outcome analyzeAccessibility a
     = Normal (Analyses.accessibilityAnalysis analyses).
Proof.
  unfold gather. simpl.
  destruct (outcome analyzeContent a); [| discriminate].
  destruct (outcome analyzeSEO a); [| discriminate].
  destruct (outcome analyzePerformance a); [| discriminate].
  destruct (outcome analyzeDesign a); [| discriminate].
  destruct (outcome analyzePsychology a); [| discriminate].
  destruct (outcome analyzeAccessibility a); [| discriminate].
  intro H. injection H as <-. simpl. auto 10.
Qed.

Lemma gather_scores_range a analyses :
  gather a = Normal analyses ->
  Forall (fun s => 0 <= s <= 100)%Z (moduleScores analyses).
Proof.
  intro H. apply gather_returns in H as (Hc & Hs & Hp & Hd & Hy & Ha).
  apply (outcome_ensures _ _ _ _ analyzeContent_returns) in Hc
    as [[pc Hc] _].
  apply (outcome_ensures _ _ _ _ analyzeSEO_returns) in Hs as [ps Hs].
  apply (outcome_ensures _ _ _ _ analyzePerformance_returns) in Hp
    as [pp Hp].
  apply (outcome_ensures _ _ _ _ analyzeDesign_returns) in Hd as [pd Hd].
  apply (outcome_ensures _ _ _ _ analyzePsychology_returns) in Hy
    as [py Hy].
  apply (outcome_ensures _ _ _ _ analyzeAccessibility_returns) in Ha
    as (pa & Ha & Haria & Halt).
  pose proof (content_score_range pc).
  pose proof (seo_score_range ps).
  pose proof (performance_score_range pp).
  pose proof (design_score_range pd).
  pose proof (psychology_score_range py).
  pose proof (accessibility_score_range pa Haria Halt).
  unfold moduleScores. rewrite Hc, Hs, Hp, Hd, Hy, Ha.
  repeat constructor; lia.
Qed.

(** C1: the overall score of a report is the rounded weighted sum of its
    six module scores, with weights 0.25, 0.20, 0.15, 0.15, 0.15, 0.10. *)
Theorem overallScore_weighted env m u r :
  fst (analyze u env m) = Normal r ->
  AnalysisResult.overallScore r =
  JS.round
    (inject_Z (ContentAnalysis.score (AnalysisResult.contentAnalysis r)) * 0.25
     + inject_Z (SEOAnalysis.score (AnalysisResult.seoAnalysis r)) * 0.20
     + inject_Z
         (PerformanceAnalysis.score (AnalysisResult.performanceAnalysis r))
       * 0.15
     + inject_Z (DesignAnalysis.score (AnalysisResult.designAnalysis r))
       * 0.15
     + inject_Z
         (PsychologyAnalysis.score (AnalysisResult.psychologyAnalysis r))
       * 0.15
     + inject_Z
         (AccessibilityAnalysis.score (AnalysisResult.accessibilityAnalysis r))
       * 0.10)%Q.
Proof.
  intro H. apply analyze_returns in H as (data & analyses & _ & _ & ->).
  reflexivity.
Qed.

(** C9: the six module scores and the overall score of a report lie
    between 0 and 100. *)
Theorem scores_in_range env m u r :
  fst (analyze u env m) = Normal r ->
  Forall (fun s => 0 <= s <= 100)%Z (scores r).
Proof.
  intro H. apply analyze_returns in H as (data & analyses & _ & Hg & ->).
  apply gather_scores_range in Hg.
  unfold scores. apply Forall_app. split.
  - destruct analyses. exact Hg.
  - constructor; [| constructor].
    apply overall_score_range. exact Hg.
Qed.

End Reports.

(** ** Recommendations *)

(** With at most five spelling issues listed, only the strategic
    improvements are premium. *)
Lemma recommendations_premium analyses :
  List.length
    (ContentAnalysis.spellingIssues (Analyses.contentAnalysis analyses)) <= 5 ->
  let recommendations := generateRecommendations analyses in
  Forall (fun i => Issue.premium i = false)
    (Recommendations.criticalIssues recommendations)
  /\ Forall (fun q => Recommendation.premium q = false)
       (Recommendations.quickWins recommendations)
  /\ Forall (fun q => Recommendation.premium q = true)
       (Recommendations.strategicImprovements recommendations).
Proof.
  intro Hlen. apply Nat.ltb_ge in Hlen.
  unfold generateRecommendations. cbv zeta. rewrite Hlen.
  cbn [Recommendations.criticalIssues Recommendations.quickWins
       Recommendations.strategicImprovements].
  repeat split.
  - destruct (negb (MetaTag.present (SEOAnalysis.title _))),
      (negb (MetaTag.present (SEOAnalysis.description _)));
      simpl; repeat constructor.
  - destruct (0 <? _), (negb (PerformanceAnalysis.lazyLoading _));
      simpl; repeat constructor.
  - destruct (PsychologyAnalysis.score _ <? 70)%Z,
      (DesignAnalysis.score _ <? 70)%Z; simpl; repeat constructor.
Qed.

Section Insights.

Context {cheerio : Cheerio.API}.

(** C10: in a report, no critical issue and no quick win is premium, so
    the free insights are all the critical issues and quick wins, and the
    premium insights are the strategic improvements. *)
Theorem free_insights_are_all_free env m u r :
  fst (analyze u env m) = Normal r ->
  Forall (fun i => Issue.premium i = false) (AnalysisResult.criticalIssues r)
  /\ Forall (fun q => Recommendation.premium q = false)
       (AnalysisResult.quickWins r)
  /\ AnalysisResult.freeInsightsCount r
     = List.length (AnalysisResult.criticalIssues r)
       + List.length (AnalysisResult.quickWins r)
  /\ AnalysisResult.premiumInsightsAvailable r
     = List.length (AnalysisResult.strategicImprovements r).
Proof.
  intro H. apply analyze_returns in H as (data & analyses & _ & Hg & ->).
  apply gather_returns in Hg as (Hc & _).
  apply (outcome_ensures _ _ _ _ analyzeContent_returns) in Hc as [_ Hlen].
  destruct (recommendations_premium analyses Hlen) as (Hcrit & Hquick & Hstrat).
  unfold report. cbv zeta.
  cbn [AnalysisResult.criticalIssues AnalysisResult.quickWins
       AnalysisResult.strategicImprovements AnalysisResult.freeInsightsCount
       AnalysisResult.premiumInsightsAvailable].
  repeat split; try assumption.
  - unfold countFreeInsights. f_equal; f_equal; apply filter_all.
    + eapply Forall_impl; [| exact Hcrit]. simpl. now intros i ->.
    + eapply Forall_impl; [| exact Hquick]. simpl. now intros q ->.
  - unfold countPremiumInsights.
    rewrite (filter_none _ _ Hcrit), (filter_none _ _ Hquick),
      (filter_all _ _ Hstrat).
    reflexivity.
Qed.

End Insights.

(** ** Failures *)

Section Failures.

Context {cheerio : Cheerio.API}.

Lemma outcome_mapM {A B : Type} (f : A -> B) (c : M A) a :
  outcome (mapM f c) a = mapCompletion f (outcome c a).
Proof.
  unfold outcome, mapM. simpl.
  now destruct (c quiet _) as [[x | e] m'].
Qed.

(** A module that throws makes the gathering of the six results throw. *)
Lemma gather_fails a c e :
  In c modules -> outcome c a = Throw e -> exists cause, gather a = Throw cause.
Proof.
  unfold modules, gather. simpl.
  intros [<- | [<- | [<- | [<- | [<- | [<- | []]]]]]];
    rewrite outcome_mapM; intro H;
    destruct (outcome analyzeContent a); try discriminate; eauto;
    destruct (outcome analyzeSEO a); try discriminate; eauto;
    destruct (outcome analyzePerformance a); try discriminate; eauto;
    destruct (outcome analyzeDesign a); try discriminate; eauto;
    destruct (outcome analyzePsychology a); try discriminate; eauto;
    destruct (outcome analyzeAccessibility a); try discriminate; eauto.
Qed.

(** C5: a call of [analyze] sends exactly one request and never retries;
    when the request fails, or when one of the analysis methods throws, the
    call throws one error whose message is "Analysis failed: " followed by
    the underlying message, or by "Unknown error"; and every failure of
    [analyze] is of that form, so that no report is returned with it. *)
Theorem analyze_single_failure_path env m u :
  requests (snd (analyze u env m)) = u :: requests m
  /\ (forall cause,
        axios_get env u = Throw cause ->
        fst (analyze u env m)
        = Throw (Error ("Analysis failed: " ++ underlying cause)))
  /\ (forall data c e,
        axios_get env u = Normal data ->
        In c modules ->
        outcome c (afterFetch u data) = Throw e ->
        exists cause,
          gather (afterFetch u data) = Throw cause
          /\ fst (analyze u env m)
             = Throw (Error ("Analysis failed: " ++ underlying cause)))
  /\ (forall failure,
        fst (analyze u env m) = Throw failure ->
        exists cause,
          failure = Error ("Analysis failed: " ++ underlying cause)).
Proof.
  rewrite analyze_run. unfold completionOf, machineAfter. simpl.
  repeat split.
  - intros cause ->. reflexivity.
  - intros data c e -> Hc He.
    destruct (gather_fails _ c e Hc He) as [cause Hg].
    exists cause. rewrite Hg. split; reflexivity.
  - intros failure.
    destruct (axios_get env u) as [data | cause].
    + destruct (gather (afterFetch u data)) as [analyses | cause];
        [discriminate |].
      intro H. injection H as <-. now exists cause.
    + intro H. injection H as <-. now exists cause.
Qed.

End Failures.

(** ** Order of the analysis methods *)

Section Orders.

Context {cheerio : Cheerio.API}.

Lemma reads_mapM {A B : Type} (f : A -> B) (c : M A) :
  reads eq c -> reads eq (mapM f c).
Proof.
  intro Hc. unfold mapM. apply reads_bind; [reflexivity | exact Hc |].
  intro a. apply reads_ret.
Qed.

Lemma modules_read : Forall (reads eq) modules.
Proof.
  unfold modules.
  repeat constructor; apply reads_mapM;
    first [ exact analyzeSEO_reads | apply reads_same_page_eq ].
  - exact analyzeContent_reads.
  - exact analyzePerformance_reads.
  - exact analyzeDesign_reads.
  - exact analyzePsychology_reads.
  - exact analyzeAccessibility_reads.
Qed.

Lemma reads_frame {A : Type} (c : M A) env m :
  reads eq c -> c env m = (fst (c env m), m).
Proof. intro Hc. exact (Hc env env m m eq_refl). Qed.

Lemma callAll_reads calls env m :
  Forall (reads eq) calls ->
  callAll calls env m = (Normal (map (fun c => fst (c env m)) calls), m).
Proof.
  induction 1 as [| c calls Hc _ IH]; [reflexivity |].
  simpl. unfold settle. rewrite (reads_frame c env m Hc), IH. reflexivity.
Qed.

(** C6: each of the six analysis methods leaves the analyzer, and the whole
    machine, as it found it; so called one after the other in any order,
    each returns what it returns when called alone, and the machine is
    unchanged at the end. *)
Theorem analysis_methods_read_only order env m :
  Permutation order modules ->
  Forall (fun c => this (snd (c env m)) = this m /\ snd (c env m) = m) order
  /\ callAll order env m
     = (Normal (map (fun c => fst (c env m)) order), m).
Proof.
  intro Hperm.
  assert (Hreads : Forall (reads eq) order)
    by (apply (Permutation_Forall (Permutation_sym Hperm)), modules_read).
  split; [| now apply callAll_reads].
  eapply Forall_impl; [| exact Hreads].
  intros c Hc. simpl. rewrite (reads_frame c env m Hc). simpl. auto.
Qed.

(** C7: two runs of [analyze] on the same url that fetch the same page
    give reports that differ at most in the time stamp, or fail in the same
    way, whatever the analyzers held before and whatever the clocks say;
    and they leave the two analyzers in the same state. *)
Theorem analyze_deterministic env1 env2 m1 m2 u data :
  axios_get env1 u = Normal data ->
  axios_get env2 u = Normal data ->
  mapCompletion (withTimestamp EmptyString) (fst (analyze u env1 m1))
  = mapCompletion (withTimestamp EmptyString) (fst (analyze u env2 m2))
  /\ this (snd (analyze u env1 m1)) = this (snd (analyze u env2 m2)).
Proof.
  intros H1 H2. rewrite !analyze_run.
  unfold completionOf, machineAfter. simpl. rewrite H1, H2.
  split; [| reflexivity].
  destruct (gather (afterFetch u data)) as [analyses | e]; [| reflexivity].
  unfold mapCompletion, withTimestamp, report. cbv zeta.
  cbn [AnalysisResult.url AnalysisResult.overallScore
       AnalysisResult.contentAnalysis AnalysisResult.seoAnalysis
       AnalysisResult.performanceAnalysis AnalysisResult.designAnalysis
       AnalysisResult.psychologyAnalysis AnalysisResult.accessibilityAnalysis
       AnalysisResult.criticalIssues AnalysisResult.quickWins
       AnalysisResult.strategicImprovements AnalysisResult.freeInsightsCount
       AnalysisResult.premiumInsightsAvailable].
  reflexivity.
Qed.

End Orders.

(** ** The seven scores and the page *)

(** Case analysis on every step of the run recorded in [H]. *)
Ltac invert_run H :=
  repeat match type of H with
         | context [match ?x with _ => _ end] =>
             lazymatch type of x with
             | completion _ => destruct x
             | bool => destruct x
             | option _ => destruct x
             end;
             cbn [bind ret Monad_M fst snd] in *; try discriminate
         end.

Section Pages.

Context {cheerio : Cheerio.API}.

Lemma outcome_same_page {A : Type} (c : M A) a1 a2 :
  reads same_page c -> same_page a1 a2 -> outcome c a1 = outcome c a2.
Proof.
  intros Hc Hpage. unfold outcome.
  rewrite (Hc quiet quiet {| this := a1; requests := [] |}
             {| this := a2; requests := [] |} Hpage).
  reflexivity.
Qed.





End Pages.

(** ** Runs on the sample pages *)

(** The seven scores of the sample page and of its six variants: each
    variant changes one module score, and the overall score with it. *)
Example sample_scores :
  map Samples.scoresFor
    [ Samples.page; Samples.misspelt; Samples.withViewport;
      Samples.withLazyImage; Samples.withLargeHeading; Samples.withCta;
      Samples.withLang ]
  = [ Normal [85; 50; 80; 70; 50; 50; 66]%Z;
      Normal [80; 50; 80; 70; 50; 50; 65]%Z;
      Normal [85; 55; 80; 70; 50; 50; 67]%Z;
      Normal [85; 50; 90; 70; 50; 50; 68]%Z;
      Normal [85; 50; 80; 80; 50; 50; 68]%Z;
      Normal [85; 50; 80; 70; 70; 50; 69]%Z;
      Normal [85; 50; 80; 70; 50; 55; 67]%Z ].
Proof. vm_compute. reflexivity. Qed.

(** The overall score of the sample page, from its six module scores. *)
Lemma overallScore_weighted_witness :
  exists r,
    fst (analyze Samples.site (Samples.serving Samples.page Samples.morning)
           Samples.fresh) = Normal r
    /\ AnalysisResult.overallScore r
       = JS.round (85 * 0.25 + 50 * 0.20 + 80 * 0.15 + 70 * 0.15 + 50 * 0.15
                   + 50 * 0.10)%Q
    /\ AnalysisResult.overallScore r = 66%Z.
Proof.
  eexists. split; [vm_compute; reflexivity |]. split; [| reflexivity].
  apply (overallScore_weighted
           (Samples.serving Samples.page Samples.morning) Samples.fresh
           Samples.site).
  vm_compute. reflexivity.
Defined.

(** A request that fails: one request was sent and one error is thrown. *)
Lemma analyze_single_failure_path_witness :
  fst (analyze Samples.site Samples.offline Samples.fresh)
  = Throw (Error "Analysis failed: getaddrinfo ENOTFOUND acme.example")
  /\ requests (snd (analyze Samples.site Samples.offline Samples.fresh))
     = [Samples.site].
Proof.
  split.
  - apply (proj1 (proj2 (analyze_single_failure_path Samples.offline
                           Samples.fresh Samples.site))
             (Error "getaddrinfo ENOTFOUND acme.example")).
    reflexivity.
  - apply (proj1 (analyze_single_failure_path Samples.offline Samples.fresh
                    Samples.site)).
Defined.

(** A failure that is not an [Error] object, and a failure of an analysis
    method after a successful request. *)
Example analyze_other_failures :
  fst (analyze Samples.site Samples.broken Samples.fresh)
  = Throw (Error "Analysis failed: Unknown error")
  /\ exists selector,
       fst (analyze Samples.oddSite
              (Samples.serving Samples.page Samples.morning) Samples.fresh)
       = Throw (Error ("Analysis failed: Unmatched selector: " ++ selector)).
Proof. split; [reflexivity |]. eexists. vm_compute. reflexivity. Qed.

(** The six methods in the reverse order, on an analyzer that holds the
    sample page. *)
Lemma analysis_methods_read_only_witness :
  let m := snd (analyze Samples.site
                  (Samples.serving Samples.page Samples.morning)
                  Samples.fresh) in
  callAll (rev modules) Samples.offline m
  = (Normal (map (fun c => fst (c Samples.offline m)) (rev modules)), m).
Proof.
  intro m.
  apply (proj2 (analysis_methods_read_only (rev modules) Samples.offline m
                  (Permutation_sym (Permutation_rev modules)))).
Defined.

(** The sample page analyzed in the morning by a new analyzer and in the
    evening by one that has analyzed another page. *)
Lemma analyze_deterministic_witness :
  mapCompletion (withTimestamp EmptyString)
    (fst (analyze Samples.site (Samples.serving Samples.page Samples.morning)
            Samples.fresh))
  = mapCompletion (withTimestamp EmptyString)
      (fst (analyze Samples.site
              (Samples.serving Samples.page Samples.evening) Samples.used)).
Proof.
  apply (proj1 (analyze_deterministic
                  (Samples.serving Samples.page Samples.morning)
                  (Samples.serving Samples.page Samples.evening)
                  Samples.fresh Samples.used Samples.site Samples.page
                  eq_refl eq_refl)).
Defined.



(** The seven scores of the sample page. *)
Lemma scores_in_range_witness :
  exists r,
    fst (analyze Samples.site (Samples.serving Samples.page Samples.morning)
           Samples.fresh) = Normal r
    /\ scores r = [85; 50; 80; 70; 50; 50; 66]%Z
    /\ Forall (fun s => 0 <= s <= 100)%Z (scores r).
Proof.
  eexists. split; [vm_compute; reflexivity |]. split; [reflexivity |].
  apply (scores_in_range (Samples.serving Samples.page Samples.morning)
           Samples.fresh Samples.site).
  vm_compute. reflexivity.
Defined.

(** The report of the misspelt page lists one critical issue and two quick
    wins, all free. *)
Lemma free_insights_are_all_free_witness :
  exists r,
    fst (analyze Samples.site
           (Samples.serving Samples.misspelt Samples.morning) Samples.fresh)
    = Normal r
    /\ map Issue.title (AnalysisResult.criticalIssues r)
       = ["Missing Meta Description"]
    /\ map Recommendation.title (AnalysisResult.quickWins r)
       = ["Fix Spelling Errors"; "Implement Lazy Loading"]
    /\ AnalysisResult.freeInsightsCount r = 3
    /\ AnalysisResult.freeInsightsCount r
       = List.length (AnalysisResult.criticalIssues r)
         + List.length (AnalysisResult.quickWins r).
Proof.
  eexists. split; [vm_compute; reflexivity |].
  split; [reflexivity |]. split; [reflexivity |]. split; [reflexivity |].
  apply (proj1 (proj2 (proj2
           (free_insights_are_all_free
              (Samples.serving Samples.misspelt Samples.morning)
              Samples.fresh Samples.site _
              ltac:(vm_compute; reflexivity))))).
Defined.

(** ** The clamps of the scoring methods *)

(** X3: in the content, SEO, performance, design and psychology scores the
    calls of [Math.min] and [Math.max] never change the value: each score is
    its base plus the weights of the conditions that hold, a multiple of 5
    between the base (less 10 for the performance score) and 100. *)
Theorem five_scores_unclamped :
  (forall p,
     calculateContentScore p
     = (70 + gate (300 <=? ContentParams.wordCount p)%nat 10
        + gate (60 <=? ContentParams.readabilityScore p)%Z 10
        + gate (ContentParams.spellingIssues p =? 0)%nat 5
        + gate (ContentParams.hasClearValue p) 5)%Z
     /\ (70 <= calculateContentScore p <= 100)%Z
     /\ (calculateContentScore p mod 5 = 0)%Z)
  /\ (forall p,
        calculateSEOScore p
        = (50 + gate ((30 <=? SEOParams.title p)
                      && (SEOParams.title p <=? 60))%nat 15
           + gate (120 <=? SEOParams.description p)%nat 15
           + gate (SEOParams.properStructure p) 10
           + gate (SEOParams.schemaMarkup p) 5
           + gate (SEOParams.mobileOptimized p) 5)%Z
        /\ (50 <= calculateSEOScore p <= 100)%Z
        /\ (calculateSEOScore p mod 5 = 0)%Z)
  /\ (forall p,
        calculatePerformanceScore p
        = (80 + gate (10 <? PerformanceParams.scripts p)%nat (-10)
           + gate (PerformanceParams.hasMinifiedCSS p) 5
           + gate (PerformanceParams.hasMinifiedJS p) 5
           + gate (PerformanceParams.hasLazyLoading p) 10)%Z
        /\ (70 <= calculatePerformanceScore p <= 100)%Z
        /\ (calculatePerformanceScore p mod 5 = 0)%Z)
  /\ (forall p,
        calculateDesignScore p
        = (60 + gate (70 <=? DesignParams.visualHierarchy p)%Z 15
           + gate (70 <=? DesignParams.whitespace p)%Z 10
           + gate (DesignParams.readableSize p) 10
           + gate ((3 <=? DesignParams.fontVariety p)
                   && (DesignParams.fontVariety p <=? 6))%nat 5)%Z
        /\ (60 <= calculateDesignScore p <= 100)%Z
        /\ (calculateDesignScore p mod 5 = 0)%Z)
  /\ (forall p,
        calculatePsychologyScore p
        = (50 + gate (3 <=? PsychologyParams.trustSignals p)%nat 20
           + gate (1 <=? PsychologyParams.ctaCount p)%nat 10
           + gate (PsychologyParams.ctaAboveFold p) 10
           + gate (PsychologyParams.hasSocialProof p) 10)%Z
        /\ (50 <= calculatePsychologyScore p <= 100)%Z
        /\ (calculatePsychologyScore p mod 5 = 0)%Z).
Proof.
  repeat apply conj; intro p.
  - rewrite content_score_formula. unfold gate.
    destruct (300 <=? _), (60 <=? _)%Z, (_ =? 0),
      (ContentParams.hasClearValue _); repeat split; lia.
  - rewrite seo_score_formula. unfold gate.
    destruct (_ && _), (120 <=? _), (SEOParams.properStructure _),
      (SEOParams.schemaMarkup _), (SEOParams.mobileOptimized _);
      repeat split; lia.
  - rewrite performance_score_formula. unfold gate.
    destruct (10 <? _), (PerformanceParams.hasMinifiedCSS _),
      (PerformanceParams.hasMinifiedJS _),
      (PerformanceParams.hasLazyLoading _); repeat split; lia.
  - rewrite design_score_formula. unfold gate.
    destruct (70 <=? DesignParams.visualHierarchy _)%Z,
      (70 <=? DesignParams.whitespace _)%Z, (DesignParams.readableSize _),
      (_ && _); repeat split; lia.
  - rewrite psychology_score_formula. unfold gate.
    destruct (3 <=? _), (1 <=? _), (PsychologyParams.ctaAboveFold _),
      (PsychologyParams.hasSocialProof _); repeat split; lia.
Qed.

(** The accessibility score is the one whose clamp is active: two full
    percentages with both conditions would give 115. *)
Example accessibility_clamp_active :
  calculateAccessibilityScore (AccessibilityParams.make 100 100 true true)
  = 100%Z
  /\ JS.round ((100 + 100) / 2 + 10 + 5)%Q = 115%Z.
Proof. split; reflexivity. Qed.

(** ** Words and segments *)

(** The segments of a split, counted with the empty ones apart. *)
Lemma split_from_empties sep s acc in_run :
  (in_run = true -> acc = EmptyString) ->
  List.length (split_from sep s acc in_run)
  = List.length
      (filter (fun w => 0 <? Str.length w) (split_from sep s acc in_run))
    + count1 (negb in_run && blank acc
              && match s with
                 | EmptyString => true
                 | String c _ => sep c
                 end)
    + count1 (endsWith sep s in_run).
Proof.
  revert acc in_run.
  induction s as [| c s IH]; intros acc in_run Hacc.
  - destruct in_run; simpl.
    + rewrite (Hacc eq_refl). reflexivity.
    + unfold blank. destruct (0 <? Str.length acc); reflexivity.
  - cbn [split_from endsWith]. destruct (sep c) eqn:Hc.
    + destruct in_run.
      * rewrite (IH EmptyString true (fun _ => eq_refl)). simpl. lia.
      * cbn [List.length filter].
        rewrite (IH EmptyString true (fun _ => eq_refl)).
        unfold blank. simpl.
        destruct (0 <? Str.length acc); simpl; lia.
    + rewrite (IH (acc ++ String c EmptyString)%js false)
        by discriminate.
      assert (Hne : blank (acc ++ String c EmptyString) = false).
      { unfold blank. destruct acc; reflexivity. }
      rewrite Hne. simpl. rewrite !andb_false_r. simpl. lia.
Qed.

(** X4: the word count of [calculateReadability] is the [wordCount] of
    [analyzeContent] plus one if the text is empty or begins with white
    space, plus one if it ends with white space; so it exceeds [wordCount]
    by at most two. *)
Theorem words_exceed_wordCount (text : string) :
  wordSegments text
  = countWords text + count1 (startsBlank text)
    + count1 (endsWith is_space text false)
  /\ countWords text <= wordSegments text <= countWords text + 2.
Proof.
  assert (H : wordSegments text
              = countWords text + count1 (startsBlank text)
                + count1 (endsWith is_space text false)).
  { unfold wordSegments, countWords, split_runs.
    rewrite (split_from_empties is_space text EmptyString false)
      by discriminate.
    reflexivity. }
  split; [exact H |]. rewrite H.
  destruct (startsBlank text), (endsWith is_space text false); simpl; lia.
Qed.

(** ** Insight counts *)

Lemma filter_split {A : Type} (f : A -> bool) (l : list A) :
  List.length (filter f l) + List.length (filter (fun x => negb (f x)) l)
  = List.length l.
Proof.
  induction l as [| x l IH]; simpl; [reflexivity |].
  destruct (f x); simpl; lia.
Qed.

(** X5: for any three lists, the free and the premium count together are
    the critical issues, the quick wins and the premium strategic
    improvements: a strategic improvement that is not premium is counted by
    neither. *)
Theorem insight_counts_add_up (criticalIssues : list Issue.t)
  (quickWins strategic : list Recommendation.t) :
  countFreeInsights criticalIssues quickWins
  + countPremiumInsights criticalIssues quickWins strategic
  = List.length criticalIssues + List.length quickWins
    + List.length (filter Recommendation.premium strategic)
  /\ countFreeInsights criticalIssues quickWins
     + countPremiumInsights criticalIssues quickWins strategic
     <= List.length criticalIssues + List.length quickWins
        + List.length strategic.
Proof.
  unfold countFreeInsights, countPremiumInsights.
  pose proof (filter_split Issue.premium criticalIssues).
  pose proof (filter_split Recommendation.premium quickWins).
  pose proof (filter_split Recommendation.premium strategic).
  lia.
Qed.

(** ** The balance of images and text *)

Lemma half_le_average a b :
  1 <= b -> Qle_bool (1 # 2) (num a / num b) = (b <=? 2 * a).
Proof.
  intro Hb. pose proof (num_pos b Hb) as Hpos.
  destruct (Nat.leb_spec b (2 * a)) as [Hle | Hgt].
  - apply Qle_bool_iff. apply Qle_shift_div_l; [exact Hpos |].
    unfold num, Qle, Qmult, inject_Z. cbn [Qnum Qden]. lia.
  - apply not_true_is_false. intro Hq. apply Qle_bool_iff in Hq.
    assert (Hlt : (num a < (1 # 2) * num b)%Q)
      by (unfold num, Qlt, Qmult, inject_Z; cbn [Qnum Qden]; lia).
    apply Qlt_shift_div_r in Hlt; [| exact Hpos].
    exact (Qlt_not_le _ _ Hlt Hq).
Qed.

(** The ratio of [calculateImageTextBalance], over whole numbers. *)
Lemma balance_ratio images textLength :
  (num images
   / (if Qle_bool (num textLength / 1000) 1 then 1
      else num textLength / 1000)
   == num (1000 * images) / num (Nat.max textLength 1000))%Q.
Proof.
  change 1000%Q with (num 1000) at 1.
  change 1%Q with (inject_Z (Z.of_nat 1)) at 1.
  rewrite (average_le textLength 1000 1) by lia.
  assert (Hmul : (num (1000 * images) == 1000 * num images)%Q).
  { unfold num. rewrite Nat2Z.inj_mul, inject_Z_mult. reflexivity. }
  rewrite Hmul.
  destruct (Nat.leb_spec textLength (1 * 1000)) as [Hle | Hgt].
  - rewrite Nat.max_r by lia. change (num 1000) with 1000%Q. field.
  - rewrite Nat.max_l by lia.
    assert (Hpos : (0 < num textLength)%Q) by (apply num_pos; lia).
    field. intro H0. rewrite H0 in Hpos. discriminate.
Qed.

(** [calculateImageTextBalance] over whole numbers, with the larger of the
    text length and 1000 for the text. *)
Lemma balance_record images textLength :
  let M := Nat.max textLength 1000 in
  calculateImageTextBalance images textLength
  = if 5 * M <? 1000 * images then
      ImageTextBalance.make 50 "Too many images relative to text content"
    else if (2000 * images <? M) && (0 <? images) then
      ImageTextBalance.make 60 "Consider adding more visuals to break up text"
    else if images =? 0 then
      ImageTextBalance.make 40 "Add images to enhance visual appeal"
    else ImageTextBalance.make 85 "Good balance between images and text".
Proof.
  intro M. unfold calculateImageTextBalance. cbv zeta.
  pose proof (balance_ratio images textLength) as Hratio. fold M in Hratio.
  assert (HM : 1 <= M) by (unfold M; lia).
  unfold Qgtb, Qltb. rewrite !Hratio.
  change 5%Q with (inject_Z (Z.of_nat 5)).
  assert (Hhalf : (0.5 == 1 # 2)%Q) by reflexivity.
  rewrite Hhalf.
  rewrite (average_le (1000 * images) M 5 HM).
  rewrite (half_le_average (1000 * images) M HM).
  rewrite <- Nat.ltb_antisym.
  replace (negb (M <=? 2 * (1000 * images)))
    with (2000 * images <? M)
    by (rewrite Nat.ltb_antisym; do 2 f_equal; lia).
  reflexivity.
Qed.

(** X6: [calculateImageTextBalance] over whole numbers, with M the larger
    of the text length and 1000: 50 when 1000 * images > 5 * M, else 60
    when there are images and 2000 * images < M, else 40 without images and
    85 otherwise.  It returns 40 exactly when there is no image, never the
    70 it starts from, and the recommendation says good balance exactly when
    the score is 85. *)
Theorem imageTextBalance_cases (images textLength : nat) :
  let r := calculateImageTextBalance images textLength in
  let M := Nat.max textLength 1000 in
  ImageTextBalance.score r
  = (if 5 * M <? 1000 * images then 50%Z
     else if (2000 * images <? M) && (0 <? images) then 60%Z
     else if images =? 0 then 40%Z else 85%Z)
  /\ (ImageTextBalance.score r = 40%Z <-> images = 0)
  /\ (ImageTextBalance.recommendation r
      = "Good balance between images and text"
      <-> ImageTextBalance.score r = 85%Z)
  /\ ImageTextBalance.score r <> 70%Z.
Proof.
  intros r M. subst r. rewrite balance_record. cbv zeta. fold M.
  destruct (Nat.ltb_spec (5 * M) (1000 * images)),
    (Nat.ltb_spec (2000 * images) M), (Nat.ltb_spec 0 images),
    (Nat.eqb_spec images 0); simpl;
    repeat split; intros; try reflexivity; try lia; congruence.
Qed.

(** ** The issue lists *)

Lemma spelling_at_most_five text : List.length (detectSpellingIssues text) <= 5.
Proof.
  unfold detectSpellingIssues. rewrite detect_fold. cbn [app].
  rewrite length_map.
  apply (Nat.le_trans _ _ _ (filter_length_le _ commonMisspellings)).
  reflexivity.
Qed.

Lemma grammar_at_most_one text : List.length (detectGrammarIssues text) <= 1.
Proof.
  unfold detectGrammarIssues. destruct (includes text _); simpl; lia.
Qed.

Lemma slice0_short {A : Type} n (l : list A) :
  List.length l <= n -> slice0 n l = l.
Proof. intro H. unfold slice0. now apply firstn_all2. Qed.

(** X7: the two issue lists are short enough for [slice(0, 5)] to keep them
    whole: at most five spelling issues, in the order of the word list, and
    at most one grammar issue, found by a search that, unlike the spelling
    search, does not lower the text. *)
Theorem issue_lists_never_cut (text : string) :
  slice0 5 (detectSpellingIssues text) = detectSpellingIssues text
  /\ slice0 5 (detectGrammarIssues text) = detectGrammarIssues text
  /\ List.length (detectSpellingIssues text) <= 5
  /\ List.length (detectGrammarIssues text) <= 1
  /\ map SpellingIssue.word (detectSpellingIssues text)
     = filter (includes (toLowerCase text)) commonMisspellings
  /\ (detectGrammarIssues text <> [] <-> occurs "your welcome" text).
Proof.
  pose proof (spelling_at_most_five text) as Hs.
  pose proof (grammar_at_most_one text) as Hg.
  repeat split; try assumption.
  - now apply slice0_short.
  - apply slice0_short. lia.
  - unfold detectSpellingIssues. rewrite detect_fold. cbn [app].
    rewrite map_map. cbn [SpellingIssue.word]. apply map_id.
  - unfold detectGrammarIssues. rewrite <- includes_occurs.
    destruct (includes text _); [reflexivity | intro H; now elim H].
  - unfold detectGrammarIssues. rewrite <- includes_occurs.
    intros ->. discriminate.
Qed.

(** ** Module results *)

(** Unfolds the run recorded in [H] down to the calls of [select]. *)
Ltac open_run H :=
  unfold outcome, loaded, hasAny, textIncludes, someAttrIncludes, orElse,
    getThis, query, await, throw in H;
  cbn [bind ret Monad_M fst snd this] in H.

Lemma Normal_inj {A : Type} (x y : A) : Normal x = Normal y -> x = y.
Proof. now intros [= ->]. Qed.

(** Case analysis on every step of the run recorded in [H], keeping the
    value of each condition tested. *)
Ltac split_run H :=
  repeat match type of H with
         | context [match ?x with _ => _ end] =>
             lazymatch type of x with
             | completion _ => destruct x
             | bool => destruct x eqn:?
             | option _ => destruct x eqn:?
             end;
             cbn [bind ret Monad_M fst snd] in *; try discriminate
         end.

(** Turns the conditions recorded into arithmetic. *)
Ltac to_arith :=
  repeat match goal with
         | H : _ && _ = true |- _ => apply andb_true_iff in H as [? ?]
         | H : _ || _ = false |- _ => apply orb_false_iff in H as [? ?]
         | H : _ && _ = false |- _ => apply andb_false_iff in H
         | H : _ || _ = true |- _ => apply orb_true_iff in H
         | H : negb _ = true |- _ => apply negb_true_iff in H
         | H : negb _ = false |- _ => apply negb_false_iff in H
         | H : (_ <? _) = true |- _ => apply Nat.ltb_lt in H
         | H : (_ <? _) = false |- _ => apply Nat.ltb_ge in H
         | H : (_ <=? _) = true |- _ => apply Nat.leb_le in H
         | H : (_ <=? _) = false |- _ => apply Nat.leb_gt in H
         | H : (_ =? _) = true |- _ => apply Nat.eqb_eq in H
         | H : (_ =? _) = false |- _ => apply Nat.eqb_neq in H
         | H : (_ <? _)%Z = true |- _ => apply Z.ltb_lt in H
         | H : (_ <? _)%Z = false |- _ => apply Z.ltb_ge in H
         | H : (_ <=? _)%Z = true |- _ => apply Z.leb_le in H
         | H : (_ <=? _)%Z = false |- _ => apply Z.leb_gt in H
         | H : _ /\ _ |- _ => destruct H
         end.

Lemma content_score_sum p :
  calculateContentScore p
  = (70 + gate (300 <=? ContentParams.wordCount p)%nat 10
     + gate (60 <=? ContentParams.readabilityScore p)%Z 10
     + gate (ContentParams.spellingIssues p =? 0)%nat 5
     + gate (ContentParams.hasClearValue p) 5)%Z.
Proof.
  rewrite content_score_formula. unfold gate.
  destruct (300 <=? _), (60 <=? _)%Z, (_ =? 0),
    (ContentParams.hasClearValue _); reflexivity.
Qed.

Lemma seo_score_sum p :
  calculateSEOScore p
  = (50 + gate ((30 <=? SEOParams.title p) && (SEOParams.title p <=? 60))%nat
            15
     + gate (120 <=? SEOParams.description p)%nat 15
     + gate (SEOParams.properStructure p) 10
     + gate (SEOParams.schemaMarkup p) 5
     + gate (SEOParams.mobileOptimized p) 5)%Z.
Proof.
  rewrite seo_score_formula. unfold gate.
  destruct (_ && _), (120 <=? _), (SEOParams.properStructure _),
    (SEOParams.schemaMarkup _), (SEOParams.mobileOptimized _); reflexivity.
Qed.

Lemma performance_score_sum p :
  calculatePerformanceScore p
  = (80 + gate (10 <? PerformanceParams.scripts p)%nat (-10)
     + gate (PerformanceParams.hasMinifiedCSS p) 5
     + gate (PerformanceParams.hasMinifiedJS p) 5
     + gate (PerformanceParams.hasLazyLoading p) 10)%Z.
Proof.
  rewrite performance_score_formula. unfold gate.
  destruct (10 <? _), (PerformanceParams.hasMinifiedCSS _),
    (PerformanceParams.hasMinifiedJS _), (PerformanceParams.hasLazyLoading _);
    reflexivity.
Qed.

Lemma design_score_sum p :
  calculateDesignScore p
  = (60 + gate (70 <=? DesignParams.visualHierarchy p)%Z 15
     + gate (70 <=? DesignParams.whitespace p)%Z 10
     + gate (DesignParams.readableSize p) 10
     + gate ((3 <=? DesignParams.fontVariety p)
             && (DesignParams.fontVariety p <=? 6))%nat 5)%Z.
Proof.
  rewrite design_score_formula. unfold gate.
  destruct (70 <=? DesignParams.visualHierarchy _)%Z,
    (70 <=? DesignParams.whitespace _)%Z, (DesignParams.readableSize _),
    (_ && _); reflexivity.
Qed.

Lemma psychology_score_sum p :
  calculatePsychologyScore p
  = (50 + gate (3 <=? PsychologyParams.trustSignals p)%nat 20
     + gate (1 <=? PsychologyParams.ctaCount p)%nat 10
     + gate (PsychologyParams.ctaAboveFold p) 10
     + gate (PsychologyParams.hasSocialProof p) 10)%Z.
Proof.
  rewrite psychology_score_formula. unfold gate.
  destruct (3 <=? _), (1 <=? _), (PsychologyParams.ctaAboveFold _),
    (PsychologyParams.hasSocialProof _); reflexivity.
Qed.

(** [Math.round] and [toFixed(2)] leave a whole number, or a number of
    hundredths, as it is. *)
Lemma round_inject_Z z : JS.round (inject_Z z) = z.
Proof.
  unfold JS.round, Qfloor, Qplus, inject_Z. cbn [Qnum Qden].
  rewrite Z.mul_1_l. change (Z.pos (1 * 2)) with 2%Z.
  symmetry. apply (Z.div_unique _ _ _ 1); lia.
Qed.

Lemma toFixed2_hundredths n : (toFixed2 (inject_Z n / 100) == inject_Z n / 100)%Q.
Proof.
  unfold toFixed2.
  assert (H : (inject_Z n / 100 * 100 == inject_Z n)%Q) by field.
  unfold JS.round. rewrite H. fold (JS.round (inject_Z n)).
  rewrite round_inject_Z. reflexivity.
Qed.

Lemma loadTime_hundredths s c i :
  (num s * 0.2 + num c * 0.15 + num i * 0.1
   == inject_Z (Z.of_nat (20 * s + 15 * c + 10 * i)) / 100)%Q.
Proof.
  unfold num. rewrite !Nat2Z.inj_add, !Nat2Z.inj_mul, !inject_Z_plus,
    !inject_Z_mult.
  change (inject_Z (Z.of_nat 20)) with 20%Q.
  change (inject_Z (Z.of_nat 15)) with 15%Q.
  change (inject_Z (Z.of_nat 10)) with 10%Q.
  field.
Qed.

(** [unique] keeps one copy of each value that was not seen before. *)
Lemma seen_In x seen : existsb (Z.eqb x) seen = true <-> In x seen.
Proof.
  rewrite existsb_exists. split.
  - intros (y & Hy & Heq). apply Z.eqb_eq in Heq. now subst.
  - intro H. exists x. split; [exact H | apply Z.eqb_refl].
Qed.

Lemma unique_In xs seen x :
  In x (unique xs seen) <-> In x xs /\ ~ In x seen.
Proof.
  revert seen. induction xs as [| y xs IH]; intro seen; simpl.
  - tauto.
  - destruct (existsb (Z.eqb y) seen) eqn:Hy.
    + apply seen_In in Hy. rewrite IH. split.
      * tauto.
      * intros [[-> | Hx] Hn]; tauto.
    + assert (Hn : ~ In y seen)
        by (intro Hin; apply seen_In in Hin; congruence).
      simpl. rewrite IH. simpl. split.
      * intros [-> | [Hx Hs]]; tauto.
      * intros [[-> | Hx] Hs]; [tauto |].
        destruct (Z.eq_dec y x) as [-> | Hne]; tauto.
Qed.

Lemma unique_NoDup xs seen : NoDup (unique xs seen).
Proof.
  revert seen. induction xs as [| y xs IH]; intro seen; simpl.
  - constructor.
  - destruct (existsb (Z.eqb y) seen); [apply IH |].
    constructor; [| apply IH].
    rewrite unique_In. simpl. tauto.
Qed.

Lemma In_firstn {A : Type} n (l : list A) x : In x (firstn n l) -> In x l.
Proof.
  intro H. rewrite <- (firstn_skipn n l). apply in_or_app. now left.
Qed.

Lemma NoDup_firstn {A : Type} n (l : list A) : NoDup l -> NoDup (firstn n l).
Proof.
  intro H. rewrite <- (firstn_skipn n l) in H.
  exact (NoDup_app_remove_r _ _ H).
Qed.

Lemma balance_scores images textLength :
  In (ImageTextBalance.score (calculateImageTextBalance images textLength))
    [50; 60; 40; 85]%Z.
Proof.
  unfold calculateImageTextBalance.
  destruct (Qgtb _ 5); [simpl; tauto |].
  destruct (Qltb _ _ && _); [simpl; tauto |].
  destruct (images =? 0); simpl; tauto.
Qed.

(** The two lists [detectTrustSignals] builds share out the names. *)
Lemma partition_names (signals : list (string * bool)) :
  Permutation
    (map fst (filter snd signals)
     ++ map fst (filter (fun e => negb (snd e)) signals))
    (map fst signals).
Proof.
  induction signals as [| [name b] signals IH]; simpl; [constructor |].
  destruct b; simpl.
  - now constructor.
  - apply Permutation_sym. apply Permutation_cons_app.
    now apply Permutation_sym.
Qed.

Lemma percentage_lt a b :
  0 < b -> (num a / num b * 100 < 100)%Q <-> a < b.
Proof.
  intro Hb. pose proof (num_pos b Hb) as Hpos.
  assert (Hone : (num a / num b * 100 < 100 <-> num a / num b < 1)%Q)
    by (split; intro; lra).
  rewrite Hone. split.
  - intro H.
    destruct (Nat.lt_ge_cases a b) as [Hlt | Hge]; [exact Hlt |].
    exfalso. apply (Qlt_not_le _ _ H).
    apply Qle_shift_div_l; [exact Hpos |].
    rewrite Qmult_1_l. unfold num. rewrite <- Zle_Qle. lia.
  - intro H. apply Qlt_shift_div_r; [exact Hpos |].
    rewrite Qmult_1_l. unfold num. rewrite <- Zlt_Qlt. lia.
Qed.

Lemma percentage_gt a b :
  0 < b -> (100 < num a / num b * 100)%Q <-> b < a.
Proof.
  intro Hb. pose proof (num_pos b Hb) as Hpos.
  assert (Hone : (100 < num a / num b * 100 <-> 1 < num a / num b)%Q)
    by (split; intro; lra).
  rewrite Hone. split.
  - intro H.
    destruct (Nat.lt_ge_cases b a) as [Hlt | Hge]; [exact Hlt |].
    exfalso. apply (Qlt_not_le _ _ H).
    apply Qle_shift_div_r; [exact Hpos |].
    rewrite Qmult_1_l. unfold num. rewrite <- Zle_Qle. lia.
  - intro H. apply Qlt_shift_div_l; [exact Hpos |].
    rewrite Qmult_1_l. unfold num. rewrite <- Zlt_Qlt. lia.
Qed.

Lemma psychology_score_cta trust ctas clarity urgency proof :
  calculatePsychologyScore
    (PsychologyParams.make trust ctas (0 <? ctas) clarity urgency proof)
  = (50 + gate (3 <=? trust)%nat 20 + gate (1 <=? ctas)%nat 20
     + gate proof 10)%Z.
Proof.
  rewrite psychology_score_sum.
  cbn [PsychologyParams.trustSignals PsychologyParams.ctaCount
       PsychologyParams.ctaAboveFold PsychologyParams.hasSocialProof].
  unfold gate.
  destruct ctas, (3 <=? trust), proof; reflexivity.
Qed.

(** Case analysis on the control flow of the run recorded in [H] only: the
    outcome of each call and the conditions that choose what runs next. *)
Ltac step_run H :=
  repeat (first
            [ match type of H with
              | context [match ?x with _ => _ end] =>
                  lazymatch type of x with
                  | completion _ => destruct x
                  | option Cheerio.CheerioAPI => destruct x
                  end
              end
            | match type of H with
              | context [if ?x then ?t else _] =>
                  let T := type of t in
                  lazymatch T with
                  | (_ * _)%type => destruct x eqn:?
                  | _ -> _ => destruct x eqn:?
                  end
              end
            | match type of H with
              | context [match ?x with _ => _ end] =>
                  lazymatch type of x with
                  | (completion _ * _)%type => destruct x as [[? | ?] ?]
                  end
              end ];
          cbn [bind ret Monad_M fst snd] in *; try discriminate).

Lemma balance_without_images images textLength :
  ImageTextBalance.score (calculateImageTextBalance images textLength) = 40%Z
  <-> images = 0.
Proof.
  rewrite balance_record. cbv zeta.
  destruct (Nat.ltb_spec (5 * Nat.max textLength 1000) (1000 * images)),
    (Nat.ltb_spec (2000 * images) (Nat.max textLength 1000)),
    (Nat.ltb_spec 0 images), (Nat.eqb_spec images 0); simpl;
    split; intros; try reflexivity; try lia; congruence.
Qed.

Lemma round_ge q n : (inject_Z n <= q + (1 # 2))%Q -> (n <= JS.round q)%Z.
Proof.
  intro H. unfold JS.round. rewrite <- (Qfloor_Z n).
  now apply Qfloor_resp_le.
Qed.

(** The titles [generateRecommendations] gives, and when. *)
Lemma advice_titles analyses :
  let advice := generateRecommendations analyses in
  let seo := Analyses.seoAnalysis analyses in
  (In "Missing Page Title"
     (map Issue.title (Recommendations.criticalIssues advice))
   <-> MetaTag.present (SEOAnalysis.title seo) = false)
  /\ (In "Missing Meta Description"
        (map Issue.title (Recommendations.criticalIssues advice))
      <-> MetaTag.present (SEOAnalysis.description seo) = false)
  /\ (In "Fix Spelling Errors"
        (map Recommendation.title (Recommendations.quickWins advice))
      <-> ContentAnalysis.spellingIssues (Analyses.contentAnalysis analyses)
          <> [])
  /\ (In "Implement Lazy Loading"
        (map Recommendation.title (Recommendations.quickWins advice))
      <-> PerformanceAnalysis.lazyLoading
            (Analyses.performanceAnalysis analyses) = false)
  /\ (In "Enhance Trust Signals"
        (map Recommendation.title
           (Recommendations.strategicImprovements advice))
      <-> (PsychologyAnalysis.score (Analyses.psychologyAnalysis analyses)
           < 70)%Z)
  /\ (In "Improve Visual Hierarchy"
        (map Recommendation.title
           (Recommendations.strategicImprovements advice))
      <-> (DesignAnalysis.score (Analyses.designAnalysis analyses) < 70)%Z)
  /\ List.length (Recommendations.criticalIssues advice) <= 2
  /\ List.length (Recommendations.quickWins advice) <= 2
  /\ List.length (Recommendations.strategicImprovements advice) <= 2.
Proof.
  unfold generateRecommendations. cbv zeta.
  cbn [Recommendations.criticalIssues Recommendations.quickWins
       Recommendations.strategicImprovements].
  repeat apply conj;
    try destruct (ContentAnalysis.spellingIssues _) as [| issue issues];
    repeat match goal with
           | |- context [if ?b then _ else _] => destruct b eqn:?
           end;
    simpl; intros; to_arith; simpl in *;
    first [ lia | congruence | solve [auto]
          | solve [intuition (first [discriminate | congruence])] ].
Qed.

Ltac finish :=
  repeat split;
  first [ reflexivity | congruence | simpl; tauto | intros; to_arith; lia ].

Section Modules.

Context {cheerio : Cheerio.API}.

Lemma report_modules env m u r :
  fst (analyze u env m) = Normal r ->
  exists data,
    axios_get env u = Normal data
    /\ outcome analyzeContent (afterFetch u data)
       = Normal (AnalysisResult.contentAnalysis r)
    /\ outcome analyzeSEO (afterFetch u data)
       = Normal (AnalysisResult.seoAnalysis r)
    /\ outcome analyzePerformance (afterFetch u data)
       = Normal (AnalysisResult.performanceAnalysis r)
    /\ outcome analyzeDesign (afterFetch u data)
       = Normal (AnalysisResult.designAnalysis r)
    /\ outcome analyzePsychology (afterFetch u data)
       = Normal (AnalysisResult.psychologyAnalysis r)
    /\ outcome analyzeAccessibility (afterFetch u data)
       = Normal (AnalysisResult.accessibilityAnalysis r)
    /\ r = report u (now env) (analysesOf r).
Proof.
  intro H. apply analyze_returns in H as (data & analyses & Hget & Hg & ->).
  exists data. split; [exact Hget |].
  apply gather_returns in Hg. destruct analyses. exact Hg || (simpl; tauto).
Qed.

Lemma length_append s t :
  Str.length (s ++ t)%js = Str.length s + Str.length t.
Proof. induction s; simpl; congruence. Qed.

Lemma length_lower_unit prev c :
  Str.length (lower_unit prev c) = if (c =? 304)%N then 2 else 1.
Proof.
  unfold lower_unit.
  destruct (N.ltb_spec c 128) as [Hc |].
  - destruct (N.eqb_spec c 304); [lia | reflexivity].
  - destruct (c =? 304)%N; [reflexivity |].
    destruct (c =? 8490)%N; [reflexivity |].
    destruct (is_low c); [destruct prev |]; reflexivity.
Qed.

(** Lower-casing never shortens a text. *)
Lemma length_lower_after prev s :
  Str.length s <= Str.length (lower_after prev s).
Proof.
  revert prev. induction s as [| c s IH]; intro prev; simpl; [lia |].
  rewrite length_append, length_lower_unit. specialize (IH (Some c)).
  destruct (c =? 304)%N; lia.
Qed.

Lemma length_toLowerCase s : Str.length s <= Str.length (toLowerCase s).
Proof. apply length_lower_after. Qed.

(** It at most doubles its length. *)
Lemma length_lower_after_le prev s :
  Str.length (lower_after prev s) <= 2 * Str.length s.
Proof.
  revert prev. induction s as [| c s IH]; intro prev; simpl; [lia |].
  rewrite length_append, length_lower_unit. specialize (IH (Some c)).
  destruct (c =? 304)%N; lia.
Qed.

Lemma length_toLowerCase_le s :
  Str.length (toLowerCase s) <= 2 * Str.length s.
Proof. apply length_lower_after_le. Qed.

Lemma analyzeContent_text a r :
  outcome analyzeContent a = Normal r ->
  exists d body,
    dollar a = Some d
    /\ Cheerio.select d "body" = Normal body
    /\ ContentAnalysis.wordCount r = countWords (Cheerio.text body)
    /\ ContentAnalysis.readabilityScore r
       = calculateReadability (Cheerio.text body)
    /\ ContentAnalysis.spellingIssues r
       = detectSpellingIssues (Cheerio.text body)
    /\ ContentAnalysis.grammarIssues r
       = detectGrammarIssues (Cheerio.text body).
Proof.
  intro H. unfold analyzeContent, analyzeHeadingStructure, assessMessageClarity
    in H.
  open_run H.
  destruct (dollar a) as [d |] eqn:Hd; [| discriminate].
  cbn [bind ret Monad_M fst snd] in H.
  destruct (Cheerio.select d "body") as [body |] eqn:Hbody; [| discriminate].
  cbn [bind ret Monad_M fst snd] in H.
  exists d, body. split; [reflexivity |]. split; [exact Hbody |].
  rewrite (slice0_short 5 (detectSpellingIssues _)) in H
    by apply spelling_at_most_five.
  rewrite (slice0_short 5 (detectGrammarIssues _)) in H
    by (pose proof (grammar_at_most_one (Cheerio.text body)); lia).
  invert_run H; injection H as <-; auto.
Qed.

Ltac lower_lengths :=
  repeat match goal with
         | |- context [Str.length (toLowerCase ?s)] =>
             lazymatch goal with
             | _ : Str.length s <= Str.length (toLowerCase s) |- _ => fail
             | _ =>
                 pose proof (length_toLowerCase s);
                 pose proof (length_toLowerCase_le s)
             end
         end.

Lemma analyzeContent_quality a r :
  outcome analyzeContent a = Normal r ->
  let q := ContentAnalysis.contentQuality r in
  let h := ContentAnalysis.headingStructure r in
  ContentAnalysis.score r
  = (70 + gate (300 <=? ContentAnalysis.wordCount r)%nat 10
     + gate (60 <=? ContentAnalysis.readabilityScore r)%Z 10
     + gate (List.length (ContentAnalysis.spellingIssues r) =? 0)%nat 5
     + gate (ContentQuality.hasClearValue q) 5)%Z
  /\ In (ContentQuality.messageClarity q) [90; 70; 40]%Z
  /\ (ContentQuality.messageClarity q = 90%Z ->
      ContentQuality.hasClearValue q = true)
  /\ HeadingAnalysis.properHierarchy h
     = (HeadingAnalysis.h1Count h =? 1) && (0 <? HeadingAnalysis.h2Count h)
  /\ HeadingAnalysis.score h
     = if HeadingAnalysis.properHierarchy h then 90%Z else 60%Z.
Proof.
  intro H. unfold analyzeContent, analyzeHeadingStructure, assessMessageClarity
    in H.
  open_run H.
  destruct (dollar a) as [d |]; [| discriminate].
  cbn [bind ret Monad_M fst snd] in H.
  destruct (Cheerio.select d "body") as [body |]; [| discriminate].
  cbn [bind ret Monad_M fst snd] in H.
  rewrite (slice0_short 5 (detectSpellingIssues _)) in H
    by apply spelling_at_most_five.
  split_run H; injection H as <-; cbv zeta;
    cbn [ContentAnalysis.score ContentAnalysis.wordCount
         ContentAnalysis.readabilityScore ContentAnalysis.spellingIssues
         ContentAnalysis.contentQuality ContentAnalysis.headingStructure
         ContentQuality.hasClearValue ContentQuality.messageClarity
         HeadingAnalysis.properHierarchy HeadingAnalysis.score
         HeadingAnalysis.h1Count HeadingAnalysis.h2Count];
    rewrite content_score_sum; cbn [ContentParams.wordCount
      ContentParams.readabilityScore ContentParams.spellingIssues
      ContentParams.hasClearValue];
    lower_lengths;
    repeat split;
    first [ reflexivity | congruence | simpl; tauto
          | intros; to_arith; lia
          | intros; to_arith; rewrite andb_true_iff, 2 Nat.ltb_lt; lia ].
Qed.

Lemma analyzeSEO_fields a r :
  outcome analyzeSEO a = Normal r ->
  let t := SEOAnalysis.title r in
  let ds := SEOAnalysis.description r in
  SEOAnalysis.score r
  = (50 + gate (MetaTag.optimized t) 15
     + gate (120 <=? MetaTag.length ds)%nat 15
     + gate (SEOAnalysis.properStructure r) 10
     + gate (SEOAnalysis.schemaMarkup r) 5
     + gate (SEOAnalysis.mobileOptimized r) 5)%Z
  /\ MetaTag.present t = (0 <? MetaTag.length t)
  /\ MetaTag.optimized t
     = (30 <=? MetaTag.length t) && (MetaTag.length t <=? 60)
  /\ MetaTag.present ds = (0 <? MetaTag.length ds)
  /\ MetaTag.optimized ds
     = (120 <=? MetaTag.length ds) && (MetaTag.length ds <=? 160)
  /\ (SEOAnalysis.properStructure r = true -> SEOAnalysis.h1Count r = 1)
  /\ (SEOAnalysis.optimizationScore r
      == inject_Z (Z.of_nat (SEOAnalysis.total r)
                   - Z.of_nat (SEOAnalysis.missingAlt r))
         / num (Nat.max (SEOAnalysis.total r) 1) * 100)%Q.
Proof.
  intro H. unfold analyzeSEO in H. open_run H.
  split_run H; injection H as <-; cbv zeta;
    cbn [SEOAnalysis.score SEOAnalysis.title SEOAnalysis.description
         SEOAnalysis.properStructure SEOAnalysis.schemaMarkup
         SEOAnalysis.mobileOptimized SEOAnalysis.h1Count SEOAnalysis.total
         SEOAnalysis.missingAlt SEOAnalysis.optimizationScore
         MetaTag.present MetaTag.length MetaTag.optimized];
    rewrite seo_score_sum;
    cbn [SEOParams.title SEOParams.description SEOParams.properStructure
         SEOParams.schemaMarkup SEOParams.mobileOptimized];
    finish.
Qed.

Lemma analyzePerformance_fields a r :
  outcome analyzePerformance a = Normal r ->
  PerformanceAnalysis.score r
  = (80 + gate (10 <? PerformanceAnalysis.scripts r)%nat (-10)
     + gate (PerformanceAnalysis.minifiedCSS r) 5
     + gate (PerformanceAnalysis.minifiedJS r) 5
     + gate (PerformanceAnalysis.lazyLoading r) 10)%Z
  /\ (PerformanceAnalysis.estimatedLoadTime r
      == inject_Z (Z.of_nat (20 * PerformanceAnalysis.scripts r
                             + 15 * PerformanceAnalysis.styles r
                             + 10 * PerformanceAnalysis.images r)) / 100)%Q
  /\ PerformanceAnalysis.compressedImages r = false.
Proof.
  intro H. unfold analyzePerformance in H. open_run H.
  split_run H; injection H as <-;
    cbn [PerformanceAnalysis.score PerformanceAnalysis.scripts
         PerformanceAnalysis.styles PerformanceAnalysis.images
         PerformanceAnalysis.minifiedCSS PerformanceAnalysis.minifiedJS
         PerformanceAnalysis.lazyLoading PerformanceAnalysis.compressedImages
         PerformanceAnalysis.estimatedLoadTime];
    rewrite performance_score_sum;
    cbn [PerformanceParams.scripts PerformanceParams.hasMinifiedCSS
         PerformanceParams.hasMinifiedJS PerformanceParams.hasLazyLoading];
    (split; [reflexivity |]); (split; [| reflexivity]);
    unfold toFixed2, JS.round; rewrite loadTime_hundredths;
    apply toFixed2_hundredths.
Qed.

Lemma analyzeDesign_fields a r :
  outcome analyzeDesign a = Normal r ->
  DesignAnalysis.score r
  = (60 + gate (70 <=? DesignAnalysis.visualHierarchy r)%Z 15
     + gate (70 <=? DesignAnalysis.whitespace r)%Z 10
     + gate (DesignAnalysis.readableSize r) 10
     + gate ((3 <=? DesignAnalysis.fontVariety r)
             && (DesignAnalysis.fontVariety r <=? 6))%nat 5)%Z
  /\ In (DesignAnalysis.visualHierarchy r) [90; 75; 50]%Z
  /\ In (DesignAnalysis.whitespace r) [80; 65; 50]%Z
  /\ DesignAnalysis.colorContrastScore r = 75%Z
  /\ DesignAnalysis.colorContrastIssues r = []
  /\ NoDup (DesignAnalysis.fontSizes r)
  /\ List.length (DesignAnalysis.fontSizes r)
     = Nat.min 10 (DesignAnalysis.fontVariety r)
  /\ (forall size,
        In size (DesignAnalysis.fontSizes r) -> (16 <= size)%Z ->
        DesignAnalysis.readableSize r = true)
  /\ In (ImageTextBalance.score (DesignAnalysis.imageTextBalance r))
       [50; 60; 40; 85]%Z.
Proof.
  intro H.
  unfold analyzeDesign, assessVisualHierarchy, assessWhitespace in H.
  open_run H.
  split_run H; apply Normal_inj in H; subst r;
    cbn [DesignAnalysis.score DesignAnalysis.visualHierarchy
         DesignAnalysis.whitespace DesignAnalysis.readableSize
         DesignAnalysis.fontVariety DesignAnalysis.colorContrastScore
         DesignAnalysis.colorContrastIssues DesignAnalysis.fontSizes
         DesignAnalysis.imageTextBalance];
    rewrite design_score_sum;
    cbn [DesignParams.visualHierarchy DesignParams.whitespace
         DesignParams.readableSize DesignParams.fontVariety];
    repeat apply conj;
    first [ reflexivity | simpl; tauto | apply balance_scores
          | apply NoDup_firstn, unique_NoDup
          | apply length_firstn
          | idtac ].
  all: intros size Hin Hsize; apply In_firstn, unique_In in Hin as [Hin _];
    apply existsb_exists; exists size; split; [exact Hin |];
    now apply Z.leb_le.
Qed.

Lemma analyzePsychology_fields a r :
  outcome analyzePsychology a = Normal r ->
  let t := PsychologyAnalysis.trustSignals r in
  let c := PsychologyAnalysis.ctaPlacement r in
  PsychologyAnalysis.score r
  = (50 + gate (3 <=? List.length (TrustSignals.present t))%nat 20
     + gate (1 <=? CtaPlacement.ctaCount c)%nat 20
     + gate (PsychologyAnalysis.socialProof r) 10)%Z
  /\ CtaPlacement.aboveFold c = (0 <? CtaPlacement.ctaCount c)
  /\ CtaPlacement.score c = CtaPlacement.clarity c
  /\ In (CtaPlacement.clarity c) [0; 90; 75; 60]%Z
  /\ (CtaPlacement.clarity c = 0%Z <-> CtaPlacement.ctaCount c = 0)
  /\ Permutation (TrustSignals.present t ++ TrustSignals.missing t)
       trustSignalNames
  /\ (TrustSignals.score t
      == num (List.length (TrustSignals.present t)) / 6 * 100)%Q
  /\ PsychologyAnalysis.colorPsychology r
     = ColorPsychology.make 70 [] "Professional" 75.
Proof.
  intro H.
  unfold analyzePsychology, detectTrustSignals, assessCTAClarity in H.
  open_run H.
  split_run H; apply Normal_inj in H; subst r; cbv zeta;
    cbn [PsychologyAnalysis.score PsychologyAnalysis.trustSignals
         PsychologyAnalysis.ctaPlacement PsychologyAnalysis.socialProof
         PsychologyAnalysis.colorPsychology CtaPlacement.aboveFold
         CtaPlacement.ctaCount CtaPlacement.score CtaPlacement.clarity
         TrustSignals.present TrustSignals.missing TrustSignals.score];
    repeat apply conj;
    first [ apply psychology_score_cta | reflexivity | apply partition_names
          | idtac ].
  all: lazymatch goal with
       | |- In _ _ => first [simpl; tauto | exfalso; to_arith; lia]
       | |- (_ == _)%Q =>
           rewrite !length_map;
           match goal with
           | |- context [filter snd ?l] => rewrite (filter_split snd l)
           end;
           reflexivity
       | |- _ -> _ =>
           intro Hx; to_arith; first [discriminate Hx | lia | reflexivity]
       | |- calculatePsychologyScore _ = _ =>
           rewrite psychology_score_sum;
           cbn [PsychologyParams.trustSignals PsychologyParams.ctaCount
                PsychologyParams.ctaAboveFold
                PsychologyParams.hasSocialProof];
           to_arith; unfold gate; destruct (3 <=? _);
           match goal with
           | |- context [1 <=? ?n] => destruct (Nat.leb_spec 1 n)
           end;
           first [reflexivity | lia]
       | |- _ = _ => congruence
       end.
Qed.

Lemma analyzeAccessibility_fields a r :
  outcome analyzeAccessibility a = Normal r ->
  (AccessibilityAnalysis.wcagCompliance r = "AA"
   <-> (80 <= AccessibilityAnalysis.score r)%Z)
  /\ (AccessibilityAnalysis.wcagCompliance r = "A"
      <-> (60 <= AccessibilityAnalysis.score r < 80)%Z)
  /\ (AccessibilityAnalysis.wcagCompliance r = "Needs Improvement"
      <-> (AccessibilityAnalysis.score r < 60)%Z)
  /\ AccessibilityAnalysis.keyboardNavigation r = true
  /\ (AccessibilityAnalysis.contrastRatio r == 4.5)%Q
  /\ ((AccessibilityAnalysis.ariaScore r < 100)%Q
      <-> (0 < AccessibilityAnalysis.ariaMissing r)%Z)
  /\ ((100 < AccessibilityAnalysis.ariaScore r)%Q ->
      (AccessibilityAnalysis.ariaMissing r < 0)%Z)
  /\ (AccessibilityAnalysis.screenReaderFriendly r = true ->
      (50 < AccessibilityAnalysis.ariaScore r)%Q).
Proof.
  intro H. unfold analyzeAccessibility in H. open_run H.
  split_run H; apply Normal_inj in H; subst r;
    cbn [AccessibilityAnalysis.wcagCompliance AccessibilityAnalysis.score
         AccessibilityAnalysis.keyboardNavigation
         AccessibilityAnalysis.contrastRatio AccessibilityAnalysis.ariaScore
         AccessibilityAnalysis.ariaMissing
         AccessibilityAnalysis.screenReaderFriendly];
    repeat apply conj; try reflexivity.
  all: set (score := calculateAccessibilityScore _) in *; to_arith.
  all: lazymatch goal with
       | |- _ && _ = true -> _ =>
           intro Hs; apply andb_true_iff in Hs as [_ Hs];
           unfold Qgtb in Hs; apply negb_true_iff in Hs;
           apply Qnot_le_lt; intro Hle; apply Qle_bool_iff in Hle; congruence
       | |- (_ / _ * 100 < 100)%Q -> _ =>
           intro Hx; apply percentage_lt in Hx; lia
       | |- _ -> (_ / _ * 100 < 100)%Q =>
           intro Hx; apply percentage_lt; lia
       | |- (100 < 100)%Q -> _ => intro Hx; discriminate Hx
       | |- (100 < _ / _ * 100)%Q -> _ =>
           intro Hx; apply percentage_gt in Hx; lia
       | |- _ => intro Hx; first [discriminate Hx | lia | reflexivity]
       end.
Qed.

Lemma modules_agree_on a c s p d :
  outcome analyzeContent a = Normal c ->
  outcome analyzeSEO a = Normal s ->
  outcome analyzePerformance a = Normal p ->
  outcome analyzeDesign a = Normal d ->
  let h := ContentAnalysis.headingStructure c in
  HeadingAnalysis.h1Count h = SEOAnalysis.h1Count s
  /\ HeadingAnalysis.properHierarchy h = SEOAnalysis.properStructure s
  /\ (70 <=? DesignAnalysis.visualHierarchy d)%Z
     = SEOAnalysis.properStructure s
  /\ (DesignAnalysis.visualHierarchy d = 90%Z ->
      2 <= HeadingAnalysis.h2Count h /\ 1 <= HeadingAnalysis.h3Count h)
  /\ SEOAnalysis.total s = PerformanceAnalysis.images p
  /\ (ImageTextBalance.score (DesignAnalysis.imageTextBalance d) = 40%Z
      <-> SEOAnalysis.total s = 0)
  /\ (ContentQuality.hasClearValue (ContentAnalysis.contentQuality c) = true
      -> 5 < MetaTag.length (SEOAnalysis.title s))
  /\ (ContentQuality.messageClarity (ContentAnalysis.contentQuality c) = 90%Z
      -> 20 < MetaTag.length (SEOAnalysis.title s)).
Proof.
  intros Hc Hs Hp Hd.
  unfold analyzeContent, analyzeHeadingStructure, assessMessageClarity in Hc.
  unfold analyzeSEO, hasAny in Hs.
  unfold analyzePerformance in Hp.
  unfold analyzeDesign, assessVisualHierarchy in Hd.
  unfold outcome, loaded, getThis, query, await, throw in Hc, Hs, Hp, Hd.
  cbn [bind ret Monad_M fst snd this] in Hc, Hs, Hp, Hd.
  step_run Hc; step_run Hs; step_run Hp; step_run Hd.
  all: apply Normal_inj in Hc, Hs, Hp, Hd; subst c s p d; cbv zeta;
    cbn [ContentAnalysis.headingStructure ContentAnalysis.contentQuality
         ContentQuality.hasClearValue ContentQuality.messageClarity
         HeadingAnalysis.h1Count
         HeadingAnalysis.h2Count HeadingAnalysis.h3Count
         HeadingAnalysis.properHierarchy SEOAnalysis.h1Count
         SEOAnalysis.properStructure SEOAnalysis.total SEOAnalysis.title
         MetaTag.length PerformanceAnalysis.images
         DesignAnalysis.visualHierarchy DesignAnalysis.imageTextBalance];
    lower_lengths.
  all: repeat apply conj;
    first [ reflexivity
          | apply (proj1 (balance_without_images _ _))
          | apply (proj2 (balance_without_images _ _))
          | intros; to_arith; first [lia | congruence]
          | match goal with
            | |- _ = (0 <? ?n) => destruct (Nat.ltb_spec 0 n)
            end;
            first [ reflexivity
                  | exfalso; rewrite ?andb_true_l in *; to_arith; lia ] ].
Qed.

(** ** What a report says of its page *)

(** X8: the word count, the readability score and the two issue lists of a
    report are computed from the text of the [body] of the page fetched, and
    the lists are complete: the cut to five entries never drops one. *)
Theorem content_text_fields env m u r :
  fst (analyze u env m) = Normal r ->
  exists data body,
    axios_get env u = Normal data
    /\ Cheerio.select (Cheerio.load data) "body" = Normal body
    /\ let text := Cheerio.text body in
       let c := AnalysisResult.contentAnalysis r in
       ContentAnalysis.wordCount c = countWords text
       /\ ContentAnalysis.readabilityScore c = calculateReadability text
       /\ ContentAnalysis.spellingIssues c = detectSpellingIssues text
       /\ ContentAnalysis.grammarIssues c = detectGrammarIssues text.
Proof.
  intro H. apply report_modules in H as (data & Hget & Hc & _).
  apply analyzeContent_text in Hc as (d & body & Hd & Hbody & Hrest).
  simpl in Hd. injection Hd as <-. exists data, body. auto.
Qed.

(** X9: the content score of a report can be recomputed from the report:
    70, plus 10 for 300 words, 10 for a readability score of 60, 5 for an
    empty list of spelling issues and 5 for a clear value proposition; the
    grammar issues, the call to action and the message clarity do not enter
    it.  The message clarity is 90, 70 or 40, and where it is 90 the value
    proposition is clear. *)
Theorem content_score_from_report env m u r :
  fst (analyze u env m) = Normal r ->
  let c := AnalysisResult.contentAnalysis r in
  let q := ContentAnalysis.contentQuality c in
  let h := ContentAnalysis.headingStructure c in
  ContentAnalysis.score c
  = (70 + gate (300 <=? ContentAnalysis.wordCount c)%nat 10
     + gate (60 <=? ContentAnalysis.readabilityScore c)%Z 10
     + gate (List.length (ContentAnalysis.spellingIssues c) =? 0)%nat 5
     + gate (ContentQuality.hasClearValue q) 5)%Z
  /\ In (ContentQuality.messageClarity q) [90; 70; 40]%Z
  /\ (ContentQuality.messageClarity q = 90%Z ->
      ContentQuality.hasClearValue q = true)
  /\ HeadingAnalysis.properHierarchy h
     = (HeadingAnalysis.h1Count h =? 1) && (0 <? HeadingAnalysis.h2Count h)
  /\ HeadingAnalysis.score h
     = if HeadingAnalysis.properHierarchy h then 90%Z else 60%Z.
Proof.
  intro H. apply report_modules in H as (data & _ & Hc & _).
  exact (analyzeContent_quality _ _ Hc).
Qed.

(** X10: the SEO score of a report can be recomputed from the report: 50,
    plus 15 for an optimized title, 15 for a description of 120 characters
    or more, 10 for a proper heading structure, 5 for schema markup and 5
    for a mobile viewport.  A description longer than 160 characters is not
    marked optimized and still earns its 15.  A proper structure implies
    exactly one [h1]. *)
Theorem seo_report_consistent env m u r :
  fst (analyze u env m) = Normal r ->
  let s := AnalysisResult.seoAnalysis r in
  let t := SEOAnalysis.title s in
  let ds := SEOAnalysis.description s in
  SEOAnalysis.score s
  = (50 + gate (MetaTag.optimized t) 15
     + gate (120 <=? MetaTag.length ds)%nat 15
     + gate (SEOAnalysis.properStructure s) 10
     + gate (SEOAnalysis.schemaMarkup s) 5
     + gate (SEOAnalysis.mobileOptimized s) 5)%Z
  /\ MetaTag.present t = (0 <? MetaTag.length t)
  /\ MetaTag.optimized t
     = (30 <=? MetaTag.length t) && (MetaTag.length t <=? 60)
  /\ MetaTag.present ds = (0 <? MetaTag.length ds)
  /\ MetaTag.optimized ds
     = (120 <=? MetaTag.length ds) && (MetaTag.length ds <=? 160)
  /\ (SEOAnalysis.properStructure s = true -> SEOAnalysis.h1Count s = 1)
  /\ (SEOAnalysis.optimizationScore s
      == inject_Z (Z.of_nat (SEOAnalysis.total s)
                   - Z.of_nat (SEOAnalysis.missingAlt s))
         / num (Nat.max (SEOAnalysis.total s) 1) * 100)%Q.
Proof.
  intro H. apply report_modules in H as (data & _ & _ & Hs & _).
  exact (analyzeSEO_fields _ _ Hs).
Qed.

(** X11: the performance score of a report can be recomputed from the
    report: 80, less 10 for more than ten scripts, plus 5 for a minified
    style sheet, 5 for a minified script and 10 for lazy loading.  The
    estimated load time is 0.2 for each script, 0.15 for each style sheet
    and 0.1 for each image, a whole number of hundredths that the rounding
    to two decimals leaves as it is; it does not enter the score.
    [compressedImages] is always false. *)
Theorem performance_report_consistent env m u r :
  fst (analyze u env m) = Normal r ->
  let p := AnalysisResult.performanceAnalysis r in
  PerformanceAnalysis.score p
  = (80 + gate (10 <? PerformanceAnalysis.scripts p)%nat (-10)
     + gate (PerformanceAnalysis.minifiedCSS p) 5
     + gate (PerformanceAnalysis.minifiedJS p) 5
     + gate (PerformanceAnalysis.lazyLoading p) 10)%Z
  /\ (PerformanceAnalysis.estimatedLoadTime p
      == inject_Z (Z.of_nat (20 * PerformanceAnalysis.scripts p
                             + 15 * PerformanceAnalysis.styles p
                             + 10 * PerformanceAnalysis.images p)) / 100)%Q
  /\ PerformanceAnalysis.compressedImages p = false.
Proof.
  intro H. apply report_modules in H as (data & _ & _ & _ & Hp & _).
  exact (analyzePerformance_fields _ _ Hp).
Qed.

(** X12: the design score of a report can be recomputed from the report:
    60, plus 15 for a visual hierarchy of 70, 10 for a whitespace score of
    70, 10 for a readable font size and 5 for three to six font sizes; the
    balance of images and text does not enter it.  The visual hierarchy is
    90, 75 or 50 and the whitespace score 80, 65 or 50; the color contrast
    is always 75 with no issue; the font sizes listed are distinct, the
    first ten of those counted by [fontVariety], and one of 16 or more makes
    the size readable. *)
Theorem design_report_consistent env m u r :
  fst (analyze u env m) = Normal r ->
  let d := AnalysisResult.designAnalysis r in
  DesignAnalysis.score d
  = (60 + gate (70 <=? DesignAnalysis.visualHierarchy d)%Z 15
     + gate (70 <=? DesignAnalysis.whitespace d)%Z 10
     + gate (DesignAnalysis.readableSize d) 10
     + gate ((3 <=? DesignAnalysis.fontVariety d)
             && (DesignAnalysis.fontVariety d <=? 6))%nat 5)%Z
  /\ In (DesignAnalysis.visualHierarchy d) [90; 75; 50]%Z
  /\ In (DesignAnalysis.whitespace d) [80; 65; 50]%Z
  /\ DesignAnalysis.colorContrastScore d = 75%Z
  /\ DesignAnalysis.colorContrastIssues d = []
  /\ NoDup (DesignAnalysis.fontSizes d)
  /\ List.length (DesignAnalysis.fontSizes d)
     = Nat.min 10 (DesignAnalysis.fontVariety d)
  /\ (forall size,
        In size (DesignAnalysis.fontSizes d) -> (16 <= size)%Z ->
        DesignAnalysis.readableSize d = true)
  /\ In (ImageTextBalance.score (DesignAnalysis.imageTextBalance d))
       [50; 60; 40; 85]%Z.
Proof.
  intro H. apply report_modules in H as (data & _ & _ & _ & _ & Hd & _).
  exact (analyzeDesign_fields _ _ Hd).
Qed.

(** X13: the psychology score of a report can be recomputed from the
    report: 50, plus 20 for three trust signals, 20 for a call to action
    and 10 for social proof: a call to action counts as above the fold
    whenever there is one, so the two conditions on it hold together; the
    urgency triggers do not enter the score.  The clarity is 0, 60, 75 or
    90, and 0 exactly when there is no call to action.  The six signal names
    are shared out between the present and the missing ones, and the trust
    score is the share of the present ones. *)
Theorem psychology_report_consistent env m u r :
  fst (analyze u env m) = Normal r ->
  let y := AnalysisResult.psychologyAnalysis r in
  let t := PsychologyAnalysis.trustSignals y in
  let c := PsychologyAnalysis.ctaPlacement y in
  PsychologyAnalysis.score y
  = (50 + gate (3 <=? List.length (TrustSignals.present t))%nat 20
     + gate (1 <=? CtaPlacement.ctaCount c)%nat 20
     + gate (PsychologyAnalysis.socialProof y) 10)%Z
  /\ CtaPlacement.aboveFold c = (0 <? CtaPlacement.ctaCount c)
  /\ CtaPlacement.score c = CtaPlacement.clarity c
  /\ In (CtaPlacement.clarity c) [0; 90; 75; 60]%Z
  /\ (CtaPlacement.clarity c = 0%Z <-> CtaPlacement.ctaCount c = 0)
  /\ Permutation (TrustSignals.present t ++ TrustSignals.missing t)
       trustSignalNames
  /\ (TrustSignals.score t
      == num (List.length (TrustSignals.present t)) / 6 * 100)%Q
  /\ PsychologyAnalysis.colorPsychology y
     = ColorPsychology.make 70 [] "Professional" 75.
Proof.
  intro H. apply report_modules in H as (data & _ & _ & _ & _ & _ & Hy & _).
  exact (analyzePsychology_fields _ _ Hy).
Qed.

(** X14: in the accessibility part of a report the WCAG level follows the
    score: AA from 80, A from 60 to 79, Needs Improvement below 60.  The
    keyboard navigation is always true and the contrast ratio always 4.5.
    The ARIA score is below 100 exactly when labels are counted as missing;
    it can exceed 100, and then the count of missing labels is negative.  A
    page is screen reader friendly only with an ARIA score above 50. *)
Theorem accessibility_report_consistent env m u r :
  fst (analyze u env m) = Normal r ->
  let x := AnalysisResult.accessibilityAnalysis r in
  (AccessibilityAnalysis.wcagCompliance x = "AA"
   <-> (80 <= AccessibilityAnalysis.score x)%Z)
  /\ (AccessibilityAnalysis.wcagCompliance x = "A"
      <-> (60 <= AccessibilityAnalysis.score x < 80)%Z)
  /\ (AccessibilityAnalysis.wcagCompliance x = "Needs Improvement"
      <-> (AccessibilityAnalysis.score x < 60)%Z)
  /\ AccessibilityAnalysis.keyboardNavigation x = true
  /\ (AccessibilityAnalysis.contrastRatio x == 4.5)%Q
  /\ ((AccessibilityAnalysis.ariaScore x < 100)%Q
      <-> (0 < AccessibilityAnalysis.ariaMissing x)%Z)
  /\ ((100 < AccessibilityAnalysis.ariaScore x)%Q ->
      (AccessibilityAnalysis.ariaMissing x < 0)%Z)
  /\ (AccessibilityAnalysis.screenReaderFriendly x = true ->
      (50 < AccessibilityAnalysis.ariaScore x)%Q).
Proof.
  intro H.
  apply report_modules in H as (data & _ & _ & _ & _ & _ & _ & Hx & _).
  exact (analyzeAccessibility_fields _ _ Hx).
Qed.

(** X15: the parts of a report agree where they describe the same thing:
    the content and the SEO part count the same [h1] elements and judge the
    heading structure alike, the visual hierarchy is 70 or more exactly when
    that structure is proper, the SEO and the performance part count the
    same images, and the design part asks for images exactly when there is
    none.  The value proposition is judged on the lower-cased title, which
    can be up to twice as long as the title: a clear value proposition needs
    a title of more than five code units, and a message clarity of 90 one of
    more than twenty. *)
Theorem report_parts_agree env m u r :
  fst (analyze u env m) = Normal r ->
  let c := AnalysisResult.contentAnalysis r in
  let s := AnalysisResult.seoAnalysis r in
  let p := AnalysisResult.performanceAnalysis r in
  let d := AnalysisResult.designAnalysis r in
  let h := ContentAnalysis.headingStructure c in
  HeadingAnalysis.h1Count h = SEOAnalysis.h1Count s
  /\ HeadingAnalysis.properHierarchy h = SEOAnalysis.properStructure s
  /\ (70 <=? DesignAnalysis.visualHierarchy d)%Z
     = SEOAnalysis.properStructure s
  /\ (DesignAnalysis.visualHierarchy d = 90%Z ->
      2 <= HeadingAnalysis.h2Count h /\ 1 <= HeadingAnalysis.h3Count h)
  /\ SEOAnalysis.total s = PerformanceAnalysis.images p
  /\ (ImageTextBalance.score (DesignAnalysis.imageTextBalance d) = 40%Z
      <-> SEOAnalysis.total s = 0)
  /\ (ContentQuality.hasClearValue (ContentAnalysis.contentQuality c) = true
      -> 5 < MetaTag.length (SEOAnalysis.title s))
  /\ (ContentQuality.messageClarity (ContentAnalysis.contentQuality c) = 90%Z
      -> 20 < MetaTag.length (SEOAnalysis.title s)).
Proof.
  intro H. apply report_modules in H as (data & _ & Hc & Hs & Hp & Hd & _).
  exact (modules_agree_on _ _ _ _ _ Hc Hs Hp Hd).
Qed.

End Modules.

(** ** Advice *)

Section Advice.

Context {cheerio : Cheerio.API}.

Lemma report_advice env m u r :
  fst (analyze u env m) = Normal r ->
  let advice := generateRecommendations (analysesOf r) in
  AnalysisResult.criticalIssues r = Recommendations.criticalIssues advice
  /\ AnalysisResult.quickWins r = Recommendations.quickWins advice
  /\ AnalysisResult.strategicImprovements r
     = Recommendations.strategicImprovements advice
  /\ AnalysisResult.freeInsightsCount r
     = List.length (AnalysisResult.criticalIssues r)
       + List.length (AnalysisResult.quickWins r)
  /\ AnalysisResult.premiumInsightsAvailable r
     = List.length (AnalysisResult.strategicImprovements r)
  /\ AnalysisResult.overallScore r = calculateOverallScore (analysesOf r).
Proof.
  intro H. apply analyze_returns in H as (data & analyses & _ & Hg & ->).
  apply gather_returns in Hg as (Hc & _).
  apply (outcome_ensures _ _ _ _ analyzeContent_returns) in Hc as [_ Hlen].
  destruct (recommendations_premium analyses Hlen) as (Hcrit & Hquick & Hstrat).
  assert (Hsame : analysesOf (report u (now env) analyses) = analyses)
    by now destruct analyses.
  rewrite Hsame. unfold report. cbv zeta.
  cbn [AnalysisResult.criticalIssues AnalysisResult.quickWins
       AnalysisResult.strategicImprovements AnalysisResult.freeInsightsCount
       AnalysisResult.premiumInsightsAvailable AnalysisResult.overallScore].
  repeat split.
  - unfold countFreeInsights. f_equal; f_equal; apply filter_all.
    + eapply Forall_impl; [| exact Hcrit]. simpl. now intros i ->.
    + eapply Forall_impl; [| exact Hquick]. simpl. now intros q ->.
  - unfold countPremiumInsights.
    rewrite (filter_none _ _ Hcrit), (filter_none _ _ Hquick),
      (filter_all _ _ Hstrat).
    reflexivity.
Qed.

(** X16: when a report gives each piece of advice, in terms of the report
    itself.  The visual hierarchy advice is given exactly when the visual
    hierarchy is 50, the whitespace score is not 80 and no font size is
    readable; the trust signal advice exactly when fewer than three signals
    are present and there is no call to action.  A report has at most four
    free insights and at most two premium ones. *)
Theorem advice_conditions env m u r :
  fst (analyze u env m) = Normal r ->
  let c := AnalysisResult.contentAnalysis r in
  let s := AnalysisResult.seoAnalysis r in
  let p := AnalysisResult.performanceAnalysis r in
  let d := AnalysisResult.designAnalysis r in
  let y := AnalysisResult.psychologyAnalysis r in
  let strategic :=
    map Recommendation.title (AnalysisResult.strategicImprovements r) in
  let quick := map Recommendation.title (AnalysisResult.quickWins r) in
  let issues := map Issue.title (AnalysisResult.criticalIssues r) in
  (In "Improve Visual Hierarchy" strategic
   <-> DesignAnalysis.visualHierarchy d = 50%Z
       /\ DesignAnalysis.whitespace d <> 80%Z
       /\ DesignAnalysis.readableSize d = false)
  /\ (In "Enhance Trust Signals" strategic
      <-> List.length (TrustSignals.present
                         (PsychologyAnalysis.trustSignals y)) < 3
          /\ CtaPlacement.ctaCount (PsychologyAnalysis.ctaPlacement y) = 0)
  /\ (In "Fix Spelling Errors" quick
      <-> ContentAnalysis.spellingIssues c <> [])
  /\ (In "Implement Lazy Loading" quick
      <-> PerformanceAnalysis.lazyLoading p = false)
  /\ (In "Missing Page Title" issues
      <-> MetaTag.length (SEOAnalysis.title s) = 0)
  /\ (In "Missing Meta Description" issues
      <-> MetaTag.length (SEOAnalysis.description s) = 0)
  /\ AnalysisResult.freeInsightsCount r <= 4
  /\ AnalysisResult.premiumInsightsAvailable r <= 2.
Proof.
  intro H.
  destruct (report_advice _ _ _ _ H) as (Hcrit & Hquick & Hstrat & Hfree
                                         & Hprem & _).
  apply report_modules in H as (data & _ & _ & Hs & _ & Hd & Hy & _).
  apply analyzeSEO_fields in Hs as (_ & Htitle & _ & Hdesc & _).
  apply analyzeDesign_fields in Hd as (Hd & Hvh & Hws & _).
  apply analyzePsychology_fields in Hy as (Hy & _).
  cbv zeta in *.
  rewrite Hfree, Hprem, Hcrit, Hquick, Hstrat.
  destruct (advice_titles (analysesOf r))
    as (At & Ad & As & Al & Ay & Av & Lc & Lq & Ls).
  cbv zeta in *.
  cbn [analysesOf Analyses.seoAnalysis Analyses.contentAnalysis
       Analyses.performanceAnalysis Analyses.psychologyAnalysis
       Analyses.designAnalysis] in *.
  rewrite At, Ad, As, Al, Ay, Av, Htitle, Hdesc, Hd, Hy.
  repeat match goal with
         | |- _ /\ _ => split
         end; try tauto; try lia.
  - unfold gate. simpl in Hvh, Hws.
    destruct Hvh as [<- | [<- | [<- | []]]],
      Hws as [<- | [<- | [<- | []]]],
      (DesignAnalysis.readableSize _), (_ && _); simpl;
      split; intros; try lia; intuition congruence.
  - unfold gate.
    destruct (Nat.leb_spec 3
                (List.length
                   (TrustSignals.present
                      (PsychologyAnalysis.trustSignals
                         (AnalysisResult.psychologyAnalysis r))))),
      (Nat.leb_spec 1
         (CtaPlacement.ctaCount
            (PsychologyAnalysis.ctaPlacement
               (AnalysisResult.psychologyAnalysis r)))),
      (PsychologyAnalysis.socialProof _); simpl; intuition lia.
  - destruct (Nat.ltb_spec 0 (MetaTag.length (SEOAnalysis.title
                (AnalysisResult.seoAnalysis r)))); split; intro;
      first [lia | congruence].
  - destruct (Nat.ltb_spec 0 (MetaTag.length (SEOAnalysis.description
                (AnalysisResult.seoAnalysis r)))); split; intro;
      first [lia | congruence].
Qed.

(** X17: the lowest values of the module scores of a report are 70, 50, 70,
    60, 50 and 0, so that its overall score is at least 55. *)
Theorem overall_at_least_55 env m u r :
  fst (analyze u env m) = Normal r ->
  (70 <= ContentAnalysis.score (AnalysisResult.contentAnalysis r))%Z
  /\ (50 <= SEOAnalysis.score (AnalysisResult.seoAnalysis r))%Z
  /\ (70 <= PerformanceAnalysis.score (AnalysisResult.performanceAnalysis r))%Z
  /\ (60 <= DesignAnalysis.score (AnalysisResult.designAnalysis r))%Z
  /\ (50 <= PsychologyAnalysis.score (AnalysisResult.psychologyAnalysis r))%Z
  /\ (0 <= AccessibilityAnalysis.score
             (AnalysisResult.accessibilityAnalysis r))%Z
  /\ (55 <= AnalysisResult.overallScore r)%Z.
Proof.
  intro H.
  destruct (report_advice _ _ _ _ H) as (_ & _ & _ & _ & _ & Hall).
  apply report_modules in H as (data & _ & Hc & Hs & Hp & Hd & Hy & Ha & _).
  apply (outcome_ensures _ _ _ _ analyzeContent_returns) in Hc
    as [[pc Hc] _].
  apply (outcome_ensures _ _ _ _ analyzeSEO_returns) in Hs as [ps Hs].
  apply (outcome_ensures _ _ _ _ analyzePerformance_returns) in Hp
    as [pp Hp].
  apply (outcome_ensures _ _ _ _ analyzeDesign_returns) in Hd as [pd Hd].
  apply (outcome_ensures _ _ _ _ analyzePsychology_returns) in Hy
    as [py Hy].
  apply (outcome_ensures _ _ _ _ analyzeAccessibility_returns) in Ha
    as (pa & Ha & Haria & Halt).
  pose proof (content_score_range pc) as Rc.
  pose proof (seo_score_range ps) as Rs.
  pose proof (performance_score_range pp) as Rp.
  pose proof (design_score_range pd) as Rd.
  pose proof (psychology_score_range py) as Ry.
  pose proof (accessibility_score_range pa Haria Halt) as Ra.
  rewrite <- Hc in Rc. rewrite <- Hs in Rs. rewrite <- Hp in Rp.
  rewrite <- Hd in Rd. rewrite <- Hy in Ry. rewrite <- Ha in Ra.
  repeat (split; [lia |]).
  rewrite Hall. unfold calculateOverallScore. cbv zeta.
  cbn [analysesOf Analyses.seoAnalysis Analyses.contentAnalysis
       Analyses.performanceAnalysis Analyses.psychologyAnalysis
       Analyses.designAnalysis Analyses.accessibilityAnalysis].
  destruct Rc as [Rc _], Rs as [Rs _], Rp as [Rp _], Rd as [Rd _],
    Ry as [Ry _], Ra as [Ra _].
  rewrite Zle_Qle in Rc, Rs, Rp, Rd, Ry, Ra.
  change (inject_Z 70) with 70%Q in *. change (inject_Z 50) with 50%Q in *.
  change (inject_Z 60) with 60%Q in *. change (inject_Z 0) with 0%Q in *.
  apply round_ge. change (inject_Z 55) with 55%Q.
  repeat match goal with
         | H : (_ <= inject_Z ?s)%Q |- _ =>
             generalize dependent (inject_Z s); intros
         end.
  lra.
Qed.

(** X18: what a call of [analyze] leaves in the analyzer.  The url is
    stored first, so it is the new one even when the call fails.  When the
    request fails the page held before stays, so that the analysis methods
    that read the page only return afterwards what they returned before;
    when the call returns a report the page fetched and its parse are
    held. *)
Theorem analyzer_after_call env m u :
  let after := this (snd (analyze u env m)) in
  url after = u
  /\ (forall e,
        axios_get env u = Throw e ->
        html after = html (this m)
        /\ dollar after = dollar (this m)
        /\ outcome analyzeContent after = outcome analyzeContent (this m)
        /\ outcome analyzePerformance after
           = outcome analyzePerformance (this m)
        /\ outcome analyzeDesign after = outcome analyzeDesign (this m)
        /\ outcome analyzePsychology after
           = outcome analyzePsychology (this m)
        /\ outcome analyzeAccessibility after
           = outcome analyzeAccessibility (this m))
  /\ (forall r data,
        fst (analyze u env m) = Normal r ->
        axios_get env u = Normal data ->
        html after = data /\ dollar after = Some (Cheerio.load data)).
Proof.
  cbv zeta. rewrite analyze_run. unfold machineAfter. cbn [snd this].
  split; [now destruct (axios_get env u) |]. split.
  - intros e ->. cbn [html dollar].
    repeat split;
      apply outcome_same_page; try reflexivity;
      first [ apply analyzeContent_reads | apply analyzePerformance_reads
            | apply analyzeDesign_reads | apply analyzePsychology_reads
            | apply analyzeAccessibility_reads ].
  - intros r data _ ->. split; reflexivity.
Qed.

End Advice.

(** ** The request handler *)

(** The prefix [analyze] puts before a message does not change what the
    handler tells the user. *)
Lemma userMessage_prefix message :
  Route.userMessage ("Analysis failed: " ++ message)
  = Route.userMessage message.
Proof. reflexivity. Qed.

Section Requests.

Context {cheerio : Cheerio.API}.

(** X19: the handler answers 200, 400 or 500.  It answers 400 exactly when
    the body is read, is not [null], and its url is missing, empty or not
    accepted by [URL]; then nothing is logged and nothing is fetched.  A
    body that cannot be read gives 500, not 400, with nothing fetched, and
    so does the body [null], which cannot be destructured.  Any other
    request sends exactly one GET, for the url given. *)
Theorem POST_statuses server json w :
  let response := fst (Route.POST server json w) in
  let w' := snd (Route.POST server json w) in
  In (Route.status response) [200; 400; 500]
  /\ (Route.status response = 400
      <-> exists url,
            json = Normal (Route.JValue url)
            /\ (falsy url = true
                \/ Route.parses server (orEmpty url) = false))
  /\ (Route.status response = 400 ->
      w' = w /\ exists error, Route.body response = Route.Refused error)
  /\ (forall error,
        json = Throw error ->
        Route.status response = 500 /\ Route.sent w' = Route.sent w)
  /\ (json = Normal Route.JNull ->
      Route.status response = 500 /\ Route.sent w' = Route.sent w)
  /\ (forall url,
        json = Normal (Route.JValue url) -> Route.status response <> 400 ->
        Route.sent w' = orEmpty url :: Route.sent w).
Proof.
  cbv zeta. unfold Route.POST, Route.onError.
  destruct json as [[| url] | error];
    cbn [bind Monad_completion Route.destructure].
  - cbn [fst snd Route.status Route.body Route.sent].
    split; [simpl; tauto |].
    split; [split; [discriminate | intros (u & Hu & _); discriminate] |].
    split; [discriminate |].
    split; [discriminate |].
    split; [now intros _ | discriminate].
  - destruct (falsy url) eqn:Hfalsy;
      [| destruct (Route.parses server (orEmpty url)) eqn:Hparses;
         cbn [negb];
         [rewrite analyze_run;
          destruct (completionOf (Route.outside server) (orEmpty url)) |]];
      cbn [fst snd Route.status Route.body Route.sent Route.logLine
           machineAfter requests];
      repeat match goal with
             | |- _ /\ _ => split
             end;
      first [ solve [simpl; tauto]
            | discriminate
            | solve [intros; eauto]
            | solve [split; [eauto | reflexivity]]
            | solve [split;
                     [ discriminate
                     | intros (u & [= <-] & [Hu | Hu]); congruence ]]
            | solve [intros u [= <-] _; reflexivity]
            | intros u _ Hne; now elim Hne ].
  - cbn [fst snd Route.status Route.body Route.sent].
    split; [simpl; tauto |].
    split; [split; [discriminate | intros (u & Hu & _); discriminate] |].
    split; [discriminate |].
    split; [now intros e _ |].
    split; discriminate.
Qed.

(** X20: a request whose analysis fails.  The answer is 500 with the error
    'Analysis failed'; the message for the user is chosen by the underlying
    message of the failure, which the prefix put by [analyze] does not
    change; the details are the prefixed message in development and absent
    otherwise; one GET was sent, and the console holds the starting line and
    the error. *)
Theorem POST_failure server url w failure :
  falsy (Some url) = false ->
  Route.parses server url = true ->
  fst (analyze url (Route.outside server)
         {| this := newAnalyzer; requests := Route.sent w |})
  = Throw failure ->
  exists cause,
    failure = Error ("Analysis failed: " ++ underlying cause)
    /\ Route.POST server (Normal (Route.JValue (Some url))) w
       = ({| Route.body :=
               Route.Failed "Analysis failed"
                 (Route.userMessage (underlying cause))
                 (if Route.development server
                  then Some ("Analysis failed: " ++ underlying cause)%js
                  else None);
             Route.status := 500 |},
          {| Route.sent := url :: Route.sent w;
             Route.console :=
               Route.console w
               ++ [ Route.Log
                      ("Starting enterprise-grade analysis for: " ++ url);
                    Route.LogError "Analysis error:" failure ] |}).
Proof.
  intros Hfalsy Hparses Hrun.
  assert (Hcause : exists cause,
            failure = Error ("Analysis failed: " ++ underlying cause)).
  { rewrite analyze_run in Hrun. unfold completionOf in Hrun. simpl in Hrun.
    destruct (axios_get (Route.outside server) url) as [data | cause].
    - destruct (gather (afterFetch url data)) as [analyses | cause];
        [discriminate |].
      injection Hrun as <-. now exists cause.
    - injection Hrun as <-. now exists cause. }
  destruct Hcause as [cause ->]. exists cause. split; [reflexivity |].
  unfold Route.POST. cbn [bind Monad_completion Route.destructure].
  rewrite Hfalsy. cbn [orEmpty]. rewrite Hparses.
  cbn [negb]. rewrite analyze_run in *. cbn [fst] in Hrun. rewrite Hrun.
  unfold Route.onError, Route.logLine.
  cbn [Route.sent Route.console machineAfter requests].
  rewrite userMessage_prefix, <- app_assoc. reflexivity.
Qed.

(** X21: a request whose analysis succeeds.  The answer is 200 with the
    report, the tier 'free' and the upgrade offered exactly when the
    psychology score or the design score of the report is below 70; one GET
    was sent, and the console holds the starting line and the line with the
    overall score. *)
Theorem POST_success server url w analysis :
  falsy (Some url) = false ->
  Route.parses server url = true ->
  fst (analyze url (Route.outside server)
         {| this := newAnalyzer; requests := Route.sent w |})
  = Normal analysis ->
  Route.POST server (Normal (Route.JValue (Some url))) w
  = ({| Route.body :=
          Route.Analysed true analysis "free"
            ((PsychologyAnalysis.score
                (AnalysisResult.psychologyAnalysis analysis) <? 70)%Z
             || (DesignAnalysis.score
                   (AnalysisResult.designAnalysis analysis) <? 70)%Z);
        Route.status := 200 |},
     {| Route.sent := url :: Route.sent w;
        Route.console :=
          Route.console w
          ++ [ Route.Log ("Starting enterprise-grade analysis for: " ++ url);
               Route.Log
                 ("Analysis completed. Overall score: "
                  ++ Route.showInt (AnalysisResult.overallScore analysis))
             ] |}).
Proof.
  intros Hfalsy Hparses Hrun.
  destruct (report_advice _ _ _ _ Hrun) as (_ & _ & Hstrat & _ & Hprem & _).
  assert (Hup :
    (0 <? AnalysisResult.premiumInsightsAvailable analysis)
    = (PsychologyAnalysis.score
         (AnalysisResult.psychologyAnalysis analysis) <? 70)%Z
      || (DesignAnalysis.score
            (AnalysisResult.designAnalysis analysis) <? 70)%Z).
  { rewrite Hprem, Hstrat. unfold generateRecommendations. cbv zeta.
    cbn [Recommendations.strategicImprovements analysesOf
         Analyses.psychologyAnalysis Analyses.designAnalysis].
    destruct (PsychologyAnalysis.score _ <? 70)%Z,
      (DesignAnalysis.score _ <? 70)%Z; reflexivity. }
  unfold Route.POST. cbn [bind Monad_completion Route.destructure].
  rewrite Hfalsy. cbn [orEmpty]. rewrite Hparses.
  cbn [negb]. rewrite analyze_run in *. cbn [fst] in Hrun. rewrite Hrun.
  unfold Route.logLine.
  cbn [Route.sent Route.console machineAfter requests].
  rewrite Hup, <- app_assoc. reflexivity.
Qed.

End Requests.

(** ** The report of the sample page *)

(** The sample page has four words, taken from its body. *)
Lemma content_text_fields_witness :
  exists r data (body : @Cheerio.Selection Dom.api),
    fst (analyze Samples.site (Samples.serving Samples.page Samples.morning)
           Samples.fresh) = Normal r
    /\ Cheerio.select (Cheerio.load data) "body" = Normal body
    /\ ContentAnalysis.wordCount (AnalysisResult.contentAnalysis r)
       = countWords (Cheerio.text body)
    /\ ContentAnalysis.wordCount (AnalysisResult.contentAnalysis r) = 4.
Proof.
  destruct (content_text_fields
              (Samples.serving Samples.page Samples.morning) Samples.fresh
              Samples.site _ ltac:(vm_compute; reflexivity))
    as (data & body & _ & Hbody & Hwords & _).
  eexists. exists data, body.
  split; [vm_compute; reflexivity |]. split; [exact Hbody |].
  split; [exact Hwords | reflexivity].
Defined.

(** Its content score is 85: 70, 10 for the readability and 5 for the
    spelling. *)
Lemma content_score_from_report_witness :
  exists r,
    fst (analyze Samples.site (Samples.serving Samples.page Samples.morning)
           Samples.fresh) = Normal r
    /\ ContentAnalysis.score (AnalysisResult.contentAnalysis r) = 85%Z
    /\ ContentAnalysis.score (AnalysisResult.contentAnalysis r)
       = (70 + gate (300 <=? ContentAnalysis.wordCount
                                (AnalysisResult.contentAnalysis r))%nat 10
          + gate (60 <=? ContentAnalysis.readabilityScore
                           (AnalysisResult.contentAnalysis r))%Z 10
          + gate (List.length
                    (ContentAnalysis.spellingIssues
                       (AnalysisResult.contentAnalysis r)) =? 0)%nat 5
          + gate (ContentQuality.hasClearValue
                    (ContentAnalysis.contentQuality
                       (AnalysisResult.contentAnalysis r))) 5)%Z.
Proof.
  eexists. split; [vm_compute; reflexivity |]. split; [reflexivity |].
  apply (proj1 (content_score_from_report
                  (Samples.serving Samples.page Samples.morning)
                  Samples.fresh Samples.site _
                  ltac:(vm_compute; reflexivity))).
Defined.

(** Its title of 12 characters is present and not optimized. *)
Lemma seo_report_consistent_witness :
  exists r,
    fst (analyze Samples.site (Samples.serving Samples.page Samples.morning)
           Samples.fresh) = Normal r
    /\ MetaTag.length (SEOAnalysis.title (AnalysisResult.seoAnalysis r)) = 12
    /\ MetaTag.present (SEOAnalysis.title (AnalysisResult.seoAnalysis r))
       = (0 <? MetaTag.length
                 (SEOAnalysis.title (AnalysisResult.seoAnalysis r))).
Proof.
  eexists. split; [vm_compute; reflexivity |]. split; [reflexivity |].
  apply (proj1 (proj2 (seo_report_consistent
                         (Samples.serving Samples.page Samples.morning)
                         Samples.fresh Samples.site _
                         ltac:(vm_compute; reflexivity)))).
Defined.

(** Its one image gives an estimated load time of 0.1. *)
Lemma performance_report_consistent_witness :
  exists r,
    fst (analyze Samples.site (Samples.serving Samples.page Samples.morning)
           Samples.fresh) = Normal r
    /\ PerformanceAnalysis.images (AnalysisResult.performanceAnalysis r) = 1
    /\ (PerformanceAnalysis.estimatedLoadTime
          (AnalysisResult.performanceAnalysis r)
        == inject_Z
             (Z.of_nat
                (20 * PerformanceAnalysis.scripts
                        (AnalysisResult.performanceAnalysis r)
                 + 15 * PerformanceAnalysis.styles
                          (AnalysisResult.performanceAnalysis r)
                 + 10 * PerformanceAnalysis.images
                          (AnalysisResult.performanceAnalysis r))) / 100)%Q.
Proof.
  eexists. split; [vm_compute; reflexivity |]. split; [reflexivity |].
  apply (proj1 (proj2 (performance_report_consistent
                         (Samples.serving Samples.page Samples.morning)
                         Samples.fresh Samples.site _
                         ltac:(vm_compute; reflexivity)))).
Defined.

(** The page with a heading of 18 pixels lists that one size. *)
Lemma design_report_consistent_witness :
  exists r,
    fst (analyze Samples.site
           (Samples.serving Samples.withLargeHeading Samples.morning)
           Samples.fresh) = Normal r
    /\ DesignAnalysis.fontSizes (AnalysisResult.designAnalysis r) = [18%Z]
    /\ List.length (DesignAnalysis.fontSizes (AnalysisResult.designAnalysis r))
       = Nat.min 10
           (DesignAnalysis.fontVariety (AnalysisResult.designAnalysis r)).
Proof.
  eexists. split; [vm_compute; reflexivity |]. split; [reflexivity |].
  apply (proj1 (proj2 (proj2 (proj2 (proj2 (proj2 (proj2
           (design_report_consistent
              (Samples.serving Samples.withLargeHeading Samples.morning)
              Samples.fresh Samples.site _
              ltac:(vm_compute; reflexivity))))))))).
Defined.

(** The page with a call to action scores 70: 50 and 20 for the call. *)
Lemma psychology_report_consistent_witness :
  exists r,
    fst (analyze Samples.site
           (Samples.serving Samples.withCta Samples.morning) Samples.fresh)
    = Normal r
    /\ PsychologyAnalysis.score (AnalysisResult.psychologyAnalysis r) = 70%Z
    /\ PsychologyAnalysis.score (AnalysisResult.psychologyAnalysis r)
       = (50 + gate (3 <=? List.length
                             (TrustSignals.present
                                (PsychologyAnalysis.trustSignals
                                   (AnalysisResult.psychologyAnalysis r))))%nat
                 20
          + gate (1 <=? CtaPlacement.ctaCount
                          (PsychologyAnalysis.ctaPlacement
                             (AnalysisResult.psychologyAnalysis r)))%nat 20
          + gate (PsychologyAnalysis.socialProof
                    (AnalysisResult.psychologyAnalysis r)) 10)%Z.
Proof.
  eexists. split; [vm_compute; reflexivity |]. split; [reflexivity |].
  apply (proj1 (psychology_report_consistent
                  (Samples.serving Samples.withCta Samples.morning)
                  Samples.fresh Samples.site _
                  ltac:(vm_compute; reflexivity))).
Defined.

(** The sample page scores 50 and needs improvement. *)
Lemma accessibility_report_consistent_witness :
  exists r,
    fst (analyze Samples.site (Samples.serving Samples.page Samples.morning)
           Samples.fresh) = Normal r
    /\ AccessibilityAnalysis.score (AnalysisResult.accessibilityAnalysis r)
       = 50%Z
    /\ (AccessibilityAnalysis.wcagCompliance
          (AnalysisResult.accessibilityAnalysis r) = "Needs Improvement"
        <-> (AccessibilityAnalysis.score
               (AnalysisResult.accessibilityAnalysis r) < 60)%Z).
Proof.
  eexists. split; [vm_compute; reflexivity |]. split; [reflexivity |].
  apply (proj1 (proj2 (proj2 (accessibility_report_consistent
                         (Samples.serving Samples.page Samples.morning)
                         Samples.fresh Samples.site _
                         ltac:(vm_compute; reflexivity))))).
Defined.

(** The content part and the SEO part both count one [h1]. *)
Lemma report_parts_agree_witness :
  exists r,
    fst (analyze Samples.site (Samples.serving Samples.page Samples.morning)
           Samples.fresh) = Normal r
    /\ SEOAnalysis.h1Count (AnalysisResult.seoAnalysis r) = 1
    /\ HeadingAnalysis.h1Count
         (ContentAnalysis.headingStructure (AnalysisResult.contentAnalysis r))
       = SEOAnalysis.h1Count (AnalysisResult.seoAnalysis r).
Proof.
  eexists. split; [vm_compute; reflexivity |]. split; [reflexivity |].
  apply (proj1 (report_parts_agree
                  (Samples.serving Samples.page Samples.morning)
                  Samples.fresh Samples.site _
                  ltac:(vm_compute; reflexivity))).
Defined.

(** The sample page, with no trust signal and no call to action, gets the
    trust signal advice. *)
Lemma advice_conditions_witness :
  exists r,
    fst (analyze Samples.site (Samples.serving Samples.page Samples.morning)
           Samples.fresh) = Normal r
    /\ map Recommendation.title (AnalysisResult.strategicImprovements r)
       = ["Enhance Trust Signals"]
    /\ (In "Enhance Trust Signals"
          (map Recommendation.title (AnalysisResult.strategicImprovements r))
        <-> List.length
              (TrustSignals.present
                 (PsychologyAnalysis.trustSignals
                    (AnalysisResult.psychologyAnalysis r))) < 3
            /\ CtaPlacement.ctaCount
                 (PsychologyAnalysis.ctaPlacement
                    (AnalysisResult.psychologyAnalysis r)) = 0).
Proof.
  eexists. split; [vm_compute; reflexivity |]. split; [reflexivity |].
  apply (proj1 (proj2 (advice_conditions
                         (Samples.serving Samples.page Samples.morning)
                         Samples.fresh Samples.site _
                         ltac:(vm_compute; reflexivity)))).
Defined.

(** The bare page attains the six lowest module scores and the overall
    score 55. *)
Lemma overall_at_least_55_witness :
  exists r,
    fst (analyze Samples.site (Samples.serving barePage Samples.morning)
           Samples.fresh) = Normal r
    /\ scores r = [70; 50; 70; 60; 50; 0; 55]%Z
    /\ (55 <= AnalysisResult.overallScore r)%Z.
Proof.
  eexists. split; [vm_compute; reflexivity |]. split; [reflexivity |].
  apply (proj2 (proj2 (proj2 (proj2 (proj2 (proj2
           (overall_at_least_55
              (Samples.serving barePage Samples.morning)
              Samples.fresh Samples.site _
              ltac:(vm_compute; reflexivity)))))))).
Defined.

(** Two labelled [div] elements and one link without label: the ARIA score
    is 200, minus one label is missing, and the level is AA. *)
Example aria_score_above_100 :
  exists r,
    fst (analyze Samples.site (Samples.serving labelledPage Samples.morning)
           Samples.fresh) = Normal r
    /\ (AccessibilityAnalysis.ariaScore
          (AnalysisResult.accessibilityAnalysis r) == 200)%Q
    /\ AccessibilityAnalysis.ariaMissing
         (AnalysisResult.accessibilityAnalysis r) = (-1)%Z
    /\ AccessibilityAnalysis.wcagCompliance
         (AnalysisResult.accessibilityAnalysis r) = "AA".
Proof. eexists. split; [vm_compute; reflexivity |]. repeat split. Qed.

(** A host that cannot be found: the user is told that the website could
    not be reached, without details outside development. *)
Lemma POST_failure_witness :
  Route.body
    (fst (@Route.POST Dom.api
            {| Route.outside := Samples.offline;
               Route.parses := fun _ => true;
               Route.development := false;
                 Route.nullMessage := Route.sampleNullMessage |}
            (Normal (Route.JValue (Some Samples.site)))
            {| Route.sent := []; Route.console := [] |}))
  = Route.Failed "Analysis failed"
      "Could not reach the website. Please check the URL and try again."
      None.
Proof.
  destruct (@POST_failure Dom.api
              {| Route.outside := Samples.offline;
                 Route.parses := fun _ => true;
                 Route.development := false;
                 Route.nullMessage := Route.sampleNullMessage |}
              Samples.site {| Route.sent := []; Route.console := [] |}
              (Error "Analysis failed: getaddrinfo ENOTFOUND acme.example")
              eq_refl eq_refl eq_refl)
    as (cause & Hcause & Hpost).
  rewrite Hpost. cbn [fst Route.body]. injection Hcause as Hcause.
  rewrite <- Hcause. reflexivity.
Defined.

(** The sample page: the answer is 200 and offers the upgrade, for its
    psychology score of 50. *)
Lemma POST_success_witness :
  exists analysis,
    fst (@Route.POST Dom.api
           {| Route.outside := Samples.serving Samples.page Samples.morning;
              Route.parses := fun _ => true;
              Route.development := false;
                 Route.nullMessage := Route.sampleNullMessage |}
           (Normal (Route.JValue (Some Samples.site)))
           {| Route.sent := []; Route.console := [] |})
    = {| Route.body := Route.Analysed true analysis "free" true;
         Route.status := 200 |}.
Proof.
  eexists.
  erewrite (@POST_success Dom.api
              {| Route.outside :=
                   Samples.serving Samples.page Samples.morning;
                 Route.parses := fun _ => true;
                 Route.development := false;
                 Route.nullMessage := Route.sampleNullMessage |}
              Samples.site {| Route.sent := []; Route.console := [] |})
    by (vm_compute; reflexivity).
  reflexivity.
Defined.
